(** * The SQL destination driver of syslog-ng (modules/afsql/afsql.c)

    A shallow embedding of the destination driver and the properties its
    specification states about it.

    Conventions.
    - A C string ([gchar *]) is the [string] of its characters before the
      terminating NUL; [strlen] is [String.length], [strcmp (a, b) == 0] is
      [String.eqb a b], and a loop [for (i = 0; s[i]; i++)] is a recursion over
      the characters.
    - [gint], [guint32] and [gint32] values are [Z]; where the code mixes a
      signed and an unsigned operand the conversion is written out.  A flag
      word is a [Z] tested with [Z.land].
    - Functions of the database thread pass the driver structure through
      every call: they live in the state monad [M] over [AFSqlDestDriver].
    - What the driver library (libdbi), the template engine and the host
      answer is not decided by this file.  They are the interfaces [Host] and
      [Dbi]; the answers of the database are functions of the history of
      calls ([trace]), so every statement holds for all possible answers. *)

From Stdlib Require Import ZArith Ascii String List Lia Bool.
From stdpp Require Import base gmap strings.
Import ListNotations.

Local Open Scope Z_scope.

(** * Part I: the embedding *)

(** ** Build configuration *)

(** What the compiler and [config.h] fix: whether plain [char] is signed, and
    whether the driver is built with OpenSSL ([ENABLE_SSL]). *)
Class BuildConfig := {
  char_is_signed : bool;
  ENABLE_SSL : bool
}.

(** ** Constants of the source *)

(** [enum { AFSQL_FF_DEFAULT = 0x0001 }] *)
Definition AFSQL_FF_DEFAULT : Z := 1.

(** [enum { AFSQL_DDF_EXPLICIT_COMMITS = 0x0001, AFSQL_DDF_DONT_CREATE_TABLES = 0x0002 }] *)
Definition AFSQL_DDF_EXPLICIT_COMMITS : Z := 1.

Definition AFSQL_DDF_DONT_CREATE_TABLES : Z := 2.

Definition MAX_FAILED_ATTEMPTS : Z := 3.

Definition MD5_DIGEST_LENGTH : nat := 16.

Definition s_oracle : string := "oracle".

Definition s_freetds : string := "freetds".

(** [flags & FLAG] as a truth value. *)
Definition has_flag (flags flag : Z) : bool := negb (Z.eqb (Z.land flags flag) 0).

(** The conversion of a [gint] to [guint32] in a mixed comparison. *)
Definition to_guint32 (x : Z) : Z := x mod 2 ^ 32.

(** ** Characters *)

Section Characters.

Context {build : BuildConfig}.

(** The value of a [gchar] in an integer comparison. *)
Definition gchar_val (c : ascii) : Z :=
  let n := Z.of_N (N_of_ascii c) in
  if char_is_signed && (128 <=? n) then n - 256 else n.

(** GLib's [g_ascii_tolower]: the upper-case ASCII letters are mapped to lower
    case, every other byte is returned as it is. *)
Definition g_ascii_tolower (c : ascii) : ascii :=
  let n := N_of_ascii c in
  if (65 <=? n)%N && (n <=? 90)%N then ascii_of_N (n + 32) else c.

(** [for (i = 0; i < len; ++i) if (port[i] < '0' || port[i] > '9') return FALSE;] *)
Fixpoint afsql_dd_check_port (port : string) : bool :=
  match port with
  | EmptyString => true
  | String c rest =>
      if (gchar_val c <? 48) || (57 <? gchar_val c) then false
      else afsql_dd_check_port rest
  end.

(** The condition under which [afsql_dd_check_sql_identifier] leaves
    [token[i]] alone:
    [(token[i] == '.') || (token[i] == '_')
     || (i && token[i] >= '0' && token[i] <= '9')
     || (g_ascii_tolower(token[i]) >= 'a' && g_ascii_tolower(token[i]) <= 'z')]. *)
Definition sql_identifier_char (i : nat) (c : ascii) : bool :=
  Ascii.eqb c "." || Ascii.eqb c "_"
  || (negb (Nat.eqb i 0) && (48 <=? gchar_val c) && (gchar_val c <=? 57))
  || ((97 <=? gchar_val (g_ascii_tolower c))
      && (gchar_val (g_ascii_tolower c) <=? 122)).

(** The loop of [afsql_dd_check_sql_identifier] from index [i] on the rest of
    the buffer; the result is the return value and the buffer as the call
    leaves it. *)
Fixpoint check_sql_identifier_from (i : nat) (token : string) (sanitize : bool)
  : bool * string :=
  match token with
  | EmptyString => (true, EmptyString)
  | String c rest =>
      if sql_identifier_char i c then
        let '(r, rest') := check_sql_identifier_from (S i) rest sanitize in
        (r, String c rest')
      else if sanitize then
        let '(r, rest') := check_sql_identifier_from (S i) rest sanitize in
        (r, String "_" rest')
      else (false, token)
  end.

Definition afsql_dd_check_sql_identifier (token : string) (sanitize : bool)
  : bool * string :=
  check_sql_identifier_from 0 token sanitize.

End Characters.

(** ** The character classes of the specification *)

Definition is_digit (c : ascii) : bool :=
  let n := N_of_ascii c in (48 <=? n)%N && (n <=? 57)%N.

Definition is_letter (c : ascii) : bool :=
  let n := N_of_ascii c in
  ((65 <=? n)%N && (n <=? 90)%N) || ((97 <=? n)%N && (n <=? 122)%N).

Definition is_lower_hex (c : ascii) : bool :=
  let n := N_of_ascii c in
  ((48 <=? n)%N && (n <=? 57)%N) || ((97 <=? n)%N && (n <=? 102)%N).

(** The identifier grammar of the specification: [[A-Za-z_.]] at any
    position, [[0-9]] from position 1 onward. *)
Definition in_identifier_grammar (i : nat) (c : ascii) : bool :=
  is_letter c || Ascii.eqb c "_" || Ascii.eqb c "."
  || (negb (Nat.eqb i 0) && is_digit c).

(** A string is in the grammar when each of its characters is, at its
    position. *)
Definition identifier_in_grammar (s : string) : Prop :=
  forall (i : nat) (c : ascii), String.get i s = Some c -> in_identifier_grammar i c = true.

Fixpoint string_forallb (p : ascii -> bool) (s : string) : bool :=
  match s with
  | EmptyString => true
  | String c rest => p c && string_forallb p rest
  end.

(** The string matches [^i[0-9a-f]{29}$]. *)
Definition matches_oracle_index_name (s : string) : Prop :=
  exists rest : string,
    s = String "i" rest /\ String.length rest = 29%nat
    /\ string_forallb is_lower_hex rest = true.

(** ** Hexadecimal formatting *)

Definition hex_digit (n : N) : ascii :=
  if (n <? 10)%N then ascii_of_N (48 + n) else ascii_of_N (87 + n).

(** One byte as two lower-case hexadecimal digits, as [%02x] prints it. *)
Definition hex_of_byte (b : ascii) : string :=
  let n := N_of_ascii b in
  String (hex_digit (n / 16)) (String (hex_digit (n mod 16)) EmptyString).

Fixpoint hex_of_bytes (data : nat -> ascii) (from count : nat) : string :=
  match count with
  | O => EmptyString
  | S count' => hex_of_byte (data from) +:+ hex_of_bytes data (S from) count'
  end.

Fixpoint string_take (n : nat) (s : string) : string :=
  match n, s with
  | S n', String c rest => String c (string_take n' rest)
  | _, _ => EmptyString
  end.

(** Modelled from the spec: [format_hex_string] (lib/misc.c of the host) is
    not among the sources.  The specification describes its result in
    [afsql_dd_create_index] as "the ASCII-hex of an MD5 digest ... truncated
    to 30 characters", in lower case ([[0-9a-f]]): the bytes of [data] in
    hexadecimal, cut to what fits a buffer of [result_len] bytes with its
    terminating NUL. *)
Definition format_hex_string (data : nat -> ascii) (data_len result_len : nat) : string :=
  string_take (result_len - 1) (hex_of_bytes data 0 data_len).

(** [hash_str[0] = c] on a C string held in a buffer. *)
Definition set_first_char (c : ascii) (s : string) : string :=
  match s with
  | EmptyString => String c EmptyString
  | String _ rest => String c rest
  end.

(** ** The host: messages, templates, results, OpenSSL *)

Inductive time_zone := LTZ_LOCAL | LTZ_SEND.

(** The collaborators the driver is linked with.  A template is evaluated on
    a message, a time zone selector and a sequence number; a query result
    answers which position a field name has (0 if absent); [MD5 s i] is byte
    [i] of the digest of [s]; [AFSQL_COLUMN_DEFAULT] is the constant of
    afsql.h that marks a value as "use the column's default". *)
Class Host := {
  LogMessage : Type;
  LogTemplate : Type;
  log_template_compile : string -> LogTemplate;
  log_template_format : LogTemplate -> LogMessage -> time_zone -> Z -> string;
  dbi_result : Type;
  dbi_result_get_field_idx : dbi_result -> string -> Z;
  init_sequence_number : Z;
  step_sequence_number : Z -> Z;
  MD5 : string -> nat -> ascii;
  AFSQL_COLUMN_DEFAULT : Z
}.

(** ** Data model *)

Section Model.

Context {build : BuildConfig} {host : Host}.

(** [struct _AFSqlField] *)
Record AFSqlField := {
  f_flags : Z;
  f_name : string;
  f_type : string;
  f_value : option LogTemplate
}.

(** An entry of the [values] list of the configuration: a template string
    (a pointer, above 4096) or a small code such as [AFSQL_COLUMN_DEFAULT]. *)
Inductive AFSqlValue :=
  | ValueTemplate (template : string)
  | ValueCode (code : Z).

(** Modelled from the spec: the [LogQueue] of the host (lib/logqueue.c) is
    not among the sources.  The specification gives its contract: [pop_head],
    [push_head] (rewind one), [rewind_backlog(n)], [rewind_backlog_all],
    [ack_backlog(n)], and "backlog: portion of the queue whose entries have
    been popped but not yet acknowledged; can be rewound wholesale on
    failure".  [q_items] is the queue from its head, [q_backlog] the backlog,
    oldest entry first. *)
Record LogQueue := {
  q_items : list LogMessage;
  q_backlog : list LogMessage;
  use_backlog : bool
}.

Definition log_queue_set_use_backlog (q : LogQueue) (b : bool) : LogQueue :=
  {| q_items := q_items q; q_backlog := q_backlog q; use_backlog := b |}.

Definition log_queue_pop_head (q : LogQueue) : option LogMessage * LogQueue :=
  match q_items q with
  | [] => (None, q)
  | m :: rest =>
      (Some m,
       {| q_items := rest;
          q_backlog := if use_backlog q then q_backlog q ++ [m] else q_backlog q;
          use_backlog := use_backlog q |})
  end.

Definition log_queue_push_head (q : LogQueue) (m : LogMessage) : LogQueue :=
  {| q_items := m :: q_items q; q_backlog := q_backlog q; use_backlog := use_backlog q |}.

(** The [n] youngest backlog entries go back to the head of the queue, in
    their order. *)
Definition log_queue_rewind_backlog (q : LogQueue) (n : nat) : LogQueue :=
  let keep := (length (q_backlog q) - n)%nat in
  {| q_items := skipn keep (q_backlog q) ++ q_items q;
     q_backlog := firstn keep (q_backlog q);
     use_backlog := use_backlog q |}.

Definition log_queue_rewind_backlog_all (q : LogQueue) : LogQueue :=
  {| q_items := q_backlog q ++ q_items q; q_backlog := []; use_backlog := use_backlog q |}.

(** The [n] oldest backlog entries are acknowledged and leave the backlog
    (all of them when [n] exceeds their number). *)
Definition log_queue_ack_backlog (q : LogQueue) (n : Z) : LogQueue :=
  let acked := Z.to_nat (Z.min n (Z.of_nat (length (q_backlog q)))) in
  {| q_items := q_items q; q_backlog := skipn acked (q_backlog q);
     use_backlog := use_backlog q |}.

Definition log_queue_has_items (q : LogQueue) : bool :=
  match q_items q with [] => false | _ :: _ => true end.

(** What the database thread does to the outside, youngest event first. *)
Inductive event :=
  | EvConnNew (type : string) (ok : bool)
  | EvConnect (ok : bool)
  | EvClose
  | EvQuery (query : string) (ok : bool)
  | EvPing (alive : bool)
  | EvPopHead
  | EvPushHead (msg : LogMessage)
  | EvRewindBacklog (n : Z)
  | EvRewindBacklogAll
  | EvAckBacklog (n : Z)
  | EvMsgAck (msg : LogMessage)
  | EvMsgDrop (msg : LogMessage).

(** The driver library: whether a driver of a name exists, and what the
    database answers to a connect, a query and a ping after a given history;
    [dbi_conn_quote_string_copy] yields no string when quoting fails. *)
Class Dbi := {
  dbi_conn_new_r : string -> bool;
  dbi_conn_connect : list event -> bool;
  dbi_conn_query : list event -> string -> option dbi_result;
  dbi_conn_ping : list event -> bool;
  dbi_conn_quote_string_copy : string -> option string
}.

(** [struct _AFSqlDestDriver], without the members that only feed the
    connection options and the diagnostics (host, port, user, password,
    database, encoding), the lock and the condition.  [queue] and [fields]
    are [NULL] before initialization: an empty queue record and [None].
    [dropped_messages] is the value of the statistics counter; [trace] is the
    history of calls to the outside. *)
Record AFSqlDestDriver := {
  type : string;
  columns : list string;
  values : list AFSqlValue;
  indexes : list string;
  table : LogTemplate;
  fields : option (list AFSqlField);
  null_value : option string;
  time_reopen : Z;
  num_retries : Z;
  flush_lines : Z;
  flush_lines_queued : Z;
  flags : Z;
  session_statements : list string;
  dropped_messages : Z;
  db_thread_suspended : bool;
  queue : LogQueue;
  seq_num : Z;
  dbi_ctx : bool;
  validated_tables : gset string;
  failed_message_counter : Z;
  enable_indexes : bool;
  transaction_active : bool;
  trace : list event
}.

(** [self->fields] with [self->fields_len] entries. *)
Definition fields_of (self : AFSqlDestDriver) : list AFSqlField :=
  match fields self with Some fs => fs | None => [] end.

(** *** Assignments to the members *)

Definition set_type (v : string) (s : AFSqlDestDriver) : AFSqlDestDriver :=
  Build_AFSqlDestDriver v (columns s) (values s) (indexes s) (table s) (fields s)
    (null_value s) (time_reopen s) (num_retries s) (flush_lines s) (flush_lines_queued s)
    (flags s) (session_statements s) (dropped_messages s) (db_thread_suspended s) (queue s)
    (seq_num s) (dbi_ctx s) (validated_tables s) (failed_message_counter s)
    (enable_indexes s) (transaction_active s) (trace s).

Definition set_columns (v : list string) (s : AFSqlDestDriver) : AFSqlDestDriver :=
  Build_AFSqlDestDriver (type s) v (values s) (indexes s) (table s) (fields s)
    (null_value s) (time_reopen s) (num_retries s) (flush_lines s) (flush_lines_queued s)
    (flags s) (session_statements s) (dropped_messages s) (db_thread_suspended s) (queue s)
    (seq_num s) (dbi_ctx s) (validated_tables s) (failed_message_counter s)
    (enable_indexes s) (transaction_active s) (trace s).

Definition set_values (v : list AFSqlValue) (s : AFSqlDestDriver) : AFSqlDestDriver :=
  Build_AFSqlDestDriver (type s) (columns s) v (indexes s) (table s) (fields s)
    (null_value s) (time_reopen s) (num_retries s) (flush_lines s) (flush_lines_queued s)
    (flags s) (session_statements s) (dropped_messages s) (db_thread_suspended s) (queue s)
    (seq_num s) (dbi_ctx s) (validated_tables s) (failed_message_counter s)
    (enable_indexes s) (transaction_active s) (trace s).

Definition set_indexes (v : list string) (e : bool) (s : AFSqlDestDriver) : AFSqlDestDriver :=
  Build_AFSqlDestDriver (type s) (columns s) (values s) v (table s) (fields s)
    (null_value s) (time_reopen s) (num_retries s) (flush_lines s) (flush_lines_queued s)
    (flags s) (session_statements s) (dropped_messages s) (db_thread_suspended s) (queue s)
    (seq_num s) (dbi_ctx s) (validated_tables s) (failed_message_counter s)
    e (transaction_active s) (trace s).

Definition set_table (v : LogTemplate) (s : AFSqlDestDriver) : AFSqlDestDriver :=
  Build_AFSqlDestDriver (type s) (columns s) (values s) (indexes s) v (fields s)
    (null_value s) (time_reopen s) (num_retries s) (flush_lines s) (flush_lines_queued s)
    (flags s) (session_statements s) (dropped_messages s) (db_thread_suspended s) (queue s)
    (seq_num s) (dbi_ctx s) (validated_tables s) (failed_message_counter s)
    (enable_indexes s) (transaction_active s) (trace s).

Definition set_fields (v : option (list AFSqlField)) (s : AFSqlDestDriver) : AFSqlDestDriver :=
  Build_AFSqlDestDriver (type s) (columns s) (values s) (indexes s) (table s) v
    (null_value s) (time_reopen s) (num_retries s) (flush_lines s) (flush_lines_queued s)
    (flags s) (session_statements s) (dropped_messages s) (db_thread_suspended s) (queue s)
    (seq_num s) (dbi_ctx s) (validated_tables s) (failed_message_counter s)
    (enable_indexes s) (transaction_active s) (trace s).

Definition set_null_value (v : option string) (s : AFSqlDestDriver) : AFSqlDestDriver :=
  Build_AFSqlDestDriver (type s) (columns s) (values s) (indexes s) (table s) (fields s)
    v (time_reopen s) (num_retries s) (flush_lines s) (flush_lines_queued s)
    (flags s) (session_statements s) (dropped_messages s) (db_thread_suspended s) (queue s)
    (seq_num s) (dbi_ctx s) (validated_tables s) (failed_message_counter s)
    (enable_indexes s) (transaction_active s) (trace s).

Definition set_time_reopen (v : Z) (s : AFSqlDestDriver) : AFSqlDestDriver :=
  Build_AFSqlDestDriver (type s) (columns s) (values s) (indexes s) (table s) (fields s)
    (null_value s) v (num_retries s) (flush_lines s) (flush_lines_queued s)
    (flags s) (session_statements s) (dropped_messages s) (db_thread_suspended s) (queue s)
    (seq_num s) (dbi_ctx s) (validated_tables s) (failed_message_counter s)
    (enable_indexes s) (transaction_active s) (trace s).

Definition set_num_retries (v : Z) (s : AFSqlDestDriver) : AFSqlDestDriver :=
  Build_AFSqlDestDriver (type s) (columns s) (values s) (indexes s) (table s) (fields s)
    (null_value s) (time_reopen s) v (flush_lines s) (flush_lines_queued s)
    (flags s) (session_statements s) (dropped_messages s) (db_thread_suspended s) (queue s)
    (seq_num s) (dbi_ctx s) (validated_tables s) (failed_message_counter s)
    (enable_indexes s) (transaction_active s) (trace s).

Definition set_flush_lines (v : Z) (s : AFSqlDestDriver) : AFSqlDestDriver :=
  Build_AFSqlDestDriver (type s) (columns s) (values s) (indexes s) (table s) (fields s)
    (null_value s) (time_reopen s) (num_retries s) v (flush_lines_queued s)
    (flags s) (session_statements s) (dropped_messages s) (db_thread_suspended s) (queue s)
    (seq_num s) (dbi_ctx s) (validated_tables s) (failed_message_counter s)
    (enable_indexes s) (transaction_active s) (trace s).

Definition set_flush_lines_queued (v : Z) (s : AFSqlDestDriver) : AFSqlDestDriver :=
  Build_AFSqlDestDriver (type s) (columns s) (values s) (indexes s) (table s) (fields s)
    (null_value s) (time_reopen s) (num_retries s) (flush_lines s) v
    (flags s) (session_statements s) (dropped_messages s) (db_thread_suspended s) (queue s)
    (seq_num s) (dbi_ctx s) (validated_tables s) (failed_message_counter s)
    (enable_indexes s) (transaction_active s) (trace s).

Definition set_flags (v : Z) (s : AFSqlDestDriver) : AFSqlDestDriver :=
  Build_AFSqlDestDriver (type s) (columns s) (values s) (indexes s) (table s) (fields s)
    (null_value s) (time_reopen s) (num_retries s) (flush_lines s) (flush_lines_queued s)
    v (session_statements s) (dropped_messages s) (db_thread_suspended s) (queue s)
    (seq_num s) (dbi_ctx s) (validated_tables s) (failed_message_counter s)
    (enable_indexes s) (transaction_active s) (trace s).

Definition set_session_statements (v : list string) (s : AFSqlDestDriver) : AFSqlDestDriver :=
  Build_AFSqlDestDriver (type s) (columns s) (values s) (indexes s) (table s) (fields s)
    (null_value s) (time_reopen s) (num_retries s) (flush_lines s) (flush_lines_queued s)
    (flags s) v (dropped_messages s) (db_thread_suspended s) (queue s)
    (seq_num s) (dbi_ctx s) (validated_tables s) (failed_message_counter s)
    (enable_indexes s) (transaction_active s) (trace s).

Definition set_dropped_messages (v : Z) (s : AFSqlDestDriver) : AFSqlDestDriver :=
  Build_AFSqlDestDriver (type s) (columns s) (values s) (indexes s) (table s) (fields s)
    (null_value s) (time_reopen s) (num_retries s) (flush_lines s) (flush_lines_queued s)
    (flags s) (session_statements s) v (db_thread_suspended s) (queue s)
    (seq_num s) (dbi_ctx s) (validated_tables s) (failed_message_counter s)
    (enable_indexes s) (transaction_active s) (trace s).

Definition set_db_thread_suspended (v : bool) (s : AFSqlDestDriver) : AFSqlDestDriver :=
  Build_AFSqlDestDriver (type s) (columns s) (values s) (indexes s) (table s) (fields s)
    (null_value s) (time_reopen s) (num_retries s) (flush_lines s) (flush_lines_queued s)
    (flags s) (session_statements s) (dropped_messages s) v (queue s)
    (seq_num s) (dbi_ctx s) (validated_tables s) (failed_message_counter s)
    (enable_indexes s) (transaction_active s) (trace s).

Definition set_queue (v : LogQueue) (s : AFSqlDestDriver) : AFSqlDestDriver :=
  Build_AFSqlDestDriver (type s) (columns s) (values s) (indexes s) (table s) (fields s)
    (null_value s) (time_reopen s) (num_retries s) (flush_lines s) (flush_lines_queued s)
    (flags s) (session_statements s) (dropped_messages s) (db_thread_suspended s) v
    (seq_num s) (dbi_ctx s) (validated_tables s) (failed_message_counter s)
    (enable_indexes s) (transaction_active s) (trace s).

Definition set_seq_num (v : Z) (s : AFSqlDestDriver) : AFSqlDestDriver :=
  Build_AFSqlDestDriver (type s) (columns s) (values s) (indexes s) (table s) (fields s)
    (null_value s) (time_reopen s) (num_retries s) (flush_lines s) (flush_lines_queued s)
    (flags s) (session_statements s) (dropped_messages s) (db_thread_suspended s) (queue s)
    v (dbi_ctx s) (validated_tables s) (failed_message_counter s)
    (enable_indexes s) (transaction_active s) (trace s).

Definition set_dbi_ctx (v : bool) (s : AFSqlDestDriver) : AFSqlDestDriver :=
  Build_AFSqlDestDriver (type s) (columns s) (values s) (indexes s) (table s) (fields s)
    (null_value s) (time_reopen s) (num_retries s) (flush_lines s) (flush_lines_queued s)
    (flags s) (session_statements s) (dropped_messages s) (db_thread_suspended s) (queue s)
    (seq_num s) v (validated_tables s) (failed_message_counter s)
    (enable_indexes s) (transaction_active s) (trace s).

Definition set_validated_tables (v : gset string) (s : AFSqlDestDriver) : AFSqlDestDriver :=
  Build_AFSqlDestDriver (type s) (columns s) (values s) (indexes s) (table s) (fields s)
    (null_value s) (time_reopen s) (num_retries s) (flush_lines s) (flush_lines_queued s)
    (flags s) (session_statements s) (dropped_messages s) (db_thread_suspended s) (queue s)
    (seq_num s) (dbi_ctx s) v (failed_message_counter s)
    (enable_indexes s) (transaction_active s) (trace s).

Definition set_failed_message_counter (v : Z) (s : AFSqlDestDriver) : AFSqlDestDriver :=
  Build_AFSqlDestDriver (type s) (columns s) (values s) (indexes s) (table s) (fields s)
    (null_value s) (time_reopen s) (num_retries s) (flush_lines s) (flush_lines_queued s)
    (flags s) (session_statements s) (dropped_messages s) (db_thread_suspended s) (queue s)
    (seq_num s) (dbi_ctx s) (validated_tables s) v
    (enable_indexes s) (transaction_active s) (trace s).

Definition set_transaction_active (v : bool) (s : AFSqlDestDriver) : AFSqlDestDriver :=
  Build_AFSqlDestDriver (type s) (columns s) (values s) (indexes s) (table s) (fields s)
    (null_value s) (time_reopen s) (num_retries s) (flush_lines s) (flush_lines_queued s)
    (flags s) (session_statements s) (dropped_messages s) (db_thread_suspended s) (queue s)
    (seq_num s) (dbi_ctx s) (validated_tables s) (failed_message_counter s)
    (enable_indexes s) v (trace s).

Definition set_trace (v : list event) (s : AFSqlDestDriver) : AFSqlDestDriver :=
  Build_AFSqlDestDriver (type s) (columns s) (values s) (indexes s) (table s) (fields s)
    (null_value s) (time_reopen s) (num_retries s) (flush_lines s) (flush_lines_queued s)
    (flags s) (session_statements s) (dropped_messages s) (db_thread_suspended s) (queue s)
    (seq_num s) (dbi_ctx s) (validated_tables s) (failed_message_counter s)
    (enable_indexes s) (transaction_active s) v.

(** ** The state monad of the database thread *)

Definition M (A : Type) : Type := AFSqlDestDriver -> A * AFSqlDestDriver.

Definition ret {A : Type} (a : A) : M A := fun self => (a, self).

Definition bind {A B : Type} (c : M A) (k : A -> M B) : M B :=
  fun self => let '(a, self') := c self in k a self'.

Definition gets {A : Type} (f : AFSqlDestDriver -> A) : M A := fun self => (f self, self).

Definition modify (f : AFSqlDestDriver -> AFSqlDestDriver) : M unit := fun self => (tt, f self).

(** A call to the outside is recorded in the history. *)
Definition emit (e : event) : M unit := modify (fun self => set_trace (e :: trace self) self).

End Model.

Declare Scope driver_scope.
Delimit Scope driver_scope with driver.
Notation "x <- c1 ;; c2" := (bind c1 (fun x => c2))
  (at level 100, c1 at next level, c2 at level 200, right associativity) : driver_scope.
Notation "c1 ;; c2" := (bind c1 (fun _ => c2))
  (at level 100, c2 at level 200, right associativity) : driver_scope.

(** ** The statement builder *)

Section Builder.

Context {build : BuildConfig} {host : Host} {dbi : Dbi}.

(** [(fields[j].flags & AFSQL_FF_DEFAULT) == AFSQL_FF_DEFAULT] *)
Definition field_is_default (f : AFSqlField) : bool :=
  Z.eqb (Z.land (f_flags f) AFSQL_FF_DEFAULT) AFSQL_FF_DEFAULT.

(** [(fields[i].flags & AFSQL_FF_DEFAULT) == 0 && fields[i].value != NULL] *)
Definition field_is_inserted (f : AFSqlField) : bool :=
  Z.eqb (Z.land (f_flags f) AFSQL_FF_DEFAULT) 0
  && match f_value f with Some _ => true | None => false end.

(** [while (j < fields_len && (fields[j].flags & AFSQL_FF_DEFAULT) == AFSQL_FF_DEFAULT) j++;]
    the value of [j] after the loop; [fuel] bounds the number of rounds. *)
Fixpoint skip_default_fields (fs : list AFSqlField) (j fuel : nat) : nat :=
  match fuel with
  | O => j
  | S fuel' =>
      match nth_error fs j with
      | Some f => if field_is_default f then skip_default_fields fs (S j) fuel' else j
      | None => j
      end
  end.

(** The two [for (i = 0; i < fields_len; i++)] loops of
    [afsql_dd_build_insert_command] have one shape: an inserted field appends
    its text ([piece]: the column name in the first loop, the value in the
    second), looks ahead over the fields flagged as default, and appends a
    comma when a field is left.  [acc] is [insert_command] so far. *)
Fixpoint insert_fields_loop (piece : AFSqlField -> string) (fs : list AFSqlField)
    (i fuel : nat) (acc : string) : string :=
  match fuel with
  | O => acc
  | S fuel' =>
      match nth_error fs i with
      | None => acc
      | Some f =>
          let acc' :=
            if field_is_inserted f then
              let j := skip_default_fields fs (S i) (length fs) in
              if Nat.ltb j (length fs) then acc +:+ piece f +:+ ", " else acc +:+ piece f
            else acc in
          insert_fields_loop piece fs (S i) fuel' acc'
      end
  end.

(** What the second loop appends for a rendered [value]: [NULL] when it is
    the configured null value, else the string quoted by the driver, else
    two apostrophes. *)
Definition insert_value_literal (null_value : option string) (value : string) : string :=
  if match null_value with
     | Some null => String.eqb null value
     | None => false
     end
  then "NULL"
  else match dbi_conn_quote_string_copy value with
       | Some quoted => quoted
       | None => "''"
       end.

(** The text the second loop appends for field [f]: its template is formatted
    with the send time zone and the sequence number. *)
Definition insert_value_of_field (null_value : option string) (seq_num : Z)
    (msg : LogMessage) (f : AFSqlField) : string :=
  match f_value f with
  | Some template =>
      insert_value_literal null_value (log_template_format template msg LTZ_SEND seq_num)
  | None => ""
  end.

Definition afsql_dd_build_insert_command (self : AFSqlDestDriver) (msg : LogMessage)
    (table : string) : string :=
  let fs := fields_of self in
  let insert_command := "INSERT INTO " +:+ table +:+ " (" in
  let insert_command := insert_fields_loop f_name fs 0 (length fs) insert_command in
  let insert_command := insert_command +:+ ") VALUES (" in
  let insert_command :=
    insert_fields_loop (insert_value_of_field (null_value self) (seq_num self) msg)
      fs 0 (length fs) insert_command in
  insert_command +:+ ")".

(** The [query_string] that [afsql_dd_create_index] runs.  Without
    [ENABLE_SSL] a long Oracle name only logs a warning and the string stays
    empty. *)
Definition create_index_query (type table column : string) : string :=
  if String.eqb type s_oracle then
    if Nat.ltb 25 (String.length table + String.length column) then
      if ENABLE_SSL then
        let cat := table +:+ "_" +:+ column in
        let hash := MD5 cat in
        let hash_str := format_hex_string hash MD5_DIGEST_LENGTH 31 in
        let hash_str := set_first_char "i" hash_str in
        "CREATE INDEX " +:+ hash_str +:+ " ON " +:+ table +:+ " (" +:+ column +:+ ")"
      else ""
    else
      "CREATE INDEX " +:+ table +:+ "_" +:+ column +:+ "_idx ON " +:+ table
        +:+ " (" +:+ column +:+ ")"
  else
    "CREATE INDEX " +:+ table +:+ "_" +:+ column +:+ "_idx ON " +:+ table
      +:+ " (" +:+ column +:+ ")".

(** The [CREATE TABLE] statement of [afsql_dd_validate_table]. *)
Definition create_table_query (table : string) (fs : list AFSqlField) : string :=
  "CREATE TABLE " +:+ table +:+ " ("
    +:+ String.concat ", " (map (fun f => f_name f +:+ " " +:+ f_type f) fs) +:+ ")".

End Builder.

(** ** Transactions, schema, inserts: the database thread *)

Section DatabaseThread.

Context {build : BuildConfig} {host : Host} {dbi : Dbi}.

Local Open Scope driver_scope.

Definition is_some {A : Type} (o : option A) : bool :=
  match o with Some _ => true | None => false end.

(** [afsql_dd_run_query]: the result when the caller asked for one.  [silent]
    only silences the diagnostics, which are not part of the embedding. *)
Definition afsql_dd_run_query_result (query : string) (silent : bool) : M (option dbi_result) :=
  trace_now <- gets trace ;;
  let db_res := dbi_conn_query trace_now query in
  emit (EvQuery query (is_some db_res)) ;;
  ret db_res.

(** [afsql_dd_run_query (self, query, silent, NULL)] *)
Definition afsql_dd_run_query (query : string) (silent : bool) : M bool :=
  db_res <- afsql_dd_run_query_result query silent ;;
  ret (is_some db_res).

Definition afsql_dd_handle_transaction_error : M unit :=
  modify (fun self => set_queue (log_queue_rewind_backlog_all (queue self)) self) ;;
  emit EvRewindBacklogAll ;;
  modify (set_flush_lines_queued 0).

Definition afsql_dd_commit_transaction : M bool :=
  active <- gets transaction_active ;;
  if negb active then ret true
  else
    success <- afsql_dd_run_query "COMMIT" false ;;
    if success then
      n <- gets flush_lines_queued ;;
      modify (fun self =>
        set_queue (log_queue_ack_backlog (queue self) (to_guint32 n)) self) ;;
      emit (EvAckBacklog n) ;;
      modify (set_flush_lines_queued 0) ;;
      modify (set_transaction_active false) ;;
      ret true
    else
      afsql_dd_handle_transaction_error ;;
      ret false.

Definition afsql_dd_begin_transaction : M bool :=
  type_now <- gets type ;;
  let s_begin :=
    if String.eqb type_now s_freetds then "BEGIN TRANSACTION" else "BEGIN" in
  success <- (if negb (String.eqb type_now s_oracle)
              then afsql_dd_run_query s_begin false
              else ret true) ;;
  modify (set_transaction_active true) ;;
  ret success.

Definition afsql_dd_rollback_transaction : M bool :=
  active <- gets transaction_active ;;
  if negb active then ret true
  else
    modify (set_transaction_active false) ;;
    afsql_dd_run_query "ROLLBACK" false.

Definition afsql_dd_begin_new_transaction : M bool :=
  active <- gets transaction_active ;;
  committed <- (if active then
                  ok <- afsql_dd_commit_transaction ;;
                  if negb ok then afsql_dd_rollback_transaction ;; ret false
                  else ret true
                else ret true) ;;
  if negb committed then ret false else afsql_dd_begin_transaction.

Definition afsql_dd_create_index (table column : string) : M bool :=
  type_now <- gets type ;;
  afsql_dd_run_query (create_index_query type_now table column) false.

(** [for (l = self->indexes; l; l = l->next) if (strcmp (l->data, name) == 0)
    afsql_dd_create_index (self, table, name);] *)
Fixpoint create_indexes_of_column (table name : string) (l : list string) : M unit :=
  match l with
  | [] => ret tt
  | data :: next =>
      (if String.eqb data name then afsql_dd_create_index table name ;; ret tt
       else ret tt) ;;
      create_indexes_of_column table name next
  end.

(** [for (l = self->indexes; l; l = l->next) afsql_dd_create_index (self, table, l->data);] *)
Fixpoint create_all_indexes (table : string) (l : list string) : M unit :=
  match l with
  | [] => ret tt
  | data :: next => afsql_dd_create_index table data ;; create_all_indexes table next
  end.

(** The loop of [afsql_dd_validate_table] over the fields of an existing
    table, on the fields that are left; the result is [success]. *)
Fixpoint add_missing_columns (db_res : dbi_result) (table : string)
    (fs : list AFSqlField) (new_transaction_started : bool) : M bool :=
  match fs with
  | [] => ret true
  | f :: rest =>
      if Z.eqb (dbi_result_get_field_idx db_res (f_name f)) 0 then
        started <- (if negb new_transaction_started
                    then afsql_dd_begin_new_transaction else ret true) ;;
        if negb started then ret false
        else
          added <- afsql_dd_run_query
                     ("ALTER TABLE " +:+ table +:+ " ADD " +:+ f_name f +:+ " " +:+ f_type f)
                     false ;;
          if negb added then ret false
          else
            with_indexes <- gets enable_indexes ;;
            idx <- gets indexes ;;
            (if with_indexes then create_indexes_of_column table (f_name f) idx
             else ret tt) ;;
            add_missing_columns db_res table rest true
      else add_missing_columns db_res table rest new_transaction_started
  end.

(** [afsql_dd_validate_table]: the return value and the table name as the
    call leaves it (it is sanitized in place). *)
Definition afsql_dd_validate_table (table : string) : M (bool * string) :=
  flags_now <- gets flags ;;
  if has_flag flags_now AFSQL_DDF_DONT_CREATE_TABLES then ret (true, table)
  else
    let table := snd (afsql_dd_check_sql_identifier table true) in
    validated <- gets validated_tables ;;
    if bool_decide (table ∈ validated) then ret (true, table)
    else
      begun <- afsql_dd_begin_new_transaction ;;
      if negb begun then ret (false, table)
      else
        fs <- gets fields_of ;;
        probe <- afsql_dd_run_query_result ("SELECT * FROM " +:+ table +:+ " WHERE 0=1") true ;;
        success <-
          match probe with
          | Some db_res => add_missing_columns db_res table fs false
          | None =>
              afsql_dd_begin_new_transaction ;;
              created <- afsql_dd_run_query (create_table_query table fs) false ;;
              if created then
                with_indexes <- gets enable_indexes ;;
                idx <- gets indexes ;;
                (if with_indexes then create_all_indexes table idx else ret tt) ;;
                ret true
              else ret false
          end ;;
        (if success
         then modify (fun self => set_validated_tables ({[ table ]} ∪ validated_tables self) self)
         else ret tt) ;;
        ret (success, table).

Definition afsql_dd_suspend : M unit :=
  modify (set_db_thread_suspended true).

Definition afsql_dd_disconnect : M unit :=
  emit EvClose ;;
  modify (set_dbi_ctx false) ;;
  modify (set_validated_tables ∅).

(** [for (l = self->session_statements; l; l = l->next)
      if (!afsql_dd_run_query (self, l->data, FALSE, NULL)) return FALSE;] *)
Fixpoint run_session_statements (l : list string) : M bool :=
  match l with
  | [] => ret true
  | data :: next =>
      ok <- afsql_dd_run_query data false ;;
      if negb ok then ret false else run_session_statements next
  end.

Definition afsql_dd_ensure_initialized_connection : M bool :=
  ctx <- gets dbi_ctx ;;
  if ctx then ret true
  else
    type_now <- gets type ;;
    let created := dbi_conn_new_r type_now in
    emit (EvConnNew type_now created) ;;
    modify (set_dbi_ctx created) ;;
    if negb created then ret false
    else
      trace_now <- gets trace ;;
      let connected := dbi_conn_connect trace_now in
      emit (EvConnect connected) ;;
      if negb connected then ret false
      else
        statements <- gets session_statements ;;
        run_session_statements statements.

Definition afsql_dd_ensure_accessible_database_table (msg : LogMessage) : M (option string) :=
  template <- gets table ;;
  let table := log_template_format template msg LTZ_LOCAL 0 in
  validated <- afsql_dd_validate_table table ;;
  if negb (fst validated) then ret None else ret (Some (snd validated)).

Definition afsql_dd_is_transaction_handling_enabled (self : AFSqlDestDriver) : bool :=
  negb (Z.eqb (flush_lines_queued self) (-1)).

Definition afsql_dd_should_begin_new_transaction (self : AFSqlDestDriver) : bool :=
  Z.eqb (flush_lines_queued self) 0.

Definition afsql_dd_should_commit_transaction (self : AFSqlDestDriver) : bool :=
  afsql_dd_is_transaction_handling_enabled self
  && Z.eqb (flush_lines_queued self) (flush_lines self).

Definition afsql_dd_rollback_msg (msg : LogMessage) : M unit :=
  flags_now <- gets flags ;;
  if has_flag flags_now AFSQL_DDF_EXPLICIT_COMMITS then
    modify (fun self => set_queue (log_queue_rewind_backlog (queue self) 1) self) ;;
    emit (EvRewindBacklog 1)
  else
    modify (fun self => set_queue (log_queue_push_head (queue self) msg) self) ;;
    emit (EvPushHead msg).

Definition afsql_dd_handle_insert_row_error_depending_on_connection_availability
    (msg : LogMessage) : M bool :=
  trace_now <- gets trace ;;
  let alive := dbi_conn_ping trace_now in
  emit (EvPing alive) ;;
  if alive then afsql_dd_rollback_msg msg ;; ret true
  else
    enabled <- gets afsql_dd_is_transaction_handling_enabled ;;
    (if enabled then afsql_dd_handle_transaction_error else afsql_dd_rollback_msg msg) ;;
    ret false.

(** [afsql_dd_insert_db] from the label [out:] on, entered with [success]. *)
Definition insert_db_out (msg : LogMessage) (success : bool) : M bool :=
  if success then
    emit (EvMsgAck msg) ;;
    modify (fun self => set_seq_num (step_sequence_number (seq_num self)) self) ;;
    modify (set_failed_message_counter 0) ;;
    ret true
  else
    failed <- gets failed_message_counter ;;
    retries <- gets num_retries ;;
    if failed <? to_guint32 (retries - 1) then
      handled <- afsql_dd_handle_insert_row_error_depending_on_connection_availability msg ;;
      if negb handled then ret false
      else
        modify (fun self => set_failed_message_counter (failed_message_counter self + 1) self) ;;
        ret false
    else
      modify (fun self => set_dropped_messages (dropped_messages self + 1) self) ;;
      emit (EvMsgDrop msg) ;;
      modify (set_failed_message_counter 0) ;;
      ret true.

(** [afsql_dd_insert_db] after the [INSERT] has been run with result
    [success]: the counting and the commit of a full batch. *)
Definition insert_db_after_insert (msg : LogMessage) (success : bool) : M bool :=
  enabled <- gets afsql_dd_is_transaction_handling_enabled ;;
  if success && enabled then
    modify (fun self => set_flush_lines_queued (flush_lines_queued self + 1) self) ;;
    due <- gets afsql_dd_should_commit_transaction ;;
    committed <- (if due then afsql_dd_commit_transaction else ret true) ;;
    if negb committed then afsql_dd_rollback_transaction ;; ret false
    else insert_db_out msg success
  else insert_db_out msg success.

(** [afsql_dd_insert_db] once a message has been taken from the queue. *)
Definition insert_db_message (msg : LogMessage) : M bool :=
  table <- afsql_dd_ensure_accessible_database_table msg ;;
  match table with
  | None => insert_db_out msg false
  | Some table =>
      begin <- gets afsql_dd_should_begin_new_transaction ;;
      begun <- (if begin then afsql_dd_begin_transaction else ret true) ;;
      if negb begun then insert_db_out msg false
      else
        self <- gets id ;;
        let insert_command := afsql_dd_build_insert_command self msg table in
        success <- afsql_dd_run_query insert_command false ;;
        insert_db_after_insert msg success
  end.

Definition afsql_dd_insert_db : M bool :=
  connected <- afsql_dd_ensure_initialized_connection ;;
  if negb connected then ret false
  else
    popped <- gets (fun self => log_queue_pop_head (queue self)) ;;
    modify (set_queue (snd popped)) ;;
    emit EvPopHead ;;
    match fst popped with
    | None => ret true
    | Some msg => insert_db_message msg
    end.

(** [if (!afsql_dd_insert_db (self)) { afsql_dd_disconnect (self); afsql_dd_suspend (self); }] *)
Definition insert_or_suspend : M unit :=
  ok <- afsql_dd_insert_db ;;
  if negb ok then afsql_dd_disconnect ;; afsql_dd_suspend else ret tt.

(** One round of the [while (!self->db_thread_terminate)] loop of
    [afsql_dd_database_thread], for the rounds in which termination is not
    requested; waiting on the condition returns without a change of the
    driver structure. *)
Definition database_thread_round : M unit :=
  suspended <- gets db_thread_suspended ;;
  if suspended then
    modify (set_db_thread_suspended false) ;;
    insert_or_suspend
  else
    has_items <- gets (fun self => log_queue_has_items (queue self)) ;;
    if negb has_items then
      queued <- gets flush_lines_queued ;;
      if 0 <? queued then
        committed <- afsql_dd_commit_transaction ;;
        if negb committed then
          rolled_back <- afsql_dd_rollback_transaction ;;
          if negb rolled_back then afsql_dd_disconnect ;; afsql_dd_suspend
          else ret tt
        else insert_or_suspend
      else insert_or_suspend
    else insert_or_suspend.

(** The end of [afsql_dd_database_thread] once the loop that drains the
    queue has left it empty: the last commit and the disconnect.  (When an
    insert of the draining loop fails, the thread skips the commit and only
    disconnects.) *)
Definition database_thread_finish : M unit :=
  queued <- gets flush_lines_queued ;;
  (if 0 <? queued then
     committed <- afsql_dd_commit_transaction ;;
     if negb committed then afsql_dd_rollback_transaction ;; ret tt else ret tt
   else ret tt) ;;
  afsql_dd_disconnect.

(** [n] rounds of the loop. *)
Fixpoint database_thread_rounds (n : nat) : M unit :=
  match n with
  | O => ret tt
  | S n' => database_thread_round ;; database_thread_rounds n'
  end.

End DatabaseThread.

(** ** Configuration and initialization *)

Section Initialization.

Context {build : BuildConfig} {host : Host}.

Definition empty_queue : LogQueue :=
  {| q_items := []; q_backlog := []; use_backlog := false |}.

(** [afsql_dd_new]: the members it assigns; [g_new0] zeroes the others. *)
Definition afsql_dd_new : AFSqlDestDriver :=
  {| type := "mysql";
     columns := [];
     values := [];
     indexes := [];
     table := log_template_compile "messages";
     fields := None;
     null_value := None;
     time_reopen := 0;
     num_retries := MAX_FAILED_ATTEMPTS;
     flush_lines := -1;
     flush_lines_queued := -1;
     flags := 0;
     session_statements := [];
     dropped_messages := 0;
     db_thread_suspended := false;
     queue := empty_queue;
     seq_num := 0;
     dbi_ctx := false;
     validated_tables := ∅;
     failed_message_counter := 0;
     enable_indexes := false;
     transaction_active := false;
     trace := [] |}.

(** The setters the configuration parser calls between [afsql_dd_new] and
    [afsql_dd_init]. *)
Definition afsql_dd_set_type (type : string) (self : AFSqlDestDriver) : AFSqlDestDriver :=
  set_type (if String.eqb type "mssql" then s_freetds else type) self.

Definition afsql_dd_set_table (table : string) (self : AFSqlDestDriver) : AFSqlDestDriver :=
  set_table (log_template_compile table) self.

Definition afsql_dd_set_columns (columns : list string) (self : AFSqlDestDriver)
  : AFSqlDestDriver :=
  set_columns columns self.

Definition afsql_dd_set_indexes (indexes : list string) (self : AFSqlDestDriver)
  : AFSqlDestDriver :=
  match indexes with
  | _ :: _ => set_indexes indexes true self
  | [] => set_indexes [""] false self
  end.

Definition afsql_dd_set_values (values : list AFSqlValue) (self : AFSqlDestDriver)
  : AFSqlDestDriver :=
  set_values values self.

Definition afsql_dd_set_null_value (null : string) (self : AFSqlDestDriver) : AFSqlDestDriver :=
  set_null_value (Some null) self.

Definition afsql_dd_set_retries (num_retries : Z) (self : AFSqlDestDriver) : AFSqlDestDriver :=
  if num_retries <? 1 then set_num_retries 1 self else set_num_retries num_retries self.

Definition afsql_dd_set_flush_lines (flush_lines : Z) (self : AFSqlDestDriver)
  : AFSqlDestDriver :=
  set_flush_lines flush_lines self.

Definition afsql_dd_set_session_statements (statements : list string)
    (self : AFSqlDestDriver) : AFSqlDestDriver :=
  set_session_statements statements self.

Definition afsql_dd_set_flags (flags : Z) (self : AFSqlDestDriver) : AFSqlDestDriver :=
  set_flags flags self.

(** One call of a setter, and a configuration as the calls made on a new
    driver, in their order. *)
Inductive setter_call :=
  | SetType (type : string)
  | SetTable (table : string)
  | SetColumns (columns : list string)
  | SetIndexes (indexes : list string)
  | SetValues (values : list AFSqlValue)
  | SetNullValue (null : string)
  | SetRetries (num_retries : Z)
  | SetFlushLines (flush_lines : Z)
  | SetSessionStatements (statements : list string)
  | SetFlags (flags : Z).

Definition call_setter (self : AFSqlDestDriver) (c : setter_call) : AFSqlDestDriver :=
  match c with
  | SetType t => afsql_dd_set_type t self
  | SetTable t => afsql_dd_set_table t self
  | SetColumns l => afsql_dd_set_columns l self
  | SetIndexes l => afsql_dd_set_indexes l self
  | SetValues l => afsql_dd_set_values l self
  | SetNullValue n => afsql_dd_set_null_value n self
  | SetRetries n => afsql_dd_set_retries n self
  | SetFlushLines n => afsql_dd_set_flush_lines n self
  | SetSessionStatements l => afsql_dd_set_session_statements l self
  | SetFlags f => afsql_dd_set_flags f self
  end.

Definition configured (calls : list setter_call) : AFSqlDestDriver :=
  fold_left call_setter calls afsql_dd_new.

(** What the host and the process hand to [afsql_dd_init]: the global
    [server_mode], the result of [log_dest_driver_init_method], the global
    configuration ([cfg->flush_lines], [cfg->time_reopen]), the persisted
    sequence number (0 if none), the queue acquired for the driver (if any),
    the static [dbi_initialized] and the return code of [dbi_initialize_r]. *)
Record InitEnv := {
  server_mode : bool;
  log_dest_driver_init_method : bool;
  cfg_flush_lines : Z;
  cfg_time_reopen : Z;
  persisted_seq_num : Z;
  acquired_queue : option LogQueue;
  dbi_initialized : bool;
  dbi_initialize_r : Z
}.

(** The loop that advances [space] over the blanks after the name. *)
Fixpoint skip_spaces (s : string) : string :=
  match s with
  | String c rest => if Ascii.eqb c " " then skip_spaces rest else s
  | EmptyString => EmptyString
  end.

(** [space = strchr (col, ' ')]: the text before the first space and the text
    from it on, if the column has one. *)
Fixpoint split_at_space (col : string) : option (string * string) :=
  match col with
  | EmptyString => None
  | String c rest =>
      if Ascii.eqb c " " then Some (EmptyString, col)
      else match split_at_space rest with
           | Some (name, space) => Some (String c name, space)
           | None => None
           end
  end.

(** The name and the type of a configured column: [name type], the type
    defaulting to [text]. *)
Definition column_name_and_type (col : string) : string * string :=
  match split_at_space col with
  | Some (name, space) =>
      match skip_spaces space with
      | EmptyString => (name, "text")
      | type => (name, type)
      end
  | None => (col, "text")
  end.

Inductive built_fields :=
  | FieldsBuilt (fs : list AFSqlField)
  | FieldsRejected
  | FieldsAssertFailed.

(** The loop of [afsql_dd_init] that fills [self->fields] from the columns
    and the values, pairwise. *)
Fixpoint init_fields (cols : list string) (vals : list AFSqlValue) : built_fields :=
  match cols, vals with
  | col :: cols', value :: vals' =>
      let '(name, type) := column_name_and_type col in
      if negb (fst (afsql_dd_check_sql_identifier name false)) then FieldsRejected
      else
        match value with
        | ValueTemplate template =>
            match init_fields cols' vals' with
            | FieldsBuilt fs =>
                FieldsBuilt
                  ({| f_flags := 0; f_name := name; f_type := type;
                      f_value := Some (log_template_compile template) |} :: fs)
            | other => other
            end
        | ValueCode code =>
            if Z.eqb code AFSQL_COLUMN_DEFAULT then
              match init_fields cols' vals' with
              | FieldsBuilt fs =>
                  FieldsBuilt
                    ({| f_flags := Z.lor 0 AFSQL_FF_DEFAULT; f_name := name; f_type := type;
                        f_value := None |} :: fs)
              | other => other
              end
            else FieldsAssertFailed
        end
  | _, _ => FieldsBuilt []
  end.

(** The outcome of [afsql_dd_init]: [TRUE] with the driver structure as the
    database thread starts on it, [FALSE], or the failed assertion.  The
    structure a failed initialization leaves behind is not used. *)
Inductive init_result :=
  | InitStarted (self : AFSqlDestDriver)
  | InitFailed
  | InitAssertFailed.

Definition afsql_dd_init (env : InitEnv) (self : AFSqlDestDriver) : init_result :=
  if negb (server_mode env) then InitFailed
  else if negb (log_dest_driver_init_method env) then InitFailed
  else
    match columns self, indexes self, values self with
    | _ :: _, _ :: _, _ :: _ =>
        let self :=
          set_seq_num (if Z.eqb (persisted_seq_num env) 0 then init_sequence_number
                       else persisted_seq_num env) self in
        match acquired_queue env with
        | None => InitFailed
        | Some q =>
            let q :=
              if has_flag (flags self) AFSQL_DDF_EXPLICIT_COMMITS
              then log_queue_set_use_backlog q true else q in
            let self := set_queue q self in
            let built :=
              match fields self with
              | Some fs => FieldsBuilt fs
              | None =>
                  if negb (Nat.eqb (length (columns self)) (length (values self)))
                  then FieldsRejected
                  else init_fields (columns self) (values self)
              end in
            match built with
            | FieldsRejected => InitFailed
            | FieldsAssertFailed => InitAssertFailed
            | FieldsBuilt fs =>
                let self := set_fields (Some fs) self in
                let self := set_time_reopen (cfg_time_reopen env) self in
                let self :=
                  if Z.eqb (flush_lines self) (-1)
                  then set_flush_lines (cfg_flush_lines env) self else self in
                let self :=
                  if has_flag (flags self) AFSQL_DDF_EXPLICIT_COMMITS && (0 <? flush_lines self)
                  then set_flush_lines_queued 0 self else self in
                if negb (dbi_initialized env) && (dbi_initialize_r env <=? 0) then InitFailed
                else InitStarted self
            end
        end
    | _, _, _ => InitFailed
    end.

(** The invariant the field loop establishes: a field has a value template
    exactly when it is not flagged as default, and the flag word holds no
    other bit. *)
Definition field_well_formed (f : AFSqlField) : Prop :=
  (f_flags f = 0 /\ f_value f <> None) \/ (f_flags f = AFSQL_FF_DEFAULT /\ f_value f = None).

(** A driver as the configuration leaves it: no setter touches the members
    that only the initialization and the database thread write, and the
    number of retries is at least 1. *)
Definition unstarted (self : AFSqlDestDriver) : Prop :=
  flush_lines_queued self = -1 /\ fields self = None /\ transaction_active self = false
  /\ failed_message_counter self = 0 /\ 1 <= num_retries self.

End Initialization.

(** ** What the specification says an INSERT carries *)

Section InsertLists.

Context {build : BuildConfig} {host : Host} {dbi : Dbi}.

(** The fields that are not flagged as default, in their order. *)
Definition inserted_fields (fs : list AFSqlField) : list AFSqlField :=
  List.filter (fun f => negb (field_is_default f)) fs.

(** The column list of the INSERT for [self]: the names of those fields. *)
Definition insert_column_list (self : AFSqlDestDriver) : list string :=
  map f_name (inserted_fields (fields_of self)).

(** The rendered value of a field for a message, before quoting. *)
Definition rendered_value (self : AFSqlDestDriver) (msg : LogMessage) (f : AFSqlField)
  : option string :=
  match f_value f with
  | Some template => Some (log_template_format template msg LTZ_SEND (seq_num self))
  | None => None
  end.

(** The SQL literal the specification gives a rendered value: [NULL] for the
    null sentinel, else the value as the driver quotes it, else two
    apostrophes when the driver cannot quote it. *)
Definition sql_literal (null_sentinel : option string) (value : string) : string :=
  if bool_decide (null_sentinel = Some value) then "NULL"
  else match dbi_conn_quote_string_copy value with
       | Some quoted => quoted
       | None => "''"
       end.

(** The values list of the INSERT for [self] and [msg]: the literal of each
    such field. *)
Definition insert_value_list (self : AFSqlDestDriver) (msg : LogMessage) : list string :=
  map (fun f => match rendered_value self msg f with
                | Some value => sql_literal (null_value self) value
                | None => ""
                end)
      (inserted_fields (fields_of self)).

End InsertLists.


(** ** Vocabulary of the statements about the database thread *)

Section Vocabulary.

Context {build : BuildConfig} {host : Host} {dbi : Dbi}.

(** The members that only the configuration and the initialization write
    are the same in two driver structures. *)
Definition same_configuration (s s' : AFSqlDestDriver) : Prop :=
  type s' = type s /\ columns s' = columns s /\ values s' = values s
  /\ indexes s' = indexes s /\ table s' = table s /\ fields s' = fields s
  /\ null_value s' = null_value s /\ time_reopen s' = time_reopen s
  /\ num_retries s' = num_retries s /\ flush_lines s' = flush_lines s
  /\ flags s' = flags s /\ session_statements s' = session_statements s
  /\ enable_indexes s' = enable_indexes s.

(** How often the statement [query] was sent to the database in a history. *)
Fixpoint query_attempts (query : string) (tr : list event) : nat :=
  match tr with
  | [] => 0
  | EvQuery q _ :: tr' =>
      ((if String.eqb q query then 1 else 0) + query_attempts query tr')%nat
  | _ :: tr' => query_attempts query tr'
  end.

(** How often a message was dropped in a history. *)
Fixpoint drops (tr : list event) : nat :=
  match tr with
  | [] => 0
  | EvMsgDrop _ :: tr' => S (drops tr')
  | _ :: tr' => drops tr'
  end.

(** The INSERT statement [afsql_dd_insert_db] sends for [msg]: the table
    name is the one [afsql_dd_validate_table] hands back. *)
Definition insert_command_of (self : AFSqlDestDriver) (msg : LogMessage) : string :=
  let table := log_template_format (table self) msg LTZ_LOCAL 0 in
  afsql_dd_build_insert_command self msg
    (if has_flag (flags self) AFSQL_DDF_DONT_CREATE_TABLES then table
     else snd (afsql_dd_check_sql_identifier table true)).

(** A database on which one statement, [refused], fails every time while
    the connection stays alive: every other statement is accepted, every
    connect and every ping succeeds. *)
Definition refuses_only (refused : string) : Prop :=
  (forall tr : list event, dbi_conn_query tr refused = None)
  /\ (forall (tr : list event) (q : string),
        q <> refused -> is_some (dbi_conn_query tr q) = true)
  /\ (forall tr : list event, dbi_conn_ping tr = true)
  /\ (forall tr : list event, dbi_conn_connect tr = true).

(** Between [self0] and [s] the queue, the sequence number, the count of the
    dropped messages and the counter of the batch have not moved, nor has the
    configuration. *)
Definition retrying (self0 s : AFSqlDestDriver) : Prop :=
  same_configuration self0 s /\ queue s = queue self0 /\ seq_num s = seq_num self0
  /\ dropped_messages s = dropped_messages self0
  /\ flush_lines_queued s = flush_lines_queued self0.


(** Between [s] and [s'] nothing moved but the queue, the connection, the
    transaction flag, the suspension and the history. *)
Definition moved_on (s s' : AFSqlDestDriver) : Prop :=
  same_configuration s s' /\ seq_num s' = seq_num s
  /\ dropped_messages s' = dropped_messages s
  /\ flush_lines_queued s' = flush_lines_queued s
  /\ failed_message_counter s' = failed_message_counter s.

(** The computation [c] keeps the property [P] of the driver structure. *)
Definition preserves (P : AFSqlDestDriver -> Prop) {A : Type} (c : M A) : Prop :=
  forall s : AFSqlDestDriver, P s -> P (snd (c s)).

(** A property that no assignment of the database thread can break: the
    thread writes the history, the queue, the connection, the validated
    tables, the flags of the thread, the counters of messages, and the
    counter of the transaction, which it resets or increments. *)
Record thread_stable (P : AFSqlDestDriver -> Prop) : Prop := {
  stable_trace : forall s v, P s -> P (set_trace v s);
  stable_queue : forall s v, P s -> P (set_queue v s);
  stable_dbi_ctx : forall s v, P s -> P (set_dbi_ctx v s);
  stable_validated_tables : forall s v, P s -> P (set_validated_tables v s);
  stable_suspended : forall s v, P s -> P (set_db_thread_suspended v s);
  stable_transaction_active : forall s v, P s -> P (set_transaction_active v s);
  stable_failed : forall s v, P s -> P (set_failed_message_counter v s);
  stable_seq_num : forall s v, P s -> P (set_seq_num v s);
  stable_dropped : forall s v, P s -> P (set_dropped_messages v s);
  stable_queued_reset : forall s, P s -> P (set_flush_lines_queued 0 s);
  stable_queued_next :
    forall s, P s -> P (set_flush_lines_queued (flush_lines_queued s + 1) s)
}.

End Vocabulary.


(** ** Flags of the configuration *)

(** [afsql_dd_lookup_flag]: the flag that a name of the configuration stands
    for; an unknown name only draws a warning and stands for no flag. *)
Definition afsql_dd_lookup_flag (flag : string) : Z :=
  if String.eqb flag "explicit-commits" || String.eqb flag "explicit_commits"
  then AFSQL_DDF_EXPLICIT_COMMITS
  else if String.eqb flag "dont-create-tables" || String.eqb flag "dont_create_tables"
  then AFSQL_DDF_DONT_CREATE_TABLES
  else 0.

(** ** Intake and shutdown *)

Section Shutdown.

Context {build : BuildConfig} {host : Host} {dbi : Dbi}.

Local Open Scope driver_scope.

(** Modelled from the spec, as the other operations of the queue:
    [push_tail] puts a message behind the waiting ones, [get_length] counts
    the waiting ones. *)
Definition log_queue_push_tail (q : LogQueue) (m : LogMessage) : LogQueue :=
  {| q_items := q_items q ++ [m]; q_backlog := q_backlog q; use_backlog := use_backlog q |}.

Definition log_queue_get_length (q : LogQueue) : nat := length (q_items q).

(** [afsql_dd_queue]: the host hands a message to the driver.  The
    acknowledgement bookkeeping of the path options belongs to the host and
    is not part of the embedding. *)
Definition afsql_dd_queue (msg : LogMessage) (self : AFSqlDestDriver) : AFSqlDestDriver :=
  set_queue (log_queue_push_tail (queue self) msg) self.

(** The round of [afsql_dd_database_thread] in which the request to terminate
    arrives: the loop body up to [if (self->db_thread_terminate) break;]. *)
Definition database_thread_interrupted_round : M unit :=
  suspended <- gets db_thread_suspended ;;
  if suspended then modify (set_db_thread_suspended false)
  else
    has_items <- gets (fun self => log_queue_has_items (queue self)) ;;
    if negb has_items then
      queued <- gets flush_lines_queued ;;
      if 0 <? queued then
        committed <- afsql_dd_commit_transaction ;;
        if negb committed then
          rolled_back <- afsql_dd_rollback_transaction ;;
          if negb rolled_back then afsql_dd_disconnect ;; afsql_dd_suspend
          else ret tt
        else ret tt
      else ret tt
    else ret tt.

(** [while (log_queue_get_length (self->queue) > 0)
      if (!afsql_dd_insert_db (self)) goto exit;]
    The result is [Some true] when the queue is empty, [Some false] when an
    insert failed, and [None] when [fuel] rounds did not end the loop. *)
Fixpoint database_thread_drain (fuel : nat) : M (option bool) :=
  len <- gets (fun self => log_queue_get_length (queue self)) ;;
  if Nat.ltb 0 len then
    match fuel with
    | O => ret None
    | S fuel' =>
        ok <- afsql_dd_insert_db ;;
        if negb ok then ret (Some false) else database_thread_drain fuel'
    end
  else ret (Some true).

(** The end of [afsql_dd_database_thread], after the loop that waits for the
    request to terminate: the queue is drained, a last transaction is
    committed, the connection is closed.  A failed insert skips the commit. *)
Definition database_thread_exit (fuel : nat) : M (option unit) :=
  drained <- database_thread_drain fuel ;;
  match drained with
  | None => ret None
  | Some true => database_thread_finish ;; ret (Some tt)
  | Some false => afsql_dd_disconnect ;; ret (Some tt)
  end.

(** [afsql_dd_database_thread]: [n] rounds in which termination is not
    requested, the round in which the request arrives if it arrives inside
    one, and the end. *)
Definition afsql_dd_database_thread (n : nat) (interrupted : bool) (fuel : nat)
  : M (option unit) :=
  database_thread_rounds n ;;
  (if interrupted then database_thread_interrupted_round else ret tt) ;;
  database_thread_exit fuel.

End Shutdown.

(** ** Vocabulary of the statements about the configuration *)

(** The string has no blank. *)
Definition has_no_space (s : string) : bool :=
  string_forallb (fun c => negb (Ascii.eqb c " ")) s.

(** [n] blanks. *)
Fixpoint blanks (n : nat) : string :=
  match n with
  | O => EmptyString
  | S n' => String " " (blanks n')
  end.

(** ** Vocabulary of the statements about the schema *)

Section SchemaVocabulary.

Context {build : BuildConfig} {host : Host} {dbi : Dbi}.

(** A property that the assignments of the transaction functions cannot
    break: they write the history and the queue, reset the counter of the
    transaction and write [transaction_active]. *)
Record transaction_stable (P : AFSqlDestDriver -> Prop) : Prop := {
  kept_by_trace : forall s v, P s -> P (set_trace v s);
  kept_by_queue : forall s v, P s -> P (set_queue v s);
  kept_by_queued_reset : forall s, P s -> P (set_flush_lines_queued 0 s);
  kept_by_transaction_active : forall s v, P s -> P (set_transaction_active v s)
}.

(** Between [s] and [s'] nothing moved but the history, the queue, the
    counter of the transaction and [transaction_active]. *)
Definition transaction_frame (s s' : AFSqlDestDriver) : Prop :=
  same_configuration s s' /\ validated_tables s' = validated_tables s
  /\ dbi_ctx s' = dbi_ctx s /\ seq_num s' = seq_num s
  /\ failed_message_counter s' = failed_message_counter s
  /\ dropped_messages s' = dropped_messages s
  /\ db_thread_suspended s' = db_thread_suspended s.

(** The probe [afsql_dd_validate_table] sends for a table. *)
Definition probe_query (table : string) : string :=
  "SELECT * FROM " +:+ table +:+ " WHERE 0=1".

End SchemaVocabulary.

(** ** Vocabulary of the statements about batches *)

Section BatchVocabulary.

Context {build : BuildConfig} {host : Host} {dbi : Dbi}.

(** The counter of the transaction is below the flush threshold, and a
    transaction is open whenever rows are counted. *)
Definition batch_in_bounds (s : AFSqlDestDriver) : Prop :=
  0 <= flush_lines_queued s < flush_lines s
  /\ (0 < flush_lines_queued s -> transaction_active s = true).

End BatchVocabulary.

(** ** Vocabulary of the statements about the bookkeeping *)

Section BookkeepingVocabulary.

Context {build : BuildConfig} {host : Host} {dbi : Dbi}.

(** The messages acknowledged in a history, the youngest first. *)
Fixpoint acknowledged (tr : list event) : list LogMessage :=
  match tr with
  | [] => []
  | EvMsgAck msg :: tr' => msg :: acknowledged tr'
  | _ :: tr' => acknowledged tr'
  end.

(** The event is the end of a message: its acknowledgement or its drop. *)
Definition is_message_outcome (e : event) : bool :=
  match e with
  | EvMsgAck _ | EvMsgDrop _ => true
  | _ => false
  end.

(** A property that nothing but the end of a message can break: it is kept
    by every other event and by the assignments to the queue, the
    connection, the validated tables and the state of the transaction. *)
Record bookkeeping_stable (P : AFSqlDestDriver -> Prop) : Prop := {
  books_event :
    forall s e, is_message_outcome e = false -> P s -> P (set_trace (e :: trace s) s);
  books_queue : forall s v, P s -> P (set_queue v s);
  books_dbi_ctx : forall s v, P s -> P (set_dbi_ctx v s);
  books_validated_tables : forall s v, P s -> P (set_validated_tables v s);
  books_suspended : forall s v, P s -> P (set_db_thread_suspended v s);
  books_transaction_active : forall s v, P s -> P (set_transaction_active v s);
  books_queued : forall s v, P s -> P (set_flush_lines_queued v s)
}.

(** The counters of [s] are those of the start ([seq_num0], [dropped0]) moved
    by the events that came after the history [tr0]: the sequence number
    stepped once per acknowledged message, the statistics counter incremented
    once per dropped message. *)
Definition counters_follow (tr0 : list event) (seq_num0 dropped0 : Z)
    (s : AFSqlDestDriver) : Prop :=
  exists new : list event,
    trace s = new ++ tr0
    /\ seq_num s = Nat.iter (length (acknowledged new)) step_sequence_number seq_num0
    /\ dropped_messages s = dropped0 + Z.of_nat (drops new).

(** The counter of failed attempts is below the number of retries. *)
Definition retries_in_bounds (s : AFSqlDestDriver) : Prop :=
  1 <= num_retries s < 2 ^ 31 /\ 0 <= failed_message_counter s < num_retries s.

End BookkeepingVocabulary.

(** ** Vocabulary of the statements about what is sent to the database *)

Section StatementVocabulary.

Context {build : BuildConfig} {host : Host} {dbi : Dbi}.

(** The statements sent to the database in a history, the youngest first. *)
Fixpoint statements_sent (tr : list event) : list string :=
  match tr with
  | [] => []
  | EvQuery query _ :: tr' => query :: statements_sent tr'
  | _ :: tr' => statements_sent tr'
  end.

Definition is_insert_statement (query : string) : Prop :=
  exists rest : string, query = "INSERT INTO " +:+ rest.

Definition is_transaction_statement (query : string) : Prop :=
  query = "BEGIN" \/ query = "BEGIN TRANSACTION" \/ query = "COMMIT" \/ query = "ROLLBACK".

(** The statement that opens a transaction in a dialect. *)
Definition begin_statement (type : string) : string :=
  if String.eqb type s_freetds then "BEGIN TRANSACTION" else "BEGIN".

(** The statement that adds a column to a table. *)
Definition alter_table_query (table name type : string) : string :=
  "ALTER TABLE " +:+ table +:+ " ADD " +:+ name +:+ " " +:+ type.

(** The statement creates the index [name] on a column of [table]. *)
Definition is_create_index_statement (table column query : string) : Prop :=
  exists name : string,
    query = "CREATE INDEX " +:+ name +:+ " ON " +:+ table +:+ " (" +:+ column +:+ ")".

(** What [afsql_dd_create_index] sends for [column]: a CREATE INDEX
    statement, or, when the build lacks [ENABLE_SSL] and the names of an
    Oracle index are together longer than 25 characters, the empty statement
    (the code logs a warning, builds no statement and runs the empty buffer). *)
Definition is_index_statement (type table column query : string) : Prop :=
  query = create_index_query type table column
  /\ (is_create_index_statement table column query
      \/ (query = ""
          /\ ENABLE_SSL = false /\ type = s_oracle
          /\ (25 < String.length table + String.length column)%nat)).

(** The statement is one that [afsql_dd_validate_table] builds around the
    table name [table] for a driver of the configuration of [self]: the
    probe, a CREATE TABLE, an ALTER TABLE or, with indexes, what
    [afsql_dd_create_index] sends. *)
Definition is_schema_statement (self : AFSqlDestDriver) (table query : string) : Prop :=
  query = probe_query table
  \/ (exists fs : list AFSqlField, query = create_table_query table fs)
  \/ (exists name type : string, query = alter_table_query table name type)
  \/ (enable_indexes self = true
      /\ exists column : string, is_index_statement (type self) table column query).

(** The statement is one of the driver [self]: a session statement of its
    configuration, the end of a transaction, the begin of one in a dialect
    that has it, a statement about the schema of a table named by an
    identifier, sent only when table creation is on, or an INSERT, whose
    table is named by an identifier when table creation is on. *)
Definition is_driver_statement (self : AFSqlDestDriver) (query : string) : Prop :=
  In query (session_statements self)
  \/ query = "COMMIT" \/ query = "ROLLBACK"
  \/ (type self <> s_oracle /\ query = begin_statement (type self))
  \/ (has_flag (flags self) AFSQL_DDF_DONT_CREATE_TABLES = false
      /\ exists table : string,
           identifier_in_grammar table /\ is_schema_statement self table query)
  \/ (exists (s : AFSqlDestDriver) (msg : LogMessage) (table : string),
        (has_flag (flags self) AFSQL_DDF_DONT_CREATE_TABLES = false ->
         identifier_in_grammar table)
        /\ query = afsql_dd_build_insert_command s msg table).

(** The driver [s] has the configuration of [self0], every statement sent
    since the history of [self0] is [allowed], and unless statements of
    transactions are to be expected ([transactions]) the transaction handling
    of [s] is off and no transaction is open. *)
Definition statements_kept (allowed : string -> Prop) (transactions : bool)
    (self0 s : AFSqlDestDriver) : Prop :=
  same_configuration self0 s
  /\ (exists new : list event,
        trace s = new ++ trace self0 /\ Forall allowed (statements_sent new))
  /\ (transactions = false ->
      flush_lines_queued s = -1 /\ transaction_active s = false).

End StatementVocabulary.

(** ** Vocabulary of the statements about delivery *)

Section DeliveryVocabulary.

Context {build : BuildConfig} {host : Host} {dbi : Dbi}.

(** A database that accepts every statement and every connection. *)
Definition accepting_database : Prop :=
  (forall (tr : list event) (q : string), is_some (dbi_conn_query tr q) = true)
  /\ (forall tr : list event, dbi_conn_connect tr = true).

(** The statements that the database has accepted since the last message
    was acknowledged or dropped, the youngest first. *)
Fixpoint accepted_since_outcome (tr : list event) : list string :=
  match tr with
  | [] => []
  | EvMsgAck _ :: _ | EvMsgDrop _ :: _ => []
  | EvQuery query true :: tr' => query :: accepted_since_outcome tr'
  | _ :: tr' => accepted_since_outcome tr'
  end.

(** The acknowledgements of a history, the youngest first, each with the
    statements that the database had accepted for it: those since the
    outcome of the message before. *)
Fixpoint acknowledgements (tr : list event) : list (LogMessage * list string) :=
  match tr with
  | [] => []
  | EvMsgAck msg :: tr' => (msg, accepted_since_outcome tr') :: acknowledgements tr'
  | _ :: tr' => acknowledgements tr'
  end.

(** The INSERT that [afsql_dd_insert_db] sends for [msg] in a driver of the
    configuration of [self] whose sequence number is [seq]. *)
Definition insert_command_at (self : AFSqlDestDriver) (seq : Z) (msg : LogMessage)
  : string :=
  insert_command_of (set_seq_num seq self) msg.

(** The statements accepted for a message, the youngest first, end with its
    INSERT, or with its INSERT and the COMMIT of the batch that it fills. *)
Definition inserted_before_ack (insert : string) (accepted : list string) : Prop :=
  exists before : list string,
    accepted = insert :: before \/ accepted = "COMMIT" :: insert :: before.

(** The acknowledgements [acks], the oldest first, are those of the messages
    [msgs] in their order, each after its INSERT was accepted; [seq] is the
    sequence number of the first. *)
Fixpoint each_inserted (self : AFSqlDestDriver) (seq : Z) (msgs : list LogMessage)
    (acks : list (LogMessage * list string)) : Prop :=
  match msgs, acks with
  | [], [] => True
  | msg :: msgs', (acked, accepted) :: acks' =>
      acked = msg
      /\ inserted_before_ack (insert_command_at self seq msg) accepted
      /\ each_inserted self (step_sequence_number seq) msgs' acks'
  | _, _ => False
  end.

(** The messages [items] wait in the queue of [s], the driver library has a
    driver of its type, its history holds the acknowledgements [acks] (the
    youngest first) and [dropped] drops, its configuration is that of
    [self0] and its sequence number is [seq]. *)
Definition delivered (self0 : AFSqlDestDriver) (seq : Z) (items : list LogMessage)
    (acks : list (LogMessage * list string)) (dropped : nat) (s : AFSqlDestDriver)
  : Prop :=
  q_items (queue s) = items /\ dbi_conn_new_r (type s) = true
  /\ acknowledgements (trace s) = acks /\ drops (trace s) = dropped
  /\ same_configuration self0 s /\ seq_num s = seq.

(** The computation returns TRUE and keeps [P]. *)
Definition succeeds (P : AFSqlDestDriver -> Prop) (c : M bool) : Prop :=
  forall s : AFSqlDestDriver, P s -> exists s' : AFSqlDestDriver, c s = (true, s') /\ P s'.

End DeliveryVocabulary.

(** ** Names in the persistent state and the statistics *)

(** The host's stores, as far as the driver uses them: the persistent state
    holds entries under names and can rename one; the persistent
    configuration hands a number from one configuration to the next
    ([cfg_persist_config_fetch] gives 0, a [NULL] pointer, for a name it does
    not hold). *)
Class Persist := {
  persist_state : Type;
  persist_state_lookup_string : persist_state -> string -> bool;
  persist_state_rename_entry : persist_state -> string -> string -> persist_state;
  persist_config : Type;
  cfg_persist_config_fetch : persist_config -> string -> Z;
  cfg_persist_config_add : persist_config -> string -> Z -> persist_config
}.

(** The members of [struct _AFSqlDestDriver] that the embedding of the
    database thread leaves out: they feed the options of the connection, the
    diagnostics and the names below.  [o_table_template] is the text of the
    table template, [self->table->template]. *)
Record AFSqlDestOptions := {
  o_host : string;
  o_port : string;
  o_user : string;
  o_password : string;
  o_database : string;
  o_encoding : string;
  o_table_template : string
}.

(** What [afsql_dd_new] assigns to them. *)
Definition afsql_dd_new_options : AFSqlDestOptions :=
  {| o_host := ""; o_port := ""; o_user := "syslog-ng"; o_password := "";
     o_database := "logs"; o_encoding := "UTF-8"; o_table_template := "messages" |}.

Definition afsql_dd_set_host (host : string) (o : AFSqlDestOptions) : AFSqlDestOptions :=
  {| o_host := host; o_port := o_port o; o_user := o_user o; o_password := o_password o;
     o_database := o_database o; o_encoding := o_encoding o;
     o_table_template := o_table_template o |}.

Definition afsql_dd_set_port (port : string) (o : AFSqlDestOptions) : AFSqlDestOptions :=
  {| o_host := o_host o; o_port := port; o_user := o_user o; o_password := o_password o;
     o_database := o_database o; o_encoding := o_encoding o;
     o_table_template := o_table_template o |}.

Definition afsql_dd_set_user (user : string) (o : AFSqlDestOptions) : AFSqlDestOptions :=
  {| o_host := o_host o; o_port := o_port o; o_user := user; o_password := o_password o;
     o_database := o_database o; o_encoding := o_encoding o;
     o_table_template := o_table_template o |}.

Definition afsql_dd_set_password (password : string) (o : AFSqlDestOptions)
  : AFSqlDestOptions :=
  {| o_host := o_host o; o_port := o_port o; o_user := o_user o; o_password := password;
     o_database := o_database o; o_encoding := o_encoding o;
     o_table_template := o_table_template o |}.

Definition afsql_dd_set_database (database : string) (o : AFSqlDestOptions)
  : AFSqlDestOptions :=
  {| o_host := o_host o; o_port := o_port o; o_user := o_user o; o_password := o_password o;
     o_database := database; o_encoding := o_encoding o;
     o_table_template := o_table_template o |}.

(** [g_snprintf (buffer, n, ...)]: the formatted text, cut to what fits a
    buffer of [n] bytes with its terminating NUL. *)
Definition g_snprintf (n : nat) (formatted : string) : string :=
  string_take (n - 1) formatted.

Section Names.

Context {build : BuildConfig} {host : Host} {persist : Persist}.

(** The text of [%s,%s,%s,%s] on the type, the host, the port and the
    database. *)
Definition destination_text (self : AFSqlDestDriver) (o : AFSqlDestOptions) : string :=
  type self +:+ "," +:+ o_host o +:+ "," +:+ o_port o +:+ "," +:+ o_database o.

Definition afsql_dd_format_stats_instance (self : AFSqlDestDriver) (o : AFSqlDestOptions)
  : string :=
  g_snprintf 64 (destination_text self o +:+ "," +:+ o_table_template o).

Definition afsql_dd_format_persist_sequence_number (self : AFSqlDestDriver)
    (o : AFSqlDestOptions) : string :=
  g_snprintf 256
    ("afsql_dd_sequence_number(" +:+ destination_text self o +:+ ","
       +:+ o_table_template o +:+ ")").

(** [afsql_dd_format_persist_name]: the name of the queue in the persistent
    state, and the state after an entry under the old style of name has been
    renamed. *)
Definition afsql_dd_format_persist_name (state : persist_state) (self : AFSqlDestDriver)
    (o : AFSqlDestOptions) : string * persist_state :=
  let persist_name_old :=
    g_snprintf 256 ("afsql_dd_qfile(" +:+ destination_text self o +:+ ")") in
  let persist_name_new :=
    g_snprintf 256
      ("afsql_dd_qfile(" +:+ destination_text self o +:+ "," +:+ o_table_template o
         +:+ ")") in
  (persist_name_new,
   if persist_state_lookup_string state persist_name_old
   then persist_state_rename_entry state persist_name_old persist_name_new
   else state).

(** [afsql_dd_deinit]: the sequence number is handed to the next
    configuration; the result is that of [log_dest_driver_deinit_method].
    Stopping the thread and the counters of the statistics are the host's. *)
Definition afsql_dd_deinit (cfg : persist_config) (deinit_method : bool)
    (self : AFSqlDestDriver) (o : AFSqlDestOptions) : bool * persist_config :=
  (deinit_method,
   cfg_persist_config_add cfg (afsql_dd_format_persist_sequence_number self o)
     (seq_num self)).

(** The environment of [afsql_dd_init] whose persisted sequence number is
    the one fetched from the persistent configuration [cfg]. *)
Definition init_environment (cfg : persist_config) (self : AFSqlDestDriver)
    (o : AFSqlDestOptions) (env : InitEnv) : InitEnv :=
  {| server_mode := server_mode env;
     log_dest_driver_init_method := log_dest_driver_init_method env;
     cfg_flush_lines := cfg_flush_lines env;
     cfg_time_reopen := cfg_time_reopen env;
     persisted_seq_num :=
       cfg_persist_config_fetch cfg (afsql_dd_format_persist_sequence_number self o);
     acquired_queue := acquired_queue env;
     dbi_initialized := dbi_initialized env;
     dbi_initialize_r := dbi_initialize_r env |}.

(** The sum of the lengths of the five parts of a name. *)
Definition destination_length (self : AFSqlDestDriver) (o : AFSqlDestOptions) : nat :=
  (String.length (type self) + String.length (o_host o) + String.length (o_port o)
   + String.length (o_database o) + String.length (o_table_template o))%nat.

(** What [afsql_dd_init] asks of the values of the configuration: a code
    among them is the default marker. *)
Definition value_is_known (v : AFSqlValue) : Prop :=
  match v with
  | ValueTemplate _ => True
  | ValueCode code => code = AFSQL_COLUMN_DEFAULT
  end.

End Names.

(** ** Vocabulary of the statements about a database that is out of reach *)

Section OutageVocabulary.

Context {build : BuildConfig} {host : Host} {dbi : Dbi}.

(** No connection can be made for [self]: the driver library has no driver
    of its type, or every connect fails. *)
Definition unreachable_database (self : AFSqlDestDriver) : Prop :=
  dbi_conn_new_r (type self) = false
  \/ (forall tr : list event, dbi_conn_connect tr = false).

(** The connection is lost once the history [tr0] has happened: from then
    on every statement fails and so does every ping. *)
Definition connection_lost_after (tr0 : list event) : Prop :=
  forall new : list event,
    (forall q : string, dbi_conn_query (new ++ tr0) q = None)
    /\ dbi_conn_ping (new ++ tr0) = false.

(** The states of a driver between the rounds of its database thread,
    counted from the driver [self0]: from a state of the driver, the host
    hands over a message ([afsql_dd_queue]) or the thread does a round. *)
Inductive thread_reaches (self0 : AFSqlDestDriver) : AFSqlDestDriver -> Prop :=
| reaches_start : thread_reaches self0 self0
| reaches_queue (s : AFSqlDestDriver) (msg : LogMessage) :
    thread_reaches self0 s -> thread_reaches self0 (afsql_dd_queue msg s)
| reaches_round (s : AFSqlDestDriver) :
    thread_reaches self0 s -> thread_reaches self0 (snd (database_thread_round s)).

(** How often a connection was set up in a history. *)
Fixpoint connection_attempts (tr : list event) : nat :=
  match tr with
  | [] => 0
  | EvConnNew _ _ :: tr' => S (connection_attempts tr')
  | _ :: tr' => connection_attempts tr'
  end.

(** How often the queue was asked for a message in a history. *)
Fixpoint pops (tr : list event) : nat :=
  match tr with
  | [] => 0
  | EvPopHead :: tr' => S (pops tr')
  | _ :: tr' => pops tr'
  end.

(** Since [self] the driver [s] has done nothing but try to connect: [n]
    attempts, no statement, no message asked for, and no member moved but the
    history, the suspension and the set of validated tables. *)
Definition waiting_since (self : AFSqlDestDriver) (n : nat) (s : AFSqlDestDriver) : Prop :=
  same_configuration self s /\ queue s = queue self /\ seq_num s = seq_num self
  /\ dropped_messages s = dropped_messages self
  /\ failed_message_counter s = failed_message_counter self
  /\ flush_lines_queued s = flush_lines_queued self
  /\ transaction_active s = transaction_active self
  /\ dbi_ctx s = false
  /\ exists new : list event,
       trace s = new ++ trace self
       /\ connection_attempts new = n /\ statements_sent new = [] /\ pops new = 0%nat.

(** After the message [msg] was taken from the queue of [s] and could not
    be inserted because the connection is lost, [s'] has put it back: with
    transaction handling the whole backlog is rewound and the batch starts
    anew, without it the message alone goes back; no counter has moved and
    no message is acknowledged or dropped. *)
Definition put_back (msg : LogMessage) (s s' : AFSqlDestDriver) : Prop :=
  failed_message_counter s' = failed_message_counter s
  /\ seq_num s' = seq_num s /\ dropped_messages s' = dropped_messages s
  /\ acknowledged (trace s') = acknowledged (trace s)
  /\ drops (trace s') = drops (trace s)
  /\ queue s'
     = (if afsql_dd_is_transaction_handling_enabled s
        then log_queue_rewind_backlog_all (queue s)
        else if has_flag (flags s) AFSQL_DDF_EXPLICIT_COMMITS
             then log_queue_rewind_backlog (queue s) 1
             else log_queue_push_head (queue s) msg)
  /\ flush_lines_queued s'
     = (if afsql_dd_is_transaction_handling_enabled s then 0 else flush_lines_queued s).

End OutageVocabulary.

(** ** Vocabulary of the statements about columns added to a table *)

Section ColumnVocabulary.

Context {build : BuildConfig} {host : Host} {dbi : Dbi}.

Definition is_alter_statement (query : string) : bool :=
  String.prefix "ALTER TABLE " query.

(** The statements that alter a table among those sent in a history, the
    oldest first. *)
Definition alterations (tr : list event) : list string :=
  List.filter is_alter_statement (rev (statements_sent tr)).

(** The field is not among the columns of a result. *)
Definition field_is_missing (db_res : dbi_result) (f : AFSqlField) : bool :=
  Z.eqb (dbi_result_get_field_idx db_res (f_name f)) 0.

(** A computation that keeps the configuration and sends no statement that
    alters a table. *)
Definition sends_no_alteration {A : Type} (c : M A) : Prop :=
  forall s : AFSqlDestDriver,
    same_configuration s (snd (c s))
    /\ exists new : list event,
         trace (snd (c s)) = new ++ trace s /\ alterations new = [].

End ColumnVocabulary.

(** ** Vocabulary of the statements about a batch as one transaction *)

Section TransactionVocabulary.

Context {build : BuildConfig} {host : Host} {dbi : Dbi}.

(** The statements that open a transaction in a dialect: none for Oracle. *)
Definition begin_statements (type : string) : list string :=
  if String.eqb type s_oracle then [] else [begin_statement type].

(** A connected driver that does not create its tables, is not suspended
    and counts the rows of its transaction: the counter is below the flush
    threshold, and a transaction is open when rows are counted. *)
Definition ready_for_batch (s : AFSqlDestDriver) : Prop :=
  has_flag (flags s) AFSQL_DDF_DONT_CREATE_TABLES = true
  /\ dbi_ctx s = true /\ db_thread_suspended s = false
  /\ batch_in_bounds s.

(** The round that inserts [msg] took the driver from [s] to [s']: what was
    sent ([new], the youngest first), counted and acknowledged. *)
Definition batch_round (s : AFSqlDestDriver) (msg : LogMessage) (new : list event)
    (s' : AFSqlDestDriver) : Prop :=
  let full := Z.eqb (flush_lines_queued s + 1) (flush_lines s) in
  trace s' = new ++ trace s
  /\ (exists insert : string,
        is_insert_statement insert
        /\ rev (statements_sent new)
           = (if Z.eqb (flush_lines_queued s) 0 then begin_statements (type s) else [])
               ++ [insert] ++ (if full then ["COMMIT"] else []))
  /\ acknowledged new = [msg] /\ drops new = 0%nat
  /\ flush_lines_queued s' = (if full then 0 else flush_lines_queued s + 1)
  /\ transaction_active s' = negb full
  /\ same_configuration s s'
  /\ dbi_ctx s' = dbi_ctx s /\ db_thread_suspended s' = db_thread_suspended s
  /\ seq_num s' = step_sequence_number (seq_num s).

End TransactionVocabulary.

(** ** Vocabulary of the statements about a row that the database refuses *)

Section RetryVocabulary.

Context {build : BuildConfig} {host : Host} {dbi : Dbi}.




End RetryVocabulary.


(** ** A sample build, host, database and configuration *)

(** The instances on which the statements of Part II are exercised in
    Part III. *)

Definition sample_build : BuildConfig :=
  {| char_is_signed := true; ENABLE_SSL := true |}.

Definition build_without_ssl : BuildConfig :=
  {| char_is_signed := true; ENABLE_SSL := false |}.

(** The position of [name] in a result's columns, counted from 1; 0 if it is
    not among them. *)
Fixpoint column_index (columns : list string) (name : string) (at_index : Z) : Z :=
  match columns with
  | [] => 0
  | c :: rest => if String.eqb c name then at_index else column_index rest name (at_index + 1)
  end.

(** A host whose messages are their text, whose template [$MSG] is the text
    of the message and whose other templates are literal, and whose results
    are their column names.  Its [MD5] is a stand-in that spreads the length
    of the input over the sixteen bytes; no statement depends on the digest. *)
Definition sample_host : Host :=
  {| LogMessage := string;
     LogTemplate := string;
     log_template_compile := fun template => template;
     log_template_format := fun template msg _ _ =>
       if String.eqb template "$MSG" then msg else template;
     dbi_result := list string;
     dbi_result_get_field_idx := fun res name => column_index res name 1;
     init_sequence_number := 1;
     step_sequence_number := fun n => n + 1;
     MD5 := fun s i => ascii_of_nat (String.length s + 37 * i);
     AFSQL_COLUMN_DEFAULT := 1 |}.

(** A database that refuses the statements [refused] selects and accepts the
    others, stays alive, and quotes a value by apostrophes unless the value
    is [unquotable]. *)
Definition scripted_dbi (refused : string -> bool) : @Dbi sample_host :=
  {| dbi_conn_new_r := fun _ => true;
     dbi_conn_connect := fun _ => true;
     dbi_conn_query := fun _ query =>
       if refused query then None else Some (@nil string : @dbi_result sample_host);
     dbi_conn_ping := fun _ => true;
     dbi_conn_quote_string_copy := fun value =>
       if String.eqb value "unquotable" then None else Some ("'" +:+ value +:+ "'") |}.

Definition accepting_dbi : @Dbi sample_host := scripted_dbi (fun _ => false).

(** The queue the host hands over: two messages wait in it. *)
Definition sample_queue : @LogQueue sample_host :=
  @Build_LogQueue sample_host ["hello"; "world"] [] false.

(** The queue in the middle of a batch of two. *)
Definition sample_queue_in_batch : @LogQueue sample_host :=
  @Build_LogQueue sample_host ["third"] ["hello"; "world"] true.

Definition sample_env : @InitEnv sample_host :=
  {| server_mode := true;
     log_dest_driver_init_method := true;
     cfg_flush_lines := -1;
     cfg_time_reopen := 60;
     persisted_seq_num := 0;
     acquired_queue := Some sample_queue;
     dbi_initialized := false;
     dbi_initialize_r := 1 |}.

(** Three columns, the second left to its default, [-] as the null value,
    tables not created. *)
Definition sample_calls : list setter_call :=
  [ SetColumns ["msg"; "id int"; "note varchar(8)"];
    SetValues [ValueTemplate "$MSG"; ValueCode 1; ValueTemplate "-"];
    SetIndexes [];
    SetNullValue "-";
    SetFlags AFSQL_DDF_DONT_CREATE_TABLES ].

(** The same with a flush threshold of 100 and no explicit commits. *)
Definition sample_calls_flush_100 : list setter_call :=
  sample_calls ++ [SetFlushLines 100].

(** The same with explicit commits and a flush threshold of 2. *)
Definition sample_calls_explicit : list setter_call :=
  sample_calls
    ++ [SetFlags (Z.lor AFSQL_DDF_DONT_CREATE_TABLES AFSQL_DDF_EXPLICIT_COMMITS);
        SetFlushLines 2].

Definition started (calls : list setter_call) : @AFSqlDestDriver sample_host :=
  match afsql_dd_init (build := sample_build) sample_env (configured calls) with
  | InitStarted self => self
  | _ => afsql_dd_new
  end.

Definition sample_driver : @AFSqlDestDriver sample_host :=
  Eval vm_compute in started sample_calls.

Definition sample_driver_flush_100 : @AFSqlDestDriver sample_host :=
  Eval vm_compute in started sample_calls_flush_100.

Definition sample_driver_explicit : @AFSqlDestDriver sample_host :=
  Eval vm_compute in started sample_calls_explicit.

(** The explicit-commit driver in the middle of a batch: two messages
    inserted and in the backlog, a transaction open. *)
Definition sample_driver_in_batch : @AFSqlDestDriver sample_host :=
  Eval vm_compute in
  set_transaction_active true
    (set_flush_lines_queued 2 (set_queue sample_queue_in_batch sample_driver_explicit)).

(** A configuration that lets the driver create and alter its tables: one
    column, no explicit commits, no flush threshold. *)
Definition sample_calls_creating : list setter_call :=
  [ SetColumns ["msg"]; SetValues [ValueTemplate "$MSG"]; SetIndexes [] ].

Definition sample_driver_creating : @AFSqlDestDriver sample_host :=
  Eval vm_compute in started sample_calls_creating.

(** The INSERT of the message [hello] under the sample configuration. *)
Definition sample_insert : string :=
  "INSERT INTO messages (msg, note) VALUES ('hello', NULL)".

Definition refusing_insert_dbi : @Dbi sample_host :=
  scripted_dbi (fun query => String.eqb query sample_insert).

Definition refusing_commit_dbi : @Dbi sample_host :=
  scripted_dbi (fun query => String.eqb query "COMMIT").


(** A database in which every table exists with the one column [msg]: it
    answers every statement with a result of that column. *)
Definition existing_table_dbi : @Dbi sample_host :=
  {| dbi_conn_new_r := fun _ => true;
     dbi_conn_connect := fun _ => true;
     dbi_conn_query := fun _ _ => Some (["msg"] : @dbi_result sample_host);
     dbi_conn_ping := fun _ => true;
     dbi_conn_quote_string_copy := fun value => Some ("'" +:+ value +:+ "'") |}.

(** Stores of the host: the persistent state is the list of the names of its
    entries, the persistent configuration a list of names with their
    numbers, the youngest first. *)
Definition sample_persist : Persist :=
  {| persist_state := list string;
     persist_state_lookup_string := fun state name => existsb (String.eqb name) state;
     persist_state_rename_entry := fun state old new =>
       map (fun name => if String.eqb name old then new else name) state;
     persist_config := list (string * Z);
     cfg_persist_config_fetch := fun cfg name =>
       match find (fun entry => String.eqb (fst entry) name) cfg with
       | Some entry => snd entry
       | None => 0
       end;
     cfg_persist_config_add := fun cfg name n => (name, n) :: cfg |}.

(** The sample driver after two rounds on the accepting database. *)
Definition sample_driver_after_two : @AFSqlDestDriver sample_host :=
  Eval vm_compute in
  snd (database_thread_rounds (build := sample_build) (dbi := accepting_dbi) 2
         sample_driver).

(** A database to which no connection can be made. *)
Definition unreachable_dbi : @Dbi sample_host :=
  {| dbi_conn_new_r := fun _ => true;
     dbi_conn_connect := fun _ => false;
     dbi_conn_query := fun _ _ => None;
     dbi_conn_ping := fun _ => false;
     dbi_conn_quote_string_copy := fun value => Some ("'" +:+ value +:+ "'") |}.

(** A database whose connection is lost once the first message has been
    acknowledged: from then on every statement and every ping fail. *)
Definition lost_after_first_dbi : @Dbi sample_host :=
  {| dbi_conn_new_r := fun _ => true;
     dbi_conn_connect := fun _ => true;
     dbi_conn_query := fun tr _ =>
       if (1 <=? length (acknowledged tr))%nat then None
       else Some (@nil string : @dbi_result sample_host);
     dbi_conn_ping := fun tr => negb (1 <=? length (acknowledged tr))%nat;
     dbi_conn_quote_string_copy := fun value => Some ("'" +:+ value +:+ "'") |}.

(** The explicit-commit driver at the start of a batch, connected. *)
Definition sample_driver_at_batch : @AFSqlDestDriver sample_host :=
  Eval vm_compute in set_dbi_ctx true sample_driver_explicit.

(** A configuration that lets the driver create its tables with an index on
    their one column. *)
Definition sample_calls_indexed : list setter_call :=
  [ SetColumns ["msg"]; SetValues [ValueTemplate "$MSG"]; SetIndexes ["msg"] ].

Definition sample_driver_indexed : @AFSqlDestDriver sample_host :=
  Eval vm_compute in started sample_calls_indexed.

(** A database in which the table [messages] does not exist: it refuses
    the probe of that table and accepts every other statement. *)
Definition probe_refusing_dbi : @Dbi sample_host :=
  scripted_dbi (fun query => String.eqb query "SELECT * FROM messages WHERE 0=1").
(** The INSERT of [hello] by the driver that creates its tables. *)
Definition sample_insert_indexed : string :=
  "INSERT INTO messages (msg) VALUES ('hello')".

(** A database that refuses that INSERT and nothing else. *)
Definition refusing_indexed_dbi : @Dbi sample_host :=
  scripted_dbi (fun query => String.eqb query sample_insert_indexed).

(** The driver that creates its tables, with explicit commits and no flush
    threshold: the counter of the batch starts at -1 although the queue keeps
    a backlog. *)
Definition sample_calls_unbatched : list setter_call :=
  sample_calls_indexed ++ [SetFlags AFSQL_DDF_EXPLICIT_COMMITS].

Definition sample_driver_unbatched : @AFSqlDestDriver sample_host :=
  Eval vm_compute in started sample_calls_unbatched.


(** * Part II: properties *)

(** ** Identifiers and ports *)

Section CharacterFacts.

Context {build : BuildConfig}.

Lemma sql_identifier_char_grammar (i : nat) (c : ascii) :
  sql_identifier_char i c = in_identifier_grammar i c.
Proof.
  unfold sql_identifier_char, in_identifier_grammar, is_letter, is_digit,
    g_ascii_tolower, gchar_val.
  destruct c as [[] [] [] [] [] [] [] []], char_is_signed, i; reflexivity.
Qed.

Lemma port_char_digit (c : ascii) :
  (gchar_val c <? 48) || (57 <? gchar_val c) = negb (is_digit c).
Proof.
  unfold is_digit, gchar_val.
  destruct c as [[] [] [] [] [] [] [] []], char_is_signed; reflexivity.
Qed.

Lemma underscore_in_grammar (i : nat) : in_identifier_grammar i "_" = true.
Proof. destruct i; reflexivity. Qed.

(** With [sanitize = FALSE] the buffer is never written. *)
Lemma check_from_keeps_buffer (token : string) (i : nat) :
  snd (check_sql_identifier_from i token false) = token.
Proof.
  revert i; induction token as [|c rest IH]; intros i; simpl; [reflexivity|].
  destruct (sql_identifier_char i c); [|reflexivity].
  specialize (IH (S i)).
  destruct (check_sql_identifier_from (S i) rest false) as [r rest']; simpl in *.
  now subst.
Qed.

(** With [sanitize = FALSE] the call succeeds exactly when every character is
    in the grammar at its position. *)
Lemma check_from_accepts (token : string) (i : nat) :
  fst (check_sql_identifier_from i token false) = true <->
  (forall (k : nat) (c : ascii),
      String.get k token = Some c -> in_identifier_grammar (i + k) c = true).
Proof.
  revert i; induction token as [|c rest IH]; intros i; simpl.
  - split; [intros _ k c H; destruct k; discriminate | reflexivity].
  - rewrite sql_identifier_char_grammar.
    destruct (in_identifier_grammar i c) eqn:Hc.
    + specialize (IH (S i)).
      destruct (check_sql_identifier_from (S i) rest false) as [r rest']; simpl in *.
      rewrite IH; split.
      * intros H [|k] d Hd; simpl in Hd.
        -- injection Hd as <-. now rewrite Nat.add_0_r.
        -- rewrite Nat.add_succ_r. now apply H.
      * intros H k d Hd. specialize (H (S k) d Hd).
        now rewrite Nat.add_succ_r in H.
    + simpl; split; [discriminate|].
      intros H. specialize (H 0%nat c eq_refl).
      rewrite Nat.add_0_r in H. congruence.
Qed.

(** With [sanitize = TRUE] the call succeeds. *)
Lemma check_from_sanitize_ok (token : string) (i : nat) :
  fst (check_sql_identifier_from i token true) = true.
Proof.
  revert i; induction token as [|c rest IH]; intros i; simpl; [reflexivity|].
  specialize (IH (S i)).
  destruct (check_sql_identifier_from (S i) rest true) as [r rest']; simpl in *.
  now destruct (sql_identifier_char i c).
Qed.

Lemma check_from_sanitize_length (token : string) (i : nat) :
  String.length (snd (check_sql_identifier_from i token true)) = String.length token.
Proof.
  revert i; induction token as [|c rest IH]; intros i; simpl; [reflexivity|].
  specialize (IH (S i)).
  destruct (check_sql_identifier_from (S i) rest true) as [r rest']; simpl in *.
  destruct (sql_identifier_char i c); simpl; congruence.
Qed.

(** With [sanitize = TRUE] each character stays if it is in the grammar and
    becomes an underscore if it is not. *)
Lemma check_from_sanitize_get (token : string) (i k : nat) (c : ascii) :
  String.get k token = Some c ->
  String.get k (snd (check_sql_identifier_from i token true))
  = Some (if in_identifier_grammar (i + k) c then c else "_"%char).
Proof.
  revert i k; induction token as [|d rest IH]; intros i k; simpl.
  - destruct k; discriminate.
  - intros Hk. rewrite sql_identifier_char_grammar.
    specialize (IH (S i)).
    destruct (check_sql_identifier_from (S i) rest true) as [r rest']; simpl in *.
    destruct k as [|k].
    + injection Hk as <-. rewrite Nat.add_0_r.
      destruct (in_identifier_grammar i d); reflexivity.
    + rewrite Nat.add_succ_r.
      destruct (in_identifier_grammar i d); simpl; now apply IH.
Qed.

(** A buffer whose characters are all in the grammar is left as it is. *)
Lemma check_from_fixes_grammar (token : string) (i : nat) :
  (forall (k : nat) (c : ascii),
      String.get k token = Some c -> in_identifier_grammar (i + k) c = true) ->
  snd (check_sql_identifier_from i token true) = token.
Proof.
  revert i; induction token as [|c rest IH]; intros i H; simpl; [reflexivity|].
  rewrite sql_identifier_char_grammar.
  pose proof (H 0%nat c eq_refl) as Hc. rewrite Nat.add_0_r in Hc. rewrite Hc.
  specialize (IH (S i)).
  destruct (check_sql_identifier_from (S i) rest true) as [r rest']; simpl in *.
  rewrite IH; [reflexivity|].
  intros k d Hd. specialize (H (S k) d Hd). now rewrite Nat.add_succ_r in H.
Qed.

(** The sanitized buffer is in the grammar. *)
Lemma check_from_sanitized_in_grammar (token : string) (i k : nat) (c : ascii) :
  String.get k (snd (check_sql_identifier_from i token true)) = Some c ->
  in_identifier_grammar (i + k) c = true.
Proof.
  revert i k; induction token as [|d rest IH]; intros i k; simpl.
  - destruct k; discriminate.
  - rewrite sql_identifier_char_grammar.
    specialize (IH (S i)).
    destruct (check_sql_identifier_from (S i) rest true) as [r rest']; simpl in *.
    destruct (in_identifier_grammar i d) eqn:Hd; simpl; destruct k as [|k]; simpl.
    + intros H; injection H as <-. now rewrite Nat.add_0_r.
    + rewrite Nat.add_succ_r. apply IH.
    + intros H; injection H as <-. apply underscore_in_grammar.
    + rewrite Nat.add_succ_r. apply IH.
Qed.

(** C7.  [afsql_dd_check_sql_identifier] without sanitizing accepts exactly
    the strings that are in the identifier grammar (letters, underscore and
    dot anywhere, digits from position 1 on) and never writes the buffer;
    with sanitizing it returns TRUE for every input, keeps the length, keeps
    every character that is in the grammar at its position and replaces every
    other one by an underscore. *)
Theorem check_sql_identifier_grammar (token : string) :
  (fst (afsql_dd_check_sql_identifier token false) = true <-> identifier_in_grammar token)
  /\ snd (afsql_dd_check_sql_identifier token false) = token
  /\ fst (afsql_dd_check_sql_identifier token true) = true
  /\ String.length (snd (afsql_dd_check_sql_identifier token true)) = String.length token
  /\ (forall (i : nat) (c : ascii),
         String.get i token = Some c ->
         String.get i (snd (afsql_dd_check_sql_identifier token true))
         = Some (if in_identifier_grammar i c then c else "_"%char)).
Proof.
  unfold afsql_dd_check_sql_identifier, identifier_in_grammar.
  repeat split.
  - intros H i c Hi. apply (proj1 (check_from_accepts token 0) H i c Hi).
  - intros H. apply (proj2 (check_from_accepts token 0)). exact H.
  - apply check_from_keeps_buffer.
  - apply check_from_sanitize_ok.
  - apply check_from_sanitize_length.
  - intros i c Hi. apply (check_from_sanitize_get token 0 i c Hi).
Qed.

(** C9.  Sanitizing is idempotent: a second call with [sanitize = TRUE] on
    the buffer a first call left changes no byte. *)
Theorem sanitize_idempotent (token : string) :
  snd (afsql_dd_check_sql_identifier
         (snd (afsql_dd_check_sql_identifier token true)) true)
  = snd (afsql_dd_check_sql_identifier token true).
Proof.
  unfold afsql_dd_check_sql_identifier.
  apply check_from_fixes_grammar.
  intros k c Hk. exact (check_from_sanitized_in_grammar token 0 k c Hk).
Qed.

(** C10.  [afsql_dd_check_port] returns TRUE exactly when every byte of the
    string is a digit; the empty string passes. *)
Theorem check_port_digits (port : string) :
  (afsql_dd_check_port port = true <->
   forall (i : nat) (c : ascii), String.get i port = Some c -> is_digit c = true)
  /\ afsql_dd_check_port "" = true.
Proof.
  split; [|reflexivity].
  induction port as [|c rest IH]; simpl.
  - split; [intros _ i c H; destruct i; discriminate | reflexivity].
  - rewrite port_char_digit.
    destruct (is_digit c) eqn:Hc; simpl.
    + rewrite IH; split.
      * intros H [|i] d Hd; simpl in Hd; [injection Hd as <-; exact Hc | exact (H i d Hd)].
      * intros H i d Hd. exact (H (S i) d Hd).
    + split; [discriminate|].
      intros H. specialize (H 0%nat c eq_refl). congruence.
Qed.

End CharacterFacts.

(** ** Strings *)

Lemma append_assoc (a b c : string) : (a +:+ b) +:+ c = a +:+ (b +:+ c).
Proof. induction a as [|x a IH]; [reflexivity | exact (f_equal (String x) IH)]. Qed.

Lemma append_empty_r (a : string) : a +:+ "" = a.
Proof. induction a as [|x a IH]; [reflexivity | exact (f_equal (String x) IH)]. Qed.

Lemma length_append (a b : string) :
  String.length (a +:+ b) = (String.length a + String.length b)%nat.
Proof. induction a as [|x a IH]; [reflexivity | exact (f_equal S IH)]. Qed.

(** ** The INSERT statement *)

Section BuilderFacts.

Context {build : BuildConfig} {host : Host} {dbi : Dbi}.

Lemma well_formed_inserted (f : AFSqlField) :
  field_well_formed f -> field_is_inserted f = negb (field_is_default f).
Proof.
  unfold field_well_formed, field_is_inserted, field_is_default.
  intros [[-> Hv] | [-> Hv]].
  - destruct (f_value f); [reflexivity | congruence].
  - rewrite Hv. reflexivity.
Qed.

(** The look-ahead stops inside the array exactly when a field that is not
    flagged as default is left. *)
Lemma skip_default_fields_in_range (suf pre : list AFSqlField) (fuel : nat) :
  (length suf <= fuel)%nat ->
  Nat.ltb (skip_default_fields (pre ++ suf) (length pre) fuel) (length (pre ++ suf))
  = match inserted_fields suf with [] => false | _ :: _ => true end.
Proof.
  revert pre fuel; induction suf as [|f suf IH]; intros pre fuel Hfuel.
  - rewrite app_nil_r.
    assert (skip_default_fields pre (length pre) fuel = length pre) as ->.
    { destruct fuel; simpl; [reflexivity|].
      now rewrite (proj2 (nth_error_None pre (length pre)) (Nat.le_refl _)). }
    simpl. apply Nat.ltb_irrefl.
  - destruct fuel as [|fuel]; [simpl in Hfuel; lia|].
    simpl skip_default_fields.
    rewrite nth_error_app2 by lia. rewrite Nat.sub_diag. simpl nth_error.
    unfold inserted_fields; simpl List.filter.
    destruct (field_is_default f) eqn:Hd; simpl negb; cbv iota.
    + specialize (IH (pre ++ [f]) fuel).
      rewrite <- app_assoc in IH. simpl app in IH.
      rewrite length_app in IH. simpl length in IH.
      rewrite Nat.add_1_r in IH. apply IH. simpl in Hfuel. lia.
    + apply Nat.ltb_lt. rewrite length_app. simpl. lia.
Qed.

(** Each loop appends its pieces joined by [", "]. *)
Lemma insert_fields_loop_concat (piece : AFSqlField -> string)
    (suf pre : list AFSqlField) (fuel : nat) (acc : string) :
  Forall field_well_formed suf ->
  (length suf <= fuel)%nat ->
  insert_fields_loop piece (pre ++ suf) (length pre) fuel acc
  = acc +:+ String.concat ", " (map piece (inserted_fields suf)).
Proof.
  revert pre fuel acc; induction suf as [|f suf IH]; intros pre fuel acc Hwf Hfuel.
  - rewrite app_nil_r. simpl. rewrite append_empty_r.
    destruct fuel; simpl; [reflexivity|].
    now rewrite (proj2 (nth_error_None pre (length pre)) (Nat.le_refl _)).
  - destruct fuel as [|fuel]; [simpl in Hfuel; lia|].
    inversion Hwf as [|? ? Hf Hsuf]; subst.
    simpl insert_fields_loop.
    rewrite nth_error_app2 by lia. rewrite Nat.sub_diag. simpl nth_error.
    cbv beta iota. rewrite (well_formed_inserted f Hf).
    pose proof (skip_default_fields_in_range suf (pre ++ [f])
                  (length (pre ++ f :: suf))) as Hskip.
    rewrite <- app_assoc in Hskip. simpl app in Hskip.
    rewrite (length_app pre [f]) in Hskip. simpl length in Hskip.
    rewrite Nat.add_1_r in Hskip.
    rewrite Hskip by (rewrite length_app; simpl; lia).
    specialize (IH (pre ++ [f]) fuel).
    rewrite <- app_assoc in IH. simpl app in IH.
    rewrite length_app in IH. simpl length in IH. rewrite Nat.add_1_r in IH.
    rewrite IH by (try assumption; simpl in Hfuel; lia).
    unfold inserted_fields; simpl List.filter.
    destruct (field_is_default f); simpl negb; cbv iota; [reflexivity|].
    fold (inserted_fields suf).
    destruct (inserted_fields suf) as [|g rest]; simpl map.
    + simpl String.concat. now rewrite append_empty_r.
    + change (String.concat ", " (piece f :: piece g :: map piece rest))
        with (piece f +:+ ", " +:+ String.concat ", " (piece g :: map piece rest)).
      now rewrite !append_assoc.
Qed.

Lemma insert_value_literal_sql_literal (null : option string) (value : string) :
  insert_value_literal null value = sql_literal null value.
Proof.
  unfold insert_value_literal, sql_literal.
  destruct null as [n|].
  - destruct (String.eqb_spec n value) as [->|Hne].
    + now rewrite bool_decide_eq_true_2.
    + rewrite bool_decide_eq_false_2; [reflexivity | congruence].
  - now rewrite bool_decide_eq_false_2.
Qed.

(** The statement as a whole, for a driver whose fields are well formed. *)
Lemma build_insert_command_shape (self : AFSqlDestDriver) (msg : LogMessage)
    (table : string) :
  Forall field_well_formed (fields_of self) ->
  afsql_dd_build_insert_command self msg table
  = "INSERT INTO " +:+ table +:+ " ("
      +:+ String.concat ", " (insert_column_list self)
      +:+ ") VALUES ("
      +:+ String.concat ", " (insert_value_list self msg)
      +:+ ")".
Proof.
  intros Hwf. unfold afsql_dd_build_insert_command.
  rewrite (insert_fields_loop_concat f_name (fields_of self) [] _ _ Hwf (Nat.le_refl _)).
  rewrite (insert_fields_loop_concat _ (fields_of self) [] _ _ Hwf (Nat.le_refl _)).
  unfold insert_column_list, insert_value_list.
  rewrite !append_assoc.
  assert (map (insert_value_of_field (null_value self) (seq_num self) msg)
              (inserted_fields (fields_of self))
          = map (fun f => match rendered_value self msg f with
                          | Some value => sql_literal (null_value self) value
                          | None => ""
                          end) (inserted_fields (fields_of self))) as ->; [|reflexivity].
  apply map_ext. intros f.
  unfold insert_value_of_field, rendered_value.
  destruct (f_value f); [apply insert_value_literal_sql_literal | reflexivity].
Qed.

End BuilderFacts.

(** ** Initialization *)

Section InitializationFacts.

Context {build : BuildConfig} {host : Host} {dbi : Dbi}.

(** The field loop builds well-formed fields. *)
Lemma init_fields_well_formed (cols : list string) (vals : list AFSqlValue)
    (fs : list AFSqlField) :
  init_fields cols vals = FieldsBuilt fs -> Forall field_well_formed fs.
Proof.
  revert vals fs; induction cols as [|col cols IH]; intros vals fs; simpl.
  - intros H; injection H as <-. constructor.
  - destruct vals as [|value vals]; [intros H; injection H as <-; constructor|].
    destruct (column_name_and_type col) as [name type0].
    destruct (negb (fst (afsql_dd_check_sql_identifier name false))); [discriminate|].
    destruct value as [template|code].
    + destruct (init_fields cols vals) as [fs'| |] eqn:Hrest; try discriminate.
      intros H; injection H as <-. constructor; [|now apply (IH vals)].
      left; simpl; split; [reflexivity | discriminate].
    + destruct (Z.eqb code AFSQL_COLUMN_DEFAULT); [|discriminate].
      destruct (init_fields cols vals) as [fs'| |] eqn:Hrest; try discriminate.
      intros H; injection H as <-. constructor; [|now apply (IH vals)].
      right; simpl; split; reflexivity.
Qed.

(** The field loop rejects a column whose name is not in the identifier
    grammar, and names every field it builds by an identifier. *)
Lemma init_fields_names_in_grammar (cols : list string) (vals : list AFSqlValue)
    (fs : list AFSqlField) :
  init_fields cols vals = FieldsBuilt fs ->
  Forall (fun f => identifier_in_grammar (f_name f)) fs.
Proof.
  revert vals fs; induction cols as [|col cols IH]; intros vals fs; simpl.
  - intros H; injection H as <-. constructor.
  - destruct vals as [|value vals]; [intros H; injection H as <-; constructor|].
    destruct (column_name_and_type col) as [name type0].
    destruct (fst (afsql_dd_check_sql_identifier name false)) eqn:Hname;
      simpl negb; cbv iota; [|discriminate].
    pose proof (proj1 (check_from_accepts name 0) Hname) as Hname'.
    clear Hname; rename Hname' into Hname.
    destruct value as [template|code].
    + destruct (init_fields cols vals) as [fs'| |] eqn:Hrest; try discriminate.
      intros H; injection H as <-. constructor; [exact Hname | now apply (IH vals)].
    + destruct (Z.eqb code AFSQL_COLUMN_DEFAULT); [|discriminate].
      destruct (init_fields cols vals) as [fs'| |] eqn:Hrest; try discriminate.
      intros H; injection H as <-. constructor; [exact Hname | now apply (IH vals)].
Qed.

Lemma call_setter_unstarted (self : AFSqlDestDriver) (c : setter_call) :
  unstarted self -> unstarted (call_setter self c).
Proof.
  unfold unstarted. intros (Hq & Hf & Ht & Hc & Hr).
  destruct c; simpl; try (repeat split; assumption).
  - unfold afsql_dd_set_indexes. destruct indexes0; simpl; repeat split; assumption.
  - unfold afsql_dd_set_retries.
    destruct (Z.ltb_spec num_retries0 1); simpl; repeat split; try assumption; lia.
Qed.

Lemma configured_unstarted (calls : list setter_call) : unstarted (configured calls).
Proof.
  unfold configured.
  assert (unstarted afsql_dd_new) as Hnew.
  { unfold unstarted, afsql_dd_new, MAX_FAILED_ATTEMPTS; simpl. repeat split; lia. }
  revert Hnew. generalize afsql_dd_new as self.
  induction calls as [|c calls IH]; intros self Hself; simpl; [exact Hself|].
  apply IH. now apply call_setter_unstarted.
Qed.

(** What [afsql_dd_init] leaves in a driver it starts, in terms of the driver
    [self0] it was called on. *)
Lemma init_started (env : InitEnv) (self0 self : AFSqlDestDriver) :
  unstarted self0 ->
  afsql_dd_init env self0 = InitStarted self ->
  flags self = flags self0
  /\ num_retries self = num_retries self0
  /\ failed_message_counter self = 0
  /\ transaction_active self = false
  /\ flush_lines self
     = (if Z.eqb (flush_lines self0) (-1) then cfg_flush_lines env else flush_lines self0)
  /\ flush_lines_queued self
     = (if has_flag (flags self0) AFSQL_DDF_EXPLICIT_COMMITS && (0 <? flush_lines self)
        then 0 else -1)
  /\ (exists q, acquired_queue env = Some q
                /\ use_backlog (queue self) = has_flag (flags self0) AFSQL_DDF_EXPLICIT_COMMITS
                                              || use_backlog q)
  /\ Forall field_well_formed (fields_of self).
Proof.
  intros (Hq & Hf & Ht & Hc & Hr). unfold afsql_dd_init.
  destruct (server_mode env); simpl negb; cbv iota; [|discriminate].
  destruct (log_dest_driver_init_method env); simpl negb; cbv iota; [|discriminate].
  destruct (columns self0) as [|c0 cs] eqn:Hcols; [discriminate|].
  destruct (indexes self0) as [|i0 idx] eqn:Hidx; [discriminate|].
  destruct (values self0) as [|v0 vs] eqn:Hvals; [discriminate|].
  destruct (acquired_queue env) as [q|]; [|discriminate].
  simpl fields. rewrite Hf. simpl columns. simpl values. rewrite Hcols, Hvals.
  destruct (negb (Nat.eqb (length (c0 :: cs)) (length (v0 :: vs)))); [discriminate|].
  destruct (init_fields (c0 :: cs) (v0 :: vs)) as [fs| |] eqn:Hbuilt; try discriminate.
  apply init_fields_well_formed in Hbuilt.
  simpl flags. simpl flush_lines.
  destruct (Z.eqb (flush_lines self0) (-1)) eqn:Hfl; simpl flags; simpl flush_lines;
    destruct (has_flag (flags self0) AFSQL_DDF_EXPLICIT_COMMITS) eqn:Hex; simpl andb;
    match goal with
    | |- context [0 <? ?x] => destruct (0 <? x) eqn:Hpos
    | _ => idtac
    end;
    destruct (negb (dbi_initialized env) && (dbi_initialize_r env <=? 0));
    try discriminate;
    intros H; injection H as <-; simpl;
    rewrite ?Hfl, ?Hex, ?Hpos; simpl;
    repeat split; try assumption; try reflexivity;
    exists q; split; try reflexivity.
Qed.

(** C5.  For a driver whose fields are as the initialization builds them,
    the INSERT statement is [INSERT INTO table (columns) VALUES (values)]
    where the column list and the values list are joined by [", "] (so no
    comma trails), have the same number of entries, and the columns are the
    names of exactly the fields whose default flag is not set. *)
Theorem insert_command_lists (self : AFSqlDestDriver) (msg : LogMessage) (table : string) :
  Forall field_well_formed (fields_of self) ->
  afsql_dd_build_insert_command self msg table
  = "INSERT INTO " +:+ table +:+ " ("
      +:+ String.concat ", " (insert_column_list self)
      +:+ ") VALUES ("
      +:+ String.concat ", " (insert_value_list self msg)
      +:+ ")"
  /\ length (insert_column_list self) = length (insert_value_list self msg)
  /\ insert_column_list self
     = map f_name
         (List.filter (fun f => Z.eqb (Z.land (f_flags f) AFSQL_FF_DEFAULT) 0) (fields_of self)).
Proof.
  intros Hwf. split; [now apply build_insert_command_shape|]. split.
  - unfold insert_column_list, insert_value_list. now rewrite !length_map.
  - unfold insert_column_list, inserted_fields. f_equal.
    induction Hwf as [|f fs Hf _ IH]; simpl; [reflexivity|].
    rewrite IH. unfold field_is_default.
    destruct Hf as [[-> _] | [-> _]]; reflexivity.
Qed.

(** C6.  In the values list of the INSERT, the entry of a field whose
    rendered value is [value] is [NULL] when [value] is the configured null
    value; otherwise it is the string the driver's quoting returns, and two
    apostrophes when the quoting returns none. *)
Theorem insert_values_null_or_quoted (self : AFSqlDestDriver) (msg : LogMessage)
    (table : string) :
  Forall field_well_formed (fields_of self) ->
  afsql_dd_build_insert_command self msg table
  = "INSERT INTO " +:+ table +:+ " ("
      +:+ String.concat ", " (insert_column_list self)
      +:+ ") VALUES ("
      +:+ String.concat ", " (insert_value_list self msg)
      +:+ ")"
  /\ forall (i : nat) (f : AFSqlField) (value : string),
       nth_error (inserted_fields (fields_of self)) i = Some f ->
       rendered_value self msg f = Some value ->
       exists literal : string,
         nth_error (insert_value_list self msg) i = Some literal
         /\ (null_value self = Some value -> literal = "NULL")
         /\ (null_value self <> Some value ->
             forall quoted : string,
               dbi_conn_quote_string_copy value = Some quoted -> literal = quoted)
         /\ (null_value self <> Some value ->
             dbi_conn_quote_string_copy value = None -> literal = "''").
Proof.
  intros Hwf. split; [now apply build_insert_command_shape|].
  intros i f value Hi Hvalue.
  exists (sql_literal (null_value self) value). split.
  - unfold insert_value_list. rewrite nth_error_map, Hi. simpl. now rewrite Hvalue.
  - unfold sql_literal. repeat split.
    + intros Hnull. now rewrite bool_decide_eq_true_2.
    + intros Hnull quoted Hq. rewrite bool_decide_eq_false_2 by assumption. now rewrite Hq.
    + intros Hnull Hq. rewrite bool_decide_eq_false_2 by assumption. now rewrite Hq.
Qed.

End InitializationFacts.

(** ** Index names *)

Section IndexNames.

Context {build : BuildConfig} {host : Host}.

Lemma string_forallb_append (p : ascii -> bool) (a b : string) :
  string_forallb p (a +:+ b) = string_forallb p a && string_forallb p b.
Proof.
  induction a as [|x a IH]; [reflexivity|].
  change (p x && string_forallb p (a +:+ b) = p x && string_forallb p a && string_forallb p b).
  now rewrite IH, andb_assoc.
Qed.

Lemma hex_of_byte_lower (b : ascii) : string_forallb is_lower_hex (hex_of_byte b) = true.
Proof. destruct b as [[] [] [] [] [] [] [] []]; reflexivity. Qed.

Lemma hex_of_bytes_lower (data : nat -> ascii) (count from : nat) :
  string_forallb is_lower_hex (hex_of_bytes data from count) = true.
Proof.
  revert from; induction count as [|count IH]; intros from; [reflexivity|].
  change (hex_of_bytes data from (S count))
    with (hex_of_byte (data from) +:+ hex_of_bytes data (S from) count).
  now rewrite string_forallb_append, hex_of_byte_lower, IH.
Qed.

Lemma hex_of_bytes_length (data : nat -> ascii) (count from : nat) :
  String.length (hex_of_bytes data from count) = (2 * count)%nat.
Proof.
  revert from; induction count as [|count IH]; intros from; [reflexivity|].
  change (hex_of_bytes data from (S count))
    with (hex_of_byte (data from) +:+ hex_of_bytes data (S from) count).
  rewrite length_append, IH. simpl. lia.
Qed.

Lemma string_take_forallb (p : ascii -> bool) (n : nat) (s : string) :
  string_forallb p s = true -> string_forallb p (string_take n s) = true.
Proof.
  revert s; induction n as [|n IH]; intros [|c s]; simpl; try reflexivity.
  intros H. apply andb_prop in H as [Hc Hs]. now rewrite Hc, IH.
Qed.

Lemma string_take_length (n : nat) (s : string) :
  (n <= String.length s)%nat -> String.length (string_take n s) = n.
Proof.
  revert s; induction n as [|n IH]; intros [|c s]; simpl; try reflexivity; try lia.
  intros H. rewrite IH; lia.
Qed.

(** The name derived from a digest: 30 hexadecimal digits with the first one
    overwritten. *)
Lemma digest_index_name_matches (data : nat -> ascii) :
  matches_oracle_index_name
    (set_first_char "i" (format_hex_string data MD5_DIGEST_LENGTH 31)).
Proof.
  unfold format_hex_string, MD5_DIGEST_LENGTH.
  pose proof (hex_of_bytes_lower data 16 0) as Hhex.
  pose proof (hex_of_bytes_length data 16 0) as Hlen.
  pose proof (string_take_forallb is_lower_hex (31 - 1) _ Hhex) as Htake.
  pose proof (string_take_length (31 - 1) (hex_of_bytes data 0 16)) as Htlen.
  rewrite Hlen in Htlen. specialize (Htlen ltac:(simpl; lia)).
  destruct (string_take (31 - 1) (hex_of_bytes data 0 16)) as [|c rest];
    [simpl in Htlen; lia|].
  simpl in Htake, Htlen. apply andb_prop in Htake as [_ Hrest].
  exists rest. repeat split; [lia | exact Hrest].
Qed.

(** C8 (as the code has it).  For the dialect oracle and a table and column
    whose lengths sum to more than 25, a build with OpenSSL gives the index
    the name made of the first 30 hexadecimal digits of the MD5 digest of
    [table_column] with the first character overwritten by [i]; that name
    matches [^i[0-9a-f]{29}$].  For shorter names and for every other
    dialect the index is named [table_column_idx]. *)
Theorem create_index_name (type table column : string) :
  (type = s_oracle ->
   (25 < String.length table + String.length column)%nat ->
   ENABLE_SSL = true ->
   exists name : string,
     create_index_query type table column
     = "CREATE INDEX " +:+ name +:+ " ON " +:+ table +:+ " (" +:+ column +:+ ")"
     /\ name = set_first_char "i"
                 (string_take 30 (hex_of_bytes (MD5 (table +:+ "_" +:+ column)) 0 16))
     /\ matches_oracle_index_name name)
  /\ (type <> s_oracle \/ (String.length table + String.length column <= 25)%nat ->
      create_index_query type table column
      = "CREATE INDEX " +:+ (table +:+ "_" +:+ column +:+ "_idx")
          +:+ " ON " +:+ table +:+ " (" +:+ column +:+ ")").
Proof.
  unfold create_index_query. split.
  - intros -> Hlong Hssl. rewrite String.eqb_refl.
    rewrite (proj2 (Nat.ltb_lt _ _) Hlong), Hssl.
    eexists. split; [reflexivity|]. split; [reflexivity|].
    apply digest_index_name_matches.
  - intros Hshort.
    assert ("CREATE INDEX " +:+ table +:+ "_" +:+ column +:+ "_idx ON " +:+ table
              +:+ " (" +:+ column +:+ ")"
            = "CREATE INDEX " +:+ (table +:+ "_" +:+ column +:+ "_idx")
                +:+ " ON " +:+ table +:+ " (" +:+ column +:+ ")") as Heq.
    { rewrite !append_assoc. reflexivity. }
    destruct (String.eqb_spec type s_oracle) as [->|Hne]; [|exact Heq].
    destruct Hshort as [Hne|Hshort]; [congruence|].
    rewrite (proj2 (Nat.ltb_ge _ _) Hshort). exact Heq.
Qed.

End IndexNames.

(** ** Transactions *)

(** Unfolding of the monad and of the elementary operations. *)
Ltac run_monad :=
  unfold afsql_dd_run_query, afsql_dd_run_query_result,
    afsql_dd_handle_transaction_error, bind, ret, gets, modify, emit;
  simpl.

(** Reduction of the control flow around a call whose result is known. *)
Ltac reduce_control := cbv beta iota zeta delta [negb andb orb fst snd].

Ltac reduce_branches := cbn [negb andb orb fst snd id].

Section TransactionFacts.

Context {build : BuildConfig} {host : Host} {dbi : Dbi}.

Lemma same_configuration_refl (s : AFSqlDestDriver) : same_configuration s s.
Proof. unfold same_configuration. repeat split. Qed.

Lemma same_configuration_trans (s1 s2 s3 : AFSqlDestDriver) :
  same_configuration s1 s2 -> same_configuration s2 s3 -> same_configuration s1 s3.
Proof.
  unfold same_configuration.
  intros (A1 & A2 & A3 & A4 & A5 & A6 & A7 & A8 & A9 & A10 & A11 & A12 & A13)
         (B1 & B2 & B3 & B4 & B5 & B6 & B7 & B8 & B9 & B10 & B11 & B12 & B13).
  repeat split; congruence.
Qed.

(** C3.  [afsql_dd_commit_transaction] returns TRUE and leaves the driver
    as it is when no transaction is active.  With a transaction active it
    sends COMMIT; if that succeeds it acknowledges exactly
    [flush_lines_queued] backlog entries, resets the counter to 0 and clears
    [transaction_active]; if it fails it rewinds the whole backlog, resets
    the counter to 0, leaves [transaction_active] set and returns FALSE. *)
Theorem commit_transaction_outcomes (self : AFSqlDestDriver) :
  (transaction_active self = false -> afsql_dd_commit_transaction self = (true, self))
  /\ (transaction_active self = true ->
      is_some (dbi_conn_query (trace self) "COMMIT") = true ->
      fst (afsql_dd_commit_transaction self) = true
      /\ let self' := snd (afsql_dd_commit_transaction self) in
         trace self'
         = EvAckBacklog (flush_lines_queued self) :: EvQuery "COMMIT" true :: trace self
         /\ queue self'
            = log_queue_ack_backlog (queue self) (to_guint32 (flush_lines_queued self))
         /\ flush_lines_queued self' = 0
         /\ transaction_active self' = false
         /\ same_configuration self self')
  /\ (transaction_active self = true ->
      is_some (dbi_conn_query (trace self) "COMMIT") = false ->
      fst (afsql_dd_commit_transaction self) = false
      /\ let self' := snd (afsql_dd_commit_transaction self) in
         trace self' = EvRewindBacklogAll :: EvQuery "COMMIT" false :: trace self
         /\ queue self' = log_queue_rewind_backlog_all (queue self)
         /\ flush_lines_queued self' = 0
         /\ transaction_active self' = transaction_active self
         /\ same_configuration self self').
Proof.
  unfold afsql_dd_commit_transaction. split; [|split].
  - intros Hactive. run_monad. rewrite Hactive. reflexivity.
  - intros Hactive Hcommit. run_monad. rewrite Hactive. simpl.
    rewrite Hcommit. simpl. repeat split.
  - intros Hactive Hcommit. run_monad. rewrite Hactive. simpl.
    rewrite Hcommit. simpl. repeat split. now rewrite Hactive.
Qed.

(** A failed commit: the transaction was active, COMMIT was refused, and the
    driver is left with the backlog rewound and the counter at 0. *)
Lemma commit_failure_inv (self self1 : AFSqlDestDriver) :
  afsql_dd_commit_transaction self = (false, self1) ->
  transaction_active self = true
  /\ is_some (dbi_conn_query (trace self) "COMMIT") = false
  /\ self1
     = set_flush_lines_queued 0
         (set_trace (EvRewindBacklogAll :: EvQuery "COMMIT" false :: trace self)
            (set_queue (log_queue_rewind_backlog_all (queue self)) self)).
Proof.
  unfold afsql_dd_commit_transaction. run_monad.
  destruct (transaction_active self) eqn:Hactive; simpl; [|discriminate].
  destruct (is_some (dbi_conn_query (trace self) "COMMIT")) eqn:Hcommit; simpl;
    [discriminate|].
  intros H; injection H as <-. split; [reflexivity|]. split; [reflexivity|].
  destruct self; reflexivity.
Qed.

(** C4.  After a commit has failed, the rollback that each caller attempts
    next leaves the counter at 0 and no transaction active, whatever the
    database answers to ROLLBACK.  The callers are
    [afsql_dd_begin_new_transaction], [afsql_dd_insert_db] (the commit of a
    full batch), the idle round of the database thread and its last commit. *)
Theorem commit_failure_then_rollback (self self1 : AFSqlDestDriver) :
  afsql_dd_commit_transaction self = (false, self1) ->
  let self2 := snd (afsql_dd_rollback_transaction self1) in
  (flush_lines_queued self2 = 0 /\ transaction_active self2 = false
   /\ trace self2
      = EvQuery "ROLLBACK" (is_some (dbi_conn_query (trace self1) "ROLLBACK")) :: trace self1
   /\ fst (afsql_dd_rollback_transaction self1)
      = is_some (dbi_conn_query (trace self1) "ROLLBACK"))
  /\ afsql_dd_begin_new_transaction self = (false, self2)
  /\ (forall (msg : LogMessage) (self0 : AFSqlDestDriver),
        afsql_dd_is_transaction_handling_enabled self0 = true ->
        self = set_flush_lines_queued (flush_lines_queued self0 + 1) self0 ->
        afsql_dd_should_commit_transaction self = true ->
        insert_db_after_insert msg true self0 = (false, self2))
  /\ (db_thread_suspended self = false ->
      log_queue_has_items (queue self) = false ->
      0 < flush_lines_queued self ->
      flush_lines_queued (snd (database_thread_round self)) = 0
      /\ transaction_active (snd (database_thread_round self)) = false)
  /\ (0 < flush_lines_queued self ->
      flush_lines_queued (snd (database_thread_finish self)) = 0
      /\ transaction_active (snd (database_thread_finish self)) = false).
Proof.
  intros Hcommit self2.
  destruct (commit_failure_inv _ _ Hcommit) as (Hactive & Hrefused & Hself1).
  assert (transaction_active self1 = true) as Hactive1 by (subst self1; exact Hactive).
  assert (flush_lines_queued self1 = 0) as Hqueued1 by (subst self1; reflexivity).
  assert (afsql_dd_rollback_transaction self1
          = (is_some (dbi_conn_query (trace self1) "ROLLBACK"),
             set_trace (EvQuery "ROLLBACK" (is_some (dbi_conn_query (trace self1) "ROLLBACK"))
                          :: trace self1)
               (set_transaction_active false self1))) as Hrollback.
  { unfold afsql_dd_rollback_transaction. run_monad. now rewrite Hactive1. }
  subst self2. rewrite Hrollback. simpl snd. simpl fst.
  split; [|split; [|split; [|split]]].
  - simpl. now rewrite Hqueued1.
  - cbv [afsql_dd_begin_new_transaction bind gets ret]. rewrite Hactive, Hcommit.
    reduce_control. now rewrite Hrollback.
  - intros msg self0 Henabled Hself Hdue.
    cbv [insert_db_after_insert bind gets ret modify]. rewrite Henabled.
    reduce_control. rewrite <- Hself, Hdue, Hcommit.
    reduce_control. now rewrite Hrollback.
  - intros Hsuspended Hitems Hpos.
    cbv [database_thread_round bind gets ret]. rewrite Hsuspended, Hitems.
    reduce_control. rewrite (proj2 (Z.ltb_lt _ _) Hpos), Hcommit.
    reduce_control. rewrite Hrollback.
    destruct (is_some (dbi_conn_query (trace self1) "ROLLBACK")); simpl;
      now rewrite Hqueued1.
  - intros Hpos.
    cbv [database_thread_finish bind gets ret]. rewrite (proj2 (Z.ltb_lt _ _) Hpos), Hcommit.
    reduce_control. rewrite Hrollback. simpl. now rewrite Hqueued1.
Qed.

End TransactionFacts.

(** ** Row errors: retry and drop *)

Section RetryFacts.

Context {build : BuildConfig} {host : Host} {dbi : Dbi}.

Lemma insert_fields_loop_extends (piece : AFSqlField -> string) (fs : list AFSqlField)
    (fuel i : nat) (acc : string) :
  exists x : string, insert_fields_loop piece fs i fuel acc = acc +:+ x.
Proof.
  revert i acc; induction fuel as [|fuel IH]; intros i acc; simpl.
  - exists "". now rewrite append_empty_r.
  - destruct (nth_error fs i) as [f|]; [|exists ""; now rewrite append_empty_r].
    destruct (field_is_inserted f); [|apply IH].
    destruct (Nat.ltb _ _).
    + destruct (IH (S i) (acc +:+ f_name f +:+ ", ")) as [x Hx].
      destruct (IH (S i) (acc +:+ piece f +:+ ", ")) as [y Hy].
      exists (piece f +:+ ", " +:+ y). rewrite Hy. now rewrite !append_assoc.
    + destruct (IH (S i) (acc +:+ piece f)) as [y Hy].
      exists (piece f +:+ y). rewrite Hy. now rewrite !append_assoc.
Qed.


Lemma build_insert_command_ext (s s' : AFSqlDestDriver) (msg : LogMessage) (table : string) :
  fields s' = fields s -> null_value s' = null_value s -> seq_num s' = seq_num s ->
  afsql_dd_build_insert_command s' msg table = afsql_dd_build_insert_command s msg table.
Proof.
  intros Hf Hn Hs. unfold afsql_dd_build_insert_command, fields_of.
  now rewrite Hf, Hn, Hs.
Qed.


Lemma drops_app (a b : list event) : drops (a ++ b) = (drops a + drops b)%nat.
Proof.
  induction a as [|e a IH]; simpl; [reflexivity|].
  destruct e; try exact IH. now rewrite IH.
Qed.



Lemma retrying_refl (s : AFSqlDestDriver) : retrying s s.
Proof. unfold retrying. repeat split. Qed.


(** A statement other than the refused one is accepted and leaves one
    event. *)
Lemma run_query_accepted (refused query : string) (silent : bool) (s : AFSqlDestDriver) :
  refuses_only refused -> query <> refused ->
  afsql_dd_run_query query silent s
  = (true, set_trace (EvQuery query true :: trace s) s).
Proof.
  intros (_ & Hother & _) Hne. run_monad. now rewrite (Hother _ _ Hne).
Qed.




Lemma to_guint32_small (x : Z) : 0 <= x < 2 ^ 32 -> to_guint32 x = x.
Proof. intros H. unfold to_guint32. now apply Z.mod_small. Qed.


Lemma rollback_msg_outcome (self : AFSqlDestDriver) (msg : LogMessage) :
  afsql_dd_rollback_msg msg self
  = (tt,
     if has_flag (flags self) AFSQL_DDF_EXPLICIT_COMMITS
     then set_trace (EvRewindBacklog 1 :: trace self)
            (set_queue (log_queue_rewind_backlog (queue self) 1) self)
     else set_trace (EvPushHead msg :: trace self)
            (set_queue (log_queue_push_head (queue self) msg) self)).
Proof.
  unfold afsql_dd_rollback_msg. cbv [bind gets ret modify emit].
  destruct (has_flag _ _); reflexivity.
Qed.

Lemma moved_on_refl (s : AFSqlDestDriver) : moved_on s s.
Proof. unfold moved_on, same_configuration. repeat split. Qed.






End RetryFacts.

(** ** What the database thread keeps *)

Section Preservation.

Context {build : BuildConfig} {host : Host} {dbi : Dbi}.

Variable P : AFSqlDestDriver -> Prop.

Hypothesis stable : thread_stable P.

Lemma preserves_ret {A : Type} (a : A) : preserves P (ret a).
Proof. intros s Hs. exact Hs. Qed.

Lemma preserves_gets {A : Type} (f : AFSqlDestDriver -> A) : preserves P (gets f).
Proof. intros s Hs. exact Hs. Qed.

Lemma preserves_bind {A B : Type} (c : M A) (k : A -> M B) :
  preserves P c -> (forall a : A, preserves P (k a)) -> preserves P (bind c k).
Proof.
  intros Hc Hk s Hs. unfold bind. specialize (Hc s Hs).
  destruct (c s) as [a s']. exact (Hk a s' Hc).
Qed.

Lemma preserves_modify (f : AFSqlDestDriver -> AFSqlDestDriver) :
  (forall s, P s -> P (f s)) -> preserves P (modify f).
Proof. intros Hf s Hs. exact (Hf s Hs). Qed.

Lemma preserves_emit (e : event) : preserves P (emit e).
Proof. intros s Hs. apply (stable_trace P stable). exact Hs. Qed.

(** One step through a computation of the thread. *)
Ltac preserve_step :=
  match goal with
  | |- preserves _ (bind _ _) => apply preserves_bind; [|intros ?]
  | |- preserves _ (ret _) => apply preserves_ret
  | |- preserves _ (gets _) => apply preserves_gets
  | |- preserves _ (emit _) => apply preserves_emit
  | |- preserves _ (modify _) =>
      apply preserves_modify; intros ? ?;
      first [ apply (stable_trace P stable) | apply (stable_queue P stable)
            | apply (stable_dbi_ctx P stable) | apply (stable_validated_tables P stable)
            | apply (stable_suspended P stable) | apply (stable_transaction_active P stable)
            | apply (stable_failed P stable) | apply (stable_seq_num P stable)
            | apply (stable_dropped P stable) | apply (stable_queued_reset P stable)
            | apply (stable_queued_next P stable) ]; assumption
  | |- preserves _ (if ?b then _ else _) => destruct b
  | |- preserves _ (match ?x with _ => _ end) => destruct x
  | H : _ |- preserves _ _ => solve [apply H]
  end.

Ltac preserve := repeat preserve_step.

Lemma run_query_result_preserves (query : string) (silent : bool) :
  preserves P (afsql_dd_run_query_result query silent).
Proof. unfold afsql_dd_run_query_result. preserve. Qed.

Lemma run_query_preserves (query : string) (silent : bool) :
  preserves P (afsql_dd_run_query query silent).
Proof. unfold afsql_dd_run_query. preserve. apply run_query_result_preserves. Qed.

Lemma handle_transaction_error_preserves : preserves P afsql_dd_handle_transaction_error.
Proof. unfold afsql_dd_handle_transaction_error. preserve. Qed.

Lemma commit_transaction_preserves : preserves P afsql_dd_commit_transaction.
Proof.
  pose proof run_query_preserves. pose proof handle_transaction_error_preserves.
  unfold afsql_dd_commit_transaction. preserve.
Qed.

Lemma begin_transaction_preserves : preserves P afsql_dd_begin_transaction.
Proof. pose proof run_query_preserves. unfold afsql_dd_begin_transaction. preserve. Qed.

Lemma rollback_transaction_preserves : preserves P afsql_dd_rollback_transaction.
Proof. pose proof run_query_preserves. unfold afsql_dd_rollback_transaction. preserve. Qed.

Lemma begin_new_transaction_preserves : preserves P afsql_dd_begin_new_transaction.
Proof.
  pose proof commit_transaction_preserves. pose proof rollback_transaction_preserves.
  pose proof begin_transaction_preserves.
  unfold afsql_dd_begin_new_transaction. preserve.
Qed.

Lemma create_index_preserves (table column : string) :
  preserves P (afsql_dd_create_index table column).
Proof. pose proof run_query_preserves. unfold afsql_dd_create_index. preserve. Qed.

Lemma create_indexes_of_column_preserves (table name : string) (l : list string) :
  preserves P (create_indexes_of_column table name l).
Proof.
  pose proof create_index_preserves.
  induction l as [|data next IH]; simpl; preserve.
Qed.

Lemma create_all_indexes_preserves (table : string) (l : list string) :
  preserves P (create_all_indexes table l).
Proof.
  pose proof create_index_preserves.
  induction l as [|data next IH]; simpl; preserve.
Qed.

Lemma add_missing_columns_preserves (db_res : dbi_result) (table : string)
    (fs : list AFSqlField) (started : bool) :
  preserves P (add_missing_columns db_res table fs started).
Proof.
  pose proof run_query_preserves. pose proof begin_new_transaction_preserves.
  pose proof create_indexes_of_column_preserves.
  revert started; induction fs as [|f rest IH]; intros started; simpl; preserve.
Qed.

Lemma validate_table_preserves (table : string) :
  preserves P (afsql_dd_validate_table table).
Proof.
  pose proof run_query_preserves. pose proof run_query_result_preserves.
  pose proof begin_new_transaction_preserves.
  pose proof create_all_indexes_preserves. pose proof add_missing_columns_preserves.
  unfold afsql_dd_validate_table. preserve.
Qed.

Lemma disconnect_preserves : preserves P afsql_dd_disconnect.
Proof. unfold afsql_dd_disconnect. preserve. Qed.

Lemma suspend_preserves : preserves P afsql_dd_suspend.
Proof. unfold afsql_dd_suspend. preserve. Qed.

Lemma run_session_statements_preserves (l : list string) :
  preserves P (run_session_statements l).
Proof.
  pose proof run_query_preserves.
  induction l as [|data next IH]; simpl; preserve.
Qed.

Lemma ensure_initialized_connection_preserves :
  preserves P afsql_dd_ensure_initialized_connection.
Proof.
  pose proof run_session_statements_preserves.
  unfold afsql_dd_ensure_initialized_connection. preserve.
Qed.

Lemma ensure_accessible_database_table_preserves (msg : LogMessage) :
  preserves P (afsql_dd_ensure_accessible_database_table msg).
Proof.
  pose proof validate_table_preserves.
  unfold afsql_dd_ensure_accessible_database_table. preserve.
Qed.

Lemma rollback_msg_preserves (msg : LogMessage) : preserves P (afsql_dd_rollback_msg msg).
Proof. unfold afsql_dd_rollback_msg. preserve. Qed.

Lemma handle_insert_row_error_preserves (msg : LogMessage) :
  preserves P (afsql_dd_handle_insert_row_error_depending_on_connection_availability msg).
Proof.
  pose proof rollback_msg_preserves. pose proof handle_transaction_error_preserves.
  unfold afsql_dd_handle_insert_row_error_depending_on_connection_availability. preserve.
Qed.

Lemma insert_db_out_preserves (msg : LogMessage) (success : bool) :
  preserves P (insert_db_out msg success).
Proof.
  pose proof handle_insert_row_error_preserves.
  unfold insert_db_out. preserve.
Qed.

Lemma insert_db_after_insert_preserves (msg : LogMessage) (success : bool) :
  preserves P (insert_db_after_insert msg success).
Proof.
  pose proof insert_db_out_preserves. pose proof commit_transaction_preserves.
  pose proof rollback_transaction_preserves.
  unfold insert_db_after_insert. preserve.
Qed.

Lemma insert_db_message_preserves (msg : LogMessage) : preserves P (insert_db_message msg).
Proof.
  pose proof insert_db_out_preserves. pose proof insert_db_after_insert_preserves.
  pose proof ensure_accessible_database_table_preserves.
  pose proof begin_transaction_preserves. pose proof run_query_preserves.
  unfold insert_db_message. preserve.
Qed.

Lemma insert_db_preserves : preserves P afsql_dd_insert_db.
Proof.
  pose proof insert_db_message_preserves.
  pose proof ensure_initialized_connection_preserves.
  unfold afsql_dd_insert_db. preserve.
Qed.

Lemma insert_or_suspend_preserves : preserves P insert_or_suspend.
Proof.
  pose proof insert_db_preserves. pose proof disconnect_preserves.
  pose proof suspend_preserves.
  unfold insert_or_suspend. preserve.
Qed.

Lemma database_thread_round_preserves : preserves P database_thread_round.
Proof.
  pose proof insert_or_suspend_preserves. pose proof commit_transaction_preserves.
  pose proof rollback_transaction_preserves. pose proof disconnect_preserves.
  pose proof suspend_preserves.
  unfold database_thread_round. preserve.
Qed.

Lemma database_thread_rounds_preserves (n : nat) : preserves P (database_thread_rounds n).
Proof.
  pose proof database_thread_round_preserves.
  induction n as [|n IH]; simpl; preserve.
Qed.

Lemma database_thread_finish_preserves : preserves P database_thread_finish.
Proof.
  pose proof commit_transaction_preserves. pose proof rollback_transaction_preserves.
  pose proof disconnect_preserves.
  unfold database_thread_finish. preserve.
Qed.

End Preservation.

Section Lifetime.

Context {build : BuildConfig} {host : Host} {dbi : Dbi}.

Lemma same_configuration_stable (s0 : AFSqlDestDriver) :
  thread_stable (same_configuration s0).
Proof.
  constructor; intros;
    match goal with H : same_configuration _ _ |- _ => exact H end.
Qed.

Lemma transactions_enabled_stable :
  thread_stable (fun s => 0 <= flush_lines_queued s).
Proof. constructor; intros s; simpl; intros; lia. Qed.

(** The rounds of the thread never write the configuration. *)
Lemma rounds_keep_configuration (n : nat) (s : AFSqlDestDriver) :
  same_configuration s (snd (database_thread_rounds n s)).
Proof.
  apply (database_thread_rounds_preserves _ (same_configuration_stable s) n s).
  apply same_configuration_refl.
Qed.

(** Once transaction handling is on, the counter stays at 0 or above. *)
Lemma rounds_keep_transactions_enabled (n : nat) (s : AFSqlDestDriver) :
  0 <= flush_lines_queued s -> 0 <= flush_lines_queued (snd (database_thread_rounds n s)).
Proof. apply (database_thread_rounds_preserves _ transactions_enabled_stable n s). Qed.

(** The fields stay as the initialization built them. *)
Lemma started_fields_stay_well_formed (calls : list setter_call) (env : InitEnv)
    (self : AFSqlDestDriver) (n : nat) :
  afsql_dd_init env (configured calls) = InitStarted self ->
  Forall field_well_formed (fields_of (snd (database_thread_rounds n self))).
Proof.
  intros Hinit.
  destruct (init_started env _ _ (configured_unstarted calls) Hinit)
    as (_ & _ & _ & _ & _ & _ & _ & Hwf).
  destruct (rounds_keep_configuration n self) as (_ & _ & _ & _ & _ & Hfields & _).
  unfold fields_of in *. now rewrite Hfields.
Qed.

(** C1 (as the code has it).  In a driver that [afsql_dd_init] has started
    on a configuration, the counter [flush_lines_queued] is -1 exactly when
    transaction handling was not switched on, that is unless the flag
    explicit-commits is set and [flush_lines] is positive; so [flush_lines]
    = -1 implies [flush_lines_queued] = -1 there.  In every state the rounds
    of the database thread reach from there, and after its last commit, a
    counter of -1 still means that transaction handling was not switched on:
    a counter that started at 0 never returns to -1. *)
Theorem init_flush_lines_queued (calls : list setter_call) (env : InitEnv)
    (self : AFSqlDestDriver) :
  afsql_dd_init env (configured calls) = InitStarted self ->
  (flush_lines_queued self = -1 <->
   ~ (has_flag (flags self) AFSQL_DDF_EXPLICIT_COMMITS = true /\ 0 < flush_lines self))
  /\ (flush_lines self = -1 -> flush_lines_queued self = -1)
  /\ (forall n : nat,
        let s := snd (database_thread_rounds n self) in
        (flush_lines_queued s = -1 ->
         ~ (has_flag (flags s) AFSQL_DDF_EXPLICIT_COMMITS = true /\ 0 < flush_lines s))
        /\ (flush_lines_queued (snd (database_thread_finish s)) = -1 ->
            ~ (has_flag (flags s) AFSQL_DDF_EXPLICIT_COMMITS = true /\ 0 < flush_lines s))).
Proof.
  intros Hinit.
  destruct (init_started env _ _ (configured_unstarted calls) Hinit)
    as (Hflags & _ & _ & _ & _ & Hqueued & _).
  assert (flush_lines_queued self = -1 <->
          ~ (has_flag (flags self) AFSQL_DDF_EXPLICIT_COMMITS = true /\ 0 < flush_lines self))
    as Hstart.
  { rewrite Hqueued, Hflags.
    destruct (has_flag (flags (configured calls)) AFSQL_DDF_EXPLICIT_COMMITS); simpl.
    - destruct (Z.ltb_spec 0 (flush_lines self)); split.
      + discriminate.
      + intros H'; exfalso; apply H'; split; [reflexivity | assumption].
      + intros _ [_ H']; lia.
      + reflexivity.
    - split; [intros _ [H' _]; discriminate | reflexivity]. }
  split; [exact Hstart|]. split.
  - intros Hfl. apply Hstart. intros [_ Hpos]. lia.
  - intros n s.
    destruct (rounds_keep_configuration n self)
      as (_ & _ & _ & _ & _ & _ & _ & _ & _ & Hlines & Hflags' & _).
    fold s in Hlines, Hflags'. rewrite Hlines, Hflags'.
    assert (has_flag (flags self) AFSQL_DDF_EXPLICIT_COMMITS = true /\ 0 < flush_lines self ->
            0 <= flush_lines_queued s) as Hon.
    { intros Hon. apply rounds_keep_transactions_enabled.
      destruct (Z.eq_dec (flush_lines_queued self) (-1)) as [Hoff|Hne];
        [now apply Hstart in Hoff|].
      rewrite Hqueued in *.
      destruct (has_flag (flags (configured calls)) AFSQL_DDF_EXPLICIT_COMMITS
                && (0 <? flush_lines self)); [lia | congruence]. }
    split.
    + intros Hoff Hyes. specialize (Hon Hyes). lia.
    + intros Hoff Hyes. specialize (Hon Hyes).
      pose proof (database_thread_finish_preserves _ transactions_enabled_stable s Hon)
        as Hkept.
      cbv beta in Hkept. lia.
Qed.

End Lifetime.

(** ** Further properties of the driver *)

Section FurtherFacts.

Context {build : BuildConfig} {host : Host} {dbi : Dbi}.

(** X1.  [afsql_dd_disconnect] closes the connection and empties the set of
    validated tables, whatever it held. *)
Theorem disconnect_clears_validated_tables (self : AFSqlDestDriver) :
  let self' := snd (afsql_dd_disconnect self) in
  validated_tables self' = ∅ /\ dbi_ctx self' = false
  /\ trace self' = EvClose :: trace self
  /\ (forall table : string, table ∉ validated_tables self').
Proof.
  unfold afsql_dd_disconnect. cbv [bind modify emit]. simpl.
  repeat split. intros table. apply not_elem_of_empty.
Qed.

(** X2.  [afsql_dd_begin_transaction] sets [transaction_active] whether or
    not the statement succeeds; for the dialect oracle it sends nothing and
    succeeds, for freetds it sends BEGIN TRANSACTION, for every other dialect
    BEGIN. *)
Theorem begin_transaction_statement (self : AFSqlDestDriver) :
  transaction_active (snd (afsql_dd_begin_transaction self)) = true
  /\ (type self = s_oracle ->
      afsql_dd_begin_transaction self = (true, set_transaction_active true self))
  /\ (type self = s_freetds ->
      trace (snd (afsql_dd_begin_transaction self))
      = EvQuery "BEGIN TRANSACTION" (fst (afsql_dd_begin_transaction self)) :: trace self)
  /\ (type self <> s_oracle -> type self <> s_freetds ->
      trace (snd (afsql_dd_begin_transaction self))
      = EvQuery "BEGIN" (fst (afsql_dd_begin_transaction self)) :: trace self).
Proof.
  unfold afsql_dd_begin_transaction. run_monad. repeat split.
  - destruct (String.eqb (type self) s_oracle); reflexivity.
  - intros ->. reflexivity.
  - intros ->. reflexivity.
  - intros Ho Hf.
    destruct (String.eqb_spec (type self) s_oracle); [congruence|].
    destruct (String.eqb_spec (type self) s_freetds); [congruence|]. reflexivity.
Qed.

(** X3.  The configuration is immutable once the thread runs: no round of
    the database thread and not its last commit writes a member that the
    configuration or the initialization set. *)
Theorem configuration_immutable (n : nat) (self : AFSqlDestDriver) :
  same_configuration self (snd (database_thread_rounds n self))
  /\ same_configuration self
       (snd (database_thread_finish (snd (database_thread_rounds n self)))).
Proof.
  pose proof (rounds_keep_configuration n self) as Hrounds.
  split; [exact Hrounds|].
  apply (database_thread_finish_preserves _ (same_configuration_stable self)).
  exact Hrounds.
Qed.

(** X4.  The fields [afsql_dd_init] builds from the columns and values: one
    per pair, each named by an identifier of the grammar (a column with
    another name fails the initialization), each with a value template
    exactly when its value is not the default marker. *)
Theorem init_fields_checked (cols : list string) (vals : list AFSqlValue)
    (fs : list AFSqlField) :
  init_fields cols vals = FieldsBuilt fs ->
  Forall field_well_formed fs
  /\ Forall (fun f => identifier_in_grammar (f_name f)) fs
  /\ length fs = Nat.min (length cols) (length vals).
Proof.
  intros Hbuilt. split; [now apply init_fields_well_formed with cols vals|].
  split; [now apply init_fields_names_in_grammar with cols vals|].
  revert vals fs Hbuilt; induction cols as [|col cols IH]; intros vals fs; simpl.
  - intros H; injection H as <-. reflexivity.
  - destruct vals as [|value vals]; [intros H; injection H as <-; reflexivity|].
    destruct (column_name_and_type col) as [name type0].
    destruct (negb (fst (afsql_dd_check_sql_identifier name false))); [discriminate|].
    destruct value as [template|code].
    + destruct (init_fields cols vals) as [fs'| |] eqn:Hrest; try discriminate.
      intros H; injection H as <-. simpl. now rewrite (IH vals fs').
    + destruct (Z.eqb code AFSQL_COLUMN_DEFAULT); [|discriminate].
      destruct (init_fields cols vals) as [fs'| |] eqn:Hrest; try discriminate.
      intros H; injection H as <-. simpl. now rewrite (IH vals fs').
Qed.

(** X5.  [afsql_dd_validate_table] sends nothing to the database and leaves
    the driver as it is when table creation is switched off, and when the
    sanitized table name is already among the validated tables. *)
Theorem validated_table_is_cached (self : AFSqlDestDriver) (table : string) :
  (has_flag (flags self) AFSQL_DDF_DONT_CREATE_TABLES = true ->
   afsql_dd_validate_table table self = ((true, table), self))
  /\ (has_flag (flags self) AFSQL_DDF_DONT_CREATE_TABLES = false ->
      snd (afsql_dd_check_sql_identifier table true) ∈ validated_tables self ->
      afsql_dd_validate_table table self
      = ((true, snd (afsql_dd_check_sql_identifier table true)), self)).
Proof.
  unfold afsql_dd_validate_table. cbv [bind gets ret]. split.
  - intros ->. reflexivity.
  - intros -> Hin. now rewrite bool_decide_eq_true_2.
Qed.

(** X6.  [afsql_dd_ensure_initialized_connection] returns TRUE at once when
    a connection exists, and FALSE without a connection when the driver
    library knows no driver of the configured type. *)
Theorem ensure_connection_outcomes (self : AFSqlDestDriver) :
  (dbi_ctx self = true -> afsql_dd_ensure_initialized_connection self = (true, self))
  /\ (dbi_ctx self = false -> dbi_conn_new_r (type self) = false ->
      fst (afsql_dd_ensure_initialized_connection self) = false
      /\ dbi_ctx (snd (afsql_dd_ensure_initialized_connection self)) = false
      /\ trace (snd (afsql_dd_ensure_initialized_connection self))
         = EvConnNew (type self) false :: trace self).
Proof.
  unfold afsql_dd_ensure_initialized_connection. cbv [bind gets ret modify emit]. split.
  - intros ->. reflexivity.
  - intros -> ->. simpl. repeat split.
Qed.

(** X7.  Whatever the setters were called with, a configured driver has at
    least one retry, three by default; [mssql] is stored as [freetds]. *)
Theorem configured_num_retries (calls : list setter_call) :
  1 <= num_retries (configured calls)
  /\ num_retries (configured []) = 3
  /\ (forall self : AFSqlDestDriver, type (afsql_dd_set_type "mssql" self) = "freetds")
  /\ (forall (n : Z) (self : AFSqlDestDriver),
        num_retries (afsql_dd_set_retries n self) = Z.max 1 n).
Proof.
  destruct (configured_unstarted calls) as (_ & _ & _ & _ & Hretries).
  split; [exact Hretries|]. split; [reflexivity|]. split; [reflexivity|].
  intros n self. unfold afsql_dd_set_retries.
  destruct (Z.ltb_spec n 1); simpl; lia.
Qed.

End FurtherFacts.

(** ** Flags and columns of the configuration *)

Section ConfigurationFacts.

Context {build : BuildConfig} {host : Host}.

Lemma has_flag_lor (a b flag : Z) :
  has_flag (Z.lor a b) flag = has_flag a flag || has_flag b flag.
Proof.
  unfold has_flag. rewrite Z.land_lor_distr_l.
  destruct (Z.eqb_spec (Z.land a flag) 0) as [Ha|Ha];
    destruct (Z.eqb_spec (Z.land b flag) 0) as [Hb|Hb]; simpl.
  - rewrite Ha, Hb. reflexivity.
  - destruct (Z.eqb_spec (Z.lor (Z.land a flag) (Z.land b flag)) 0) as [H|H];
      [apply Z.lor_eq_0_iff in H; tauto | reflexivity].
  - destruct (Z.eqb_spec (Z.lor (Z.land a flag) (Z.land b flag)) 0) as [H|H];
      [apply Z.lor_eq_0_iff in H; tauto | reflexivity].
  - destruct (Z.eqb_spec (Z.lor (Z.land a flag) (Z.land b flag)) 0) as [H|H];
      [apply Z.lor_eq_0_iff in H; tauto | reflexivity].
Qed.

(** X8.  [afsql_dd_lookup_flag] knows two flags, each under a spelling with
    dashes and one with underscores; every other name stands for no flag.
    The two flags are separate bits: or-ed into a flag word, a name switches
    on its own flag and leaves the other as it was. *)
Theorem lookup_flag_names (flag : string) (flags : Z) :
  (afsql_dd_lookup_flag flag = AFSQL_DDF_EXPLICIT_COMMITS <->
   flag = "explicit-commits" \/ flag = "explicit_commits")
  /\ (afsql_dd_lookup_flag flag = AFSQL_DDF_DONT_CREATE_TABLES <->
      flag = "dont-create-tables" \/ flag = "dont_create_tables")
  /\ (afsql_dd_lookup_flag flag = 0 <->
      flag <> "explicit-commits" /\ flag <> "explicit_commits"
      /\ flag <> "dont-create-tables" /\ flag <> "dont_create_tables")
  /\ has_flag (Z.lor (afsql_dd_lookup_flag flag) flags) AFSQL_DDF_EXPLICIT_COMMITS
     = (String.eqb flag "explicit-commits" || String.eqb flag "explicit_commits")
       || has_flag flags AFSQL_DDF_EXPLICIT_COMMITS
  /\ has_flag (Z.lor (afsql_dd_lookup_flag flag) flags) AFSQL_DDF_DONT_CREATE_TABLES
     = (String.eqb flag "dont-create-tables" || String.eqb flag "dont_create_tables")
       || has_flag flags AFSQL_DDF_DONT_CREATE_TABLES.
Proof.
  rewrite !has_flag_lor. unfold afsql_dd_lookup_flag.
  destruct (String.eqb_spec flag "explicit-commits") as [->|H1]; simpl.
  { repeat split; try (intros; discriminate); try tauto;
      intros [H|H]; discriminate || reflexivity. }
  destruct (String.eqb_spec flag "explicit_commits") as [->|H2]; simpl.
  { repeat split; try (intros; discriminate); try tauto;
      intros [H|H]; discriminate || reflexivity. }
  destruct (String.eqb_spec flag "dont-create-tables") as [->|H3]; simpl.
  { repeat split; try (intros; discriminate); try tauto;
      intros [H|H]; discriminate || reflexivity. }
  destruct (String.eqb_spec flag "dont_create_tables") as [->|H4]; simpl.
  { repeat split; try (intros; discriminate); try tauto;
      intros [H|H]; discriminate || reflexivity. }
  repeat split; try (intros; discriminate); try tauto; try assumption.
Qed.

Lemma split_at_space_none (col : string) :
  has_no_space col = true -> split_at_space col = None.
Proof.
  induction col as [|c rest IH]; simpl; [reflexivity|].
  unfold has_no_space; simpl. destruct (Ascii.eqb c " "); simpl; [discriminate|].
  intros H. now rewrite (IH H).
Qed.

Lemma split_at_space_some (name rest : string) :
  has_no_space name = true ->
  split_at_space (name +:+ String " " rest) = Some (name, String " " rest).
Proof.
  induction name as [|c name IH]; [reflexivity|].
  unfold has_no_space; simpl. destruct (Ascii.eqb c " ") eqn:Hc; simpl; [discriminate|].
  intros H.
  change (String c name +:+ String " " rest) with (String c (name +:+ String " " rest)).
  cbn [split_at_space]. now rewrite (IH H).
Qed.

Lemma split_at_space_name (col name space : string) :
  split_at_space col = Some (name, space) ->
  has_no_space name = true /\ col = name +:+ space
  /\ exists rest : string, space = String " " rest.
Proof.
  revert name space; induction col as [|c col IH]; intros name space; simpl;
    [discriminate|].
  destruct (Ascii.eqb_spec c " ") as [->|Hc].
  - intros H; injection H as <- <-. split; [reflexivity|]. split; [reflexivity|].
    now exists col.
  - destruct (split_at_space col) as [[name' space']|]; [|discriminate].
    intros H; injection H as <- <-.
    destruct (IH name' space' eq_refl) as (Hn & -> & Hrest).
    split; [|split; [reflexivity | exact Hrest]].
    unfold has_no_space in *; simpl.
    destruct (Ascii.eqb_spec c " "); [congruence | exact Hn].
Qed.

Lemma skip_spaces_blanks (n : nat) (type : string) :
  skip_spaces (blanks n +:+ type) = skip_spaces type.
Proof. induction n as [|n IH]; [reflexivity | exact IH]. Qed.

(** X9.  How [afsql_dd_init] reads a column of the configuration: a column
    without a blank is a name of type [text]; [name], one or more blanks and
    a type give that name and that type, and [text] when nothing follows the
    blanks.  The name never holds a blank and the type is never empty. *)
Theorem column_name_and_type_parse (col : string) :
  (has_no_space col = true -> column_name_and_type col = (col, "text"))
  /\ (forall (name type : string) (n : nat),
        has_no_space name = true -> skip_spaces type = type ->
        column_name_and_type (name +:+ blanks (S n) +:+ type)
        = (name, match type with EmptyString => "text" | _ => type end))
  /\ has_no_space (fst (column_name_and_type col)) = true
  /\ snd (column_name_and_type col) <> "".
Proof.
  split; [|split; [|split]].
  - intros H. unfold column_name_and_type. now rewrite split_at_space_none.
  - intros name type n Hname Htype. unfold column_name_and_type.
    change (blanks (S n) +:+ type) with (String " " (blanks n +:+ type)).
    rewrite (split_at_space_some name _ Hname).
    change (skip_spaces (String " " (blanks n +:+ type)))
      with (skip_spaces (blanks n +:+ type)).
    rewrite skip_spaces_blanks, Htype. now destruct type.
  - unfold column_name_and_type.
    destruct (split_at_space col) as [[name space]|] eqn:Hsplit.
    + destruct (split_at_space_name _ _ _ Hsplit) as (Hn & _ & _).
      now destruct (skip_spaces space).
    + clear -Hsplit. induction col as [|c col IH]; [reflexivity|].
      simpl in Hsplit. unfold has_no_space; simpl.
      destruct (Ascii.eqb c " "); [discriminate|]. simpl.
      destruct (split_at_space col) as [[? ?]|]; [discriminate|]. now apply IH.
  - unfold column_name_and_type.
    destruct (split_at_space col) as [[name space]|]; [|discriminate].
    destruct (skip_spaces space); discriminate.
Qed.

End ConfigurationFacts.

(** ** The schema: probing, altering and remembering tables *)

(** One step through a computation of the thread, the assignments being left
    to [tac]. *)
Ltac preserve_step_by tac :=
  match goal with
  | |- preserves _ (bind _ _) => apply preserves_bind; [|intros ?]
  | |- preserves _ (ret _) => apply preserves_ret
  | |- preserves _ (gets _) => apply preserves_gets
  | |- preserves _ (emit _) => unfold emit
  | |- preserves _ (modify _) => apply preserves_modify; intros ? ?; tac
  | |- preserves _ (if ?b then _ else _) => destruct b
  | |- preserves _ (match ?x with _ => _ end) => destruct x
  | H : _ |- preserves _ _ => solve [apply H]
  end.

Section SchemaFacts.

Context {build : BuildConfig} {host : Host} {dbi : Dbi}.

Section TransactionStable.

Variable P : AFSqlDestDriver -> Prop.

Hypothesis stable : transaction_stable P.

Ltac transaction_step :=
  preserve_step_by
    ltac:(first [ apply (kept_by_trace P stable) | apply (kept_by_queue P stable)
                | apply (kept_by_queued_reset P stable)
                | apply (kept_by_transaction_active P stable) ]; assumption).

Lemma run_query_result_keeps (query : string) (silent : bool) :
  preserves P (afsql_dd_run_query_result query silent).
Proof. unfold afsql_dd_run_query_result. repeat transaction_step. Qed.

Lemma run_query_keeps (query : string) (silent : bool) :
  preserves P (afsql_dd_run_query query silent).
Proof.
  pose proof run_query_result_keeps. unfold afsql_dd_run_query. repeat transaction_step.
Qed.

Lemma handle_transaction_error_keeps : preserves P afsql_dd_handle_transaction_error.
Proof. unfold afsql_dd_handle_transaction_error. repeat transaction_step. Qed.

Lemma commit_transaction_keeps : preserves P afsql_dd_commit_transaction.
Proof.
  pose proof run_query_keeps. pose proof handle_transaction_error_keeps.
  unfold afsql_dd_commit_transaction. repeat transaction_step.
Qed.

Lemma begin_transaction_keeps : preserves P afsql_dd_begin_transaction.
Proof. pose proof run_query_keeps. unfold afsql_dd_begin_transaction. repeat transaction_step. Qed.

Lemma rollback_transaction_keeps : preserves P afsql_dd_rollback_transaction.
Proof.
  pose proof run_query_keeps. unfold afsql_dd_rollback_transaction. repeat transaction_step.
Qed.

Lemma begin_new_transaction_keeps : preserves P afsql_dd_begin_new_transaction.
Proof.
  pose proof commit_transaction_keeps. pose proof rollback_transaction_keeps.
  pose proof begin_transaction_keeps.
  unfold afsql_dd_begin_new_transaction. repeat transaction_step.
Qed.

Lemma create_index_keeps (table column : string) :
  preserves P (afsql_dd_create_index table column).
Proof. pose proof run_query_keeps. unfold afsql_dd_create_index. repeat transaction_step. Qed.

Lemma create_indexes_of_column_keeps (table name : string) (l : list string) :
  preserves P (create_indexes_of_column table name l).
Proof.
  pose proof create_index_keeps.
  induction l as [|data next IH]; simpl; repeat transaction_step.
Qed.

Lemma create_all_indexes_keeps (table : string) (l : list string) :
  preserves P (create_all_indexes table l).
Proof.
  pose proof create_index_keeps.
  induction l as [|data next IH]; simpl; repeat transaction_step.
Qed.

Lemma add_missing_columns_keeps (db_res : dbi_result) (table : string)
    (fs : list AFSqlField) (started : bool) :
  preserves P (add_missing_columns db_res table fs started).
Proof.
  pose proof run_query_keeps. pose proof begin_new_transaction_keeps.
  pose proof create_indexes_of_column_keeps.
  revert started; induction fs as [|f rest IH]; intros started; simpl;
    repeat transaction_step.
Qed.

End TransactionStable.

Lemma transaction_frame_stable (s0 : AFSqlDestDriver) :
  transaction_stable (transaction_frame s0).
Proof.
  constructor; intros;
    match goal with H : transaction_frame _ _ |- _ => exact H end.
Qed.

Lemma transaction_frame_refl (s : AFSqlDestDriver) : transaction_frame s s.
Proof. unfold transaction_frame. pose proof (same_configuration_refl s). tauto. Qed.

(** A table whose result has every configured column is left alone. *)
Lemma add_missing_columns_complete (db_res : dbi_result) (table : string)
    (fs : list AFSqlField) (started : bool) (s : AFSqlDestDriver) :
  Forall (fun f => dbi_result_get_field_idx db_res (f_name f) <> 0) fs ->
  add_missing_columns db_res table fs started s = (true, s).
Proof.
  intros Hall; induction Hall as [|f rest Hf _ IH]; simpl; [reflexivity|].
  destruct (Z.eqb_spec (dbi_result_get_field_idx db_res (f_name f)) 0); [contradiction|].
  exact IH.
Qed.

(** What is left of [afsql_dd_validate_table] once the flag and the set of
    validated tables have been looked at. *)
Lemma validate_table_unfold (table : string) (self : AFSqlDestDriver) :
  has_flag (flags self) AFSQL_DDF_DONT_CREATE_TABLES = false ->
  snd (afsql_dd_check_sql_identifier table true) ∉ validated_tables self ->
  afsql_dd_validate_table table self
  = (let table := snd (afsql_dd_check_sql_identifier table true) in
     let '(begun, s1) := afsql_dd_begin_new_transaction self in
     if negb begun then ((false, table), s1)
     else
       let '(probe, s2) := afsql_dd_run_query_result (probe_query table) true s1 in
       let '(success, s3) :=
         match probe with
         | Some db_res => add_missing_columns db_res table (fields_of s1) false s2
         | None =>
             let '(_, s2a) := afsql_dd_begin_new_transaction s2 in
             let '(created, s2b) :=
               afsql_dd_run_query (create_table_query table (fields_of s1)) false s2a in
             if created then
               let '(_, s2c) :=
                 (if enable_indexes s2b then create_all_indexes table (indexes s2b)
                  else ret tt) s2b in
               (true, s2c)
             else (false, s2b)
         end in
       ((success, table),
        if success
        then set_validated_tables ({[ table ]} ∪ validated_tables s3) s3
        else s3)).
Proof.
  intros Hflag Hnew. unfold afsql_dd_validate_table, probe_query.
  cbv [bind gets ret modify]. rewrite Hflag.
  rewrite bool_decide_eq_false_2 by exact Hnew. cbv zeta.
  destruct (afsql_dd_begin_new_transaction self) as [begun s1].
  destruct begun; cbn [negb]; cbv beta iota; [|reflexivity].
  destruct (afsql_dd_run_query_result _ true s1) as [probe s2].
  destruct probe as [db_res|]; cbv beta iota.
  - destruct (add_missing_columns db_res _ (fields_of s1) false s2) as [success s3].
    destruct success; reflexivity.
  - destruct (afsql_dd_begin_new_transaction s2) as [b s2a]. cbv beta iota.
    destruct (afsql_dd_run_query _ false s2a) as [created s2b].
    destruct created; cbv beta iota; [|reflexivity].
    destruct (enable_indexes s2b); cbv beta iota.
    + destruct (create_all_indexes _ (indexes s2b) s2b) as [u s2c]. reflexivity.
    + reflexivity.
Qed.

(** The two ways [afsql_dd_validate_table] returns at once. *)
Lemma validate_table_skipped (self : AFSqlDestDriver) (table : string) :
  (has_flag (flags self) AFSQL_DDF_DONT_CREATE_TABLES = true ->
   afsql_dd_validate_table table self = ((true, table), self))
  /\ (has_flag (flags self) AFSQL_DDF_DONT_CREATE_TABLES = false ->
      snd (afsql_dd_check_sql_identifier table true) ∈ validated_tables self ->
      afsql_dd_validate_table table self
      = ((true, snd (afsql_dd_check_sql_identifier table true)), self)).
Proof.
  unfold afsql_dd_validate_table. cbv [bind gets ret]. split.
  - intros ->. reflexivity.
  - intros -> Hin. now rewrite bool_decide_eq_true_2.
Qed.

(** The three ways through [afsql_dd_validate_table]: table creation is
    switched off; the table is among the validated ones; or the table is
    probed, and the call writes nothing but the history, the queue and the
    state of the transaction before it adds the table to the validated ones
    on success. *)
Lemma validate_table_cases (table : string) (self : AFSqlDestDriver) :
  let t := snd (afsql_dd_check_sql_identifier table true) in
  (has_flag (flags self) AFSQL_DDF_DONT_CREATE_TABLES = true
   /\ afsql_dd_validate_table table self = ((true, table), self))
  \/ (has_flag (flags self) AFSQL_DDF_DONT_CREATE_TABLES = false
      /\ t ∈ validated_tables self
      /\ afsql_dd_validate_table table self = ((true, t), self))
  \/ (has_flag (flags self) AFSQL_DDF_DONT_CREATE_TABLES = false
      /\ (t ∉ validated_tables self)
      /\ (exists (success : bool) (s3 : AFSqlDestDriver),
            transaction_frame self s3
            /\ afsql_dd_validate_table table self
               = ((success, t),
                  if success
                  then set_validated_tables ({[ t ]} ∪ validated_tables s3) s3
                  else s3))).
Proof.
  intros t.
  destruct (has_flag (flags self) AFSQL_DDF_DONT_CREATE_TABLES) eqn:Hflag.
  { left. split; [reflexivity|].
    exact (proj1 (validate_table_skipped self table) Hflag). }
  destruct (decide (t ∈ validated_tables self)) as [Hin|Hnew].
  { right; left. split; [reflexivity|]. split; [exact Hin|].
    exact (proj2 (validate_table_skipped self table) Hflag Hin). }
  right; right. split; [reflexivity|]. split; [exact Hnew|].
  rewrite (validate_table_unfold table self Hflag Hnew). cbv zeta. fold t.
  pose proof (transaction_frame_stable self) as Hst.
  pose proof (begin_new_transaction_keeps _ Hst self (transaction_frame_refl self)) as H1.
  destruct (afsql_dd_begin_new_transaction self) as [begun s1]. simpl in H1.
  destruct begun; simpl negb; cbv iota; [|now exists false, s1].
  pose proof (run_query_result_keeps _ Hst (probe_query t) true s1 H1) as H2.
  destruct (afsql_dd_run_query_result (probe_query t) true s1) as [probe s2]. simpl in H2.
  destruct probe as [db_res|].
  - pose proof (add_missing_columns_keeps _ Hst db_res t (fields_of s1) false s2 H2) as H3.
    destruct (add_missing_columns db_res t (fields_of s1) false s2) as [success s3].
    now exists success, s3.
  - pose proof (begin_new_transaction_keeps _ Hst s2 H2) as H3.
    destruct (afsql_dd_begin_new_transaction s2) as [b s2a]. simpl in H3.
    pose proof (run_query_keeps _ Hst (create_table_query t (fields_of s1)) false s2a H3)
      as H4.
    destruct (afsql_dd_run_query _ false s2a) as [created s2b]. simpl in H4.
    destruct created; [|now exists false, s2b].
    destruct (enable_indexes s2b).
    + pose proof (create_all_indexes_keeps _ Hst t (indexes s2b) s2b H4) as H5.
      destruct (create_all_indexes t (indexes s2b) s2b) as [u s2c].
      now exists true, s2c.
    + now exists true, s2b.
Qed.

(** X10.  A table that [afsql_dd_validate_table] has accepted is remembered:
    the next call for it, under the name as the template renders it or under
    the sanitized name, returns TRUE, sends nothing and changes nothing.  A
    call that fails leaves the set of validated tables as it was, and no call
    adds another name than the sanitized one. *)
Theorem validated_table_is_remembered (self : AFSqlDestDriver) (table : string) :
  let r := afsql_dd_validate_table table self in
  (fst (fst r) = true ->
   afsql_dd_validate_table table (snd r) = ((true, snd (fst r)), snd r)
   /\ afsql_dd_validate_table (snd (fst r)) (snd r) = ((true, snd (fst r)), snd r))
  /\ (fst (fst r) = false -> validated_tables (snd r) = validated_tables self)
  /\ (forall t : string,
        t ∈ validated_tables (snd r) <->
        t ∈ validated_tables self
        \/ (fst (fst r) = true
            /\ has_flag (flags self) AFSQL_DDF_DONT_CREATE_TABLES = false
            /\ t = snd (afsql_dd_check_sql_identifier table true))).
Proof.
  assert (forall name : string,
             snd (afsql_dd_check_sql_identifier
                    (snd (afsql_dd_check_sql_identifier name true)) true)
             = snd (afsql_dd_check_sql_identifier name true)) as Hidem.
  { intros name. unfold afsql_dd_check_sql_identifier.
    apply check_from_fixes_grammar.
    intros k c Hk. exact (check_from_sanitized_in_grammar name 0 k c Hk). }
  destruct (validate_table_cases table self)
    as [(Hflag & Hr) | [(Hflag & Hin & Hr) | (Hflag & Hnew & success & s3 & Hframe & Hr)]];
    rewrite Hr; cbv zeta; simpl fst; simpl snd.
  - split; [intros _; now rewrite Hr|]. split; [reflexivity|].
    intros t. rewrite Hflag. split; [tauto|]. intros [H|(_ & H & _)]; [exact H | discriminate].
  - split.
    { intros _. rewrite Hr. split; [reflexivity|].
      pose proof (proj2 (validate_table_skipped self
                           (snd (afsql_dd_check_sql_identifier table true))) Hflag) as H.
      rewrite Hidem in H. exact (H Hin). }
    split; [reflexivity|].
    intros t. split; [tauto|]. intros [H|(_ & _ & ->)]; assumption.
  - destruct Hframe as (Hcfg & Hv & _).
    assert (flags s3 = flags self) as Hflags by (unfold same_configuration in Hcfg; tauto).
    destruct success; simpl.
    + split.
      { intros _.
        assert (snd (afsql_dd_check_sql_identifier table true)
                  ∈ validated_tables
                      (set_validated_tables
                         ({[snd (afsql_dd_check_sql_identifier table true)]}
                            ∪ validated_tables s3) s3)) as Hin.
        { simpl. apply elem_of_union_l, elem_of_singleton. reflexivity. }
        split.
        - apply (proj2 (validate_table_skipped _ table)); [simpl; congruence | exact Hin].
        - pose proof (proj2 (validate_table_skipped
                               (set_validated_tables
                                  ({[snd (afsql_dd_check_sql_identifier table true)]}
                                     ∪ validated_tables s3) s3)
                               (snd (afsql_dd_check_sql_identifier table true)))) as H.
          rewrite Hidem in H. apply H; [simpl; congruence | exact Hin]. }
      split; [discriminate|].
      intros t. rewrite elem_of_union, elem_of_singleton, Hv. split.
      * intros [->|H]; [right; now repeat split | now left].
      * intros [H|(_ & _ & ->)]; [now right | now left].
    + split; [discriminate|]. split; [intros _; exact Hv|].
      intros t. rewrite Hv. split; [tauto|]. intros [H|(H & _)]; [exact H | discriminate].
Qed.

(** X11.  A table that exists with every configured column is not altered:
    once its transaction is started, [afsql_dd_validate_table] sends the
    probe and no other statement, and records the table as validated. *)
Theorem complete_table_is_not_altered (self s1 : AFSqlDestDriver) (table : string)
    (db_res : dbi_result) :
  let t := snd (afsql_dd_check_sql_identifier table true) in
  has_flag (flags self) AFSQL_DDF_DONT_CREATE_TABLES = false ->
  t ∉ validated_tables self ->
  afsql_dd_begin_new_transaction self = (true, s1) ->
  dbi_conn_query (trace s1) (probe_query t) = Some db_res ->
  Forall (fun f => dbi_result_get_field_idx db_res (f_name f) <> 0) (fields_of self) ->
  afsql_dd_validate_table table self
  = ((true, t),
     set_validated_tables ({[ t ]} ∪ validated_tables self)
       (set_trace (EvQuery (probe_query t) true :: trace s1) s1)).
Proof.
  intros t Hflag Hnew Hbegin Hprobe Hall.
  rewrite (validate_table_unfold table self Hflag Hnew). cbv zeta. fold t.
  pose proof (begin_new_transaction_keeps _ (transaction_frame_stable self) self
                (transaction_frame_refl self)) as Hframe.
  rewrite Hbegin in *. simpl in Hframe. simpl negb. cbv iota.
  destruct Hframe as (Hcfg & Hv & _).
  assert (fields_of s1 = fields_of self) as Hfields.
  { unfold fields_of. unfold same_configuration in Hcfg.
    destruct Hcfg as (_ & _ & _ & _ & _ & -> & _). reflexivity. }
  unfold afsql_dd_run_query_result. cbv [bind gets ret modify emit]. rewrite Hprobe.
  cbv beta iota zeta. rewrite Hfields.
  rewrite (add_missing_columns_complete db_res t (fields_of self) false _ Hall).
  simpl. now rewrite Hv.
Qed.

End SchemaFacts.

(** ** What the end of the database thread keeps *)

Section ShutdownPreservation.

Context {build : BuildConfig} {host : Host} {dbi : Dbi}.

Variable P : AFSqlDestDriver -> Prop.

Hypothesis stable : thread_stable P.

Ltac shutdown_step :=
  preserve_step_by
    ltac:(first [ apply (stable_trace P stable) | apply (stable_queue P stable)
                | apply (stable_dbi_ctx P stable)
                | apply (stable_validated_tables P stable)
                | apply (stable_suspended P stable)
                | apply (stable_transaction_active P stable) ]; assumption).

Lemma database_thread_interrupted_round_preserves :
  preserves P database_thread_interrupted_round.
Proof.
  pose proof (commit_transaction_preserves P stable).
  pose proof (rollback_transaction_preserves P stable).
  pose proof (disconnect_preserves P stable). pose proof (suspend_preserves P stable).
  unfold database_thread_interrupted_round. repeat shutdown_step.
Qed.

Lemma database_thread_drain_preserves (fuel : nat) :
  preserves P (database_thread_drain fuel).
Proof.
  pose proof (insert_db_preserves P stable).
  induction fuel as [|fuel IH]; simpl; repeat shutdown_step.
Qed.

Lemma database_thread_exit_preserves (fuel : nat) :
  preserves P (database_thread_exit fuel).
Proof.
  pose proof database_thread_drain_preserves.
  pose proof (database_thread_finish_preserves P stable).
  pose proof (disconnect_preserves P stable).
  unfold database_thread_exit. repeat shutdown_step.
Qed.

Lemma database_thread_preserves (n : nat) (interrupted : bool) (fuel : nat) :
  preserves P (afsql_dd_database_thread n interrupted fuel).
Proof.
  pose proof (database_thread_rounds_preserves P stable).
  pose proof database_thread_interrupted_round_preserves.
  pose proof database_thread_exit_preserves.
  unfold afsql_dd_database_thread. repeat shutdown_step.
Qed.

End ShutdownPreservation.

(** ** Batches: the counter of the transaction and the flush threshold *)

(** An assignment that leaves the counter, the threshold and
    [transaction_active] alone, or resets the counter. *)
Ltac batch_assignment :=
  match goal with
  | H : batch_in_bounds _ |- batch_in_bounds _ =>
      unfold batch_in_bounds in *; simpl in *;
      first [ exact H | split; [lia | intros; lia] ]
  end.

Ltac batch_step := preserve_step_by ltac:(idtac; batch_assignment).

Section BatchFacts.

Context {build : BuildConfig} {host : Host} {dbi : Dbi}.

Lemma run_query_result_batch (query : string) (silent : bool) :
  preserves batch_in_bounds (afsql_dd_run_query_result query silent).
Proof. unfold afsql_dd_run_query_result. repeat batch_step. Qed.

Lemma run_query_batch (query : string) (silent : bool) :
  preserves batch_in_bounds (afsql_dd_run_query query silent).
Proof. pose proof run_query_result_batch. unfold afsql_dd_run_query. repeat batch_step. Qed.

Lemma handle_transaction_error_batch :
  preserves batch_in_bounds afsql_dd_handle_transaction_error.
Proof. unfold afsql_dd_handle_transaction_error. repeat batch_step. Qed.

(** A commit closes the batch, also the full one; when it fails the counter
    is back at 0. *)
Lemma commit_transaction_batch (s : AFSqlDestDriver) :
  0 <= flush_lines_queued s <= flush_lines s -> 0 < flush_lines s ->
  (0 < flush_lines_queued s -> transaction_active s = true) ->
  batch_in_bounds (snd (afsql_dd_commit_transaction s))
  /\ (fst (afsql_dd_commit_transaction s) = false ->
      flush_lines_queued (snd (afsql_dd_commit_transaction s)) = 0).
Proof.
  intros Hbounds Hpos Hopen.
  unfold afsql_dd_commit_transaction, batch_in_bounds. run_monad.
  destruct (transaction_active s) eqn:Hactive; simpl.
  - destruct (is_some (dbi_conn_query (trace s) "COMMIT")); simpl;
      (split; [split; [lia | intros; lia] | intros; reflexivity || discriminate]).
  - split; [|discriminate].
    destruct (Z.ltb_spec 0 (flush_lines_queued s)) as [H|H];
      [specialize (Hopen H); discriminate|].
    split; [lia | intros; lia].
Qed.

Lemma commit_transaction_batch_kept :
  preserves batch_in_bounds afsql_dd_commit_transaction.
Proof.
  intros s (Hbounds & Hopen). apply commit_transaction_batch; [lia | lia | exact Hopen].
Qed.

Lemma begin_transaction_batch (s : AFSqlDestDriver) :
  batch_in_bounds s ->
  batch_in_bounds (snd (afsql_dd_begin_transaction s))
  /\ transaction_active (snd (afsql_dd_begin_transaction s)) = true.
Proof.
  intros (Hbounds & Hopen). unfold afsql_dd_begin_transaction, batch_in_bounds. run_monad.
  destruct (negb (String.eqb (type s) s_oracle)); simpl; repeat split; try lia.
Qed.

(** The rollback that follows a failed commit. *)
Lemma rollback_transaction_batch (s : AFSqlDestDriver) :
  batch_in_bounds s -> flush_lines_queued s = 0 ->
  batch_in_bounds (snd (afsql_dd_rollback_transaction s)).
Proof.
  intros (Hbounds & Hopen) Hzero.
  unfold afsql_dd_rollback_transaction, batch_in_bounds. run_monad.
  destruct (transaction_active s); simpl; split; try lia; intros; lia.
Qed.

(** [if (!afsql_dd_commit_transaction (self)) afsql_dd_rollback_transaction (self);] *)
Lemma commit_or_rollback_batch {A : Type} (s : AFSqlDestDriver)
    (on_success : M A) (on_failure : bool -> M A) :
  0 <= flush_lines_queued s <= flush_lines s -> 0 < flush_lines s ->
  (0 < flush_lines_queued s -> transaction_active s = true) ->
  preserves batch_in_bounds on_success ->
  (forall b, preserves batch_in_bounds (on_failure b)) ->
  batch_in_bounds
    (snd (bind afsql_dd_commit_transaction
            (fun committed =>
               if negb committed
               then bind afsql_dd_rollback_transaction on_failure
               else on_success) s)).
Proof.
  intros Hbounds Hpos Hopen Hsuccess Hfailure. unfold bind.
  destruct (commit_transaction_batch s Hbounds Hpos Hopen) as [Hkept Hzero].
  destruct (afsql_dd_commit_transaction s) as [committed s1]. simpl in Hkept, Hzero.
  destruct committed; reduce_control.
  - exact (Hsuccess s1 Hkept).
  - pose proof (rollback_transaction_batch s1 Hkept (Hzero eq_refl)) as Hrolled.
    destruct (afsql_dd_rollback_transaction s1) as [rolled_back s2].
    exact (Hfailure rolled_back s2 Hrolled).
Qed.

Lemma begin_new_transaction_batch :
  preserves batch_in_bounds afsql_dd_begin_new_transaction.
Proof.
  intros s Hs. unfold afsql_dd_begin_new_transaction.
  cbv [bind gets]. cbv beta iota zeta.
  destruct (transaction_active s) eqn:Hactive.
  - destruct Hs as (Hbounds & Hopen).
    destruct (commit_transaction_batch s ltac:(lia) ltac:(lia) Hopen) as [Hkept Hzero].
    destruct (afsql_dd_commit_transaction s) as [committed s1]. simpl in Hkept, Hzero.
    destruct committed; reduce_control.
    + unfold ret at 1. cbv beta iota zeta. reduce_control.
      exact (proj1 (begin_transaction_batch s1 Hkept)).
    + pose proof (rollback_transaction_batch s1 Hkept (Hzero eq_refl)) as Hrolled.
      destruct (afsql_dd_rollback_transaction s1) as [rolled_back s2].
      unfold ret. simpl. exact Hrolled.
  - unfold ret at 1. cbv beta iota zeta. reduce_control.
    exact (proj1 (begin_transaction_batch s Hs)).
Qed.

Lemma create_index_batch (table column : string) :
  preserves batch_in_bounds (afsql_dd_create_index table column).
Proof. pose proof run_query_batch. unfold afsql_dd_create_index. repeat batch_step. Qed.

Lemma create_indexes_of_column_batch (table name : string) (l : list string) :
  preserves batch_in_bounds (create_indexes_of_column table name l).
Proof.
  pose proof create_index_batch.
  induction l as [|data next IH]; simpl; repeat batch_step.
Qed.

Lemma create_all_indexes_batch (table : string) (l : list string) :
  preserves batch_in_bounds (create_all_indexes table l).
Proof.
  pose proof create_index_batch.
  induction l as [|data next IH]; simpl; repeat batch_step.
Qed.

Lemma add_missing_columns_batch (db_res : dbi_result) (table : string)
    (fs : list AFSqlField) (started : bool) :
  preserves batch_in_bounds (add_missing_columns db_res table fs started).
Proof.
  pose proof run_query_batch. pose proof begin_new_transaction_batch.
  pose proof create_indexes_of_column_batch.
  revert started; induction fs as [|f rest IH]; intros started; simpl; repeat batch_step.
Qed.

Lemma validate_table_batch (table : string) :
  preserves batch_in_bounds (afsql_dd_validate_table table).
Proof.
  pose proof run_query_batch. pose proof run_query_result_batch.
  pose proof begin_new_transaction_batch.
  pose proof create_all_indexes_batch. pose proof add_missing_columns_batch.
  unfold afsql_dd_validate_table. repeat batch_step.
Qed.

Lemma disconnect_batch : preserves batch_in_bounds afsql_dd_disconnect.
Proof. unfold afsql_dd_disconnect. repeat batch_step. Qed.

Lemma suspend_batch : preserves batch_in_bounds afsql_dd_suspend.
Proof. unfold afsql_dd_suspend. repeat batch_step. Qed.

Lemma run_session_statements_batch (l : list string) :
  preserves batch_in_bounds (run_session_statements l).
Proof.
  pose proof run_query_batch.
  induction l as [|data next IH]; simpl; repeat batch_step.
Qed.

Lemma ensure_initialized_connection_batch :
  preserves batch_in_bounds afsql_dd_ensure_initialized_connection.
Proof.
  pose proof run_session_statements_batch.
  unfold afsql_dd_ensure_initialized_connection. repeat batch_step.
Qed.

Lemma ensure_accessible_database_table_batch (msg : LogMessage) :
  preserves batch_in_bounds (afsql_dd_ensure_accessible_database_table msg).
Proof.
  pose proof validate_table_batch.
  unfold afsql_dd_ensure_accessible_database_table. repeat batch_step.
Qed.

Lemma rollback_msg_batch (msg : LogMessage) :
  preserves batch_in_bounds (afsql_dd_rollback_msg msg).
Proof. unfold afsql_dd_rollback_msg. repeat batch_step. Qed.

Lemma handle_insert_row_error_batch (msg : LogMessage) :
  preserves batch_in_bounds
    (afsql_dd_handle_insert_row_error_depending_on_connection_availability msg).
Proof.
  pose proof rollback_msg_batch. pose proof handle_transaction_error_batch.
  unfold afsql_dd_handle_insert_row_error_depending_on_connection_availability.
  repeat batch_step.
Qed.

Lemma insert_db_out_batch (msg : LogMessage) (success : bool) :
  preserves batch_in_bounds (insert_db_out msg success).
Proof.
  pose proof handle_insert_row_error_batch.
  unfold insert_db_out. repeat batch_step.
Qed.

(** After the INSERT the counter may reach the threshold; the commit that is
    due then brings it back to 0. *)
Lemma insert_db_after_insert_batch (msg : LogMessage) (success : bool)
    (s : AFSqlDestDriver) :
  batch_in_bounds s -> transaction_active s = true ->
  batch_in_bounds (snd (insert_db_after_insert msg success s)).
Proof.
  intros Hs Hactive. pose proof (insert_db_out_batch msg success) as Hout.
  unfold insert_db_after_insert. cbv [bind gets]. cbv beta iota zeta.
  destruct (success && afsql_dd_is_transaction_handling_enabled s); [|exact (Hout s Hs)].
  unfold modify at 1. cbv beta iota zeta.
  set (s1 := set_flush_lines_queued (flush_lines_queued s + 1) s).
  destruct Hs as (Hbounds & Hopen).
  assert (0 <= flush_lines_queued s1 <= flush_lines s1) as Hbounds1
      by (subst s1; simpl; lia).
  assert (0 < flush_lines s1) as Hpos1 by (subst s1; simpl; lia).
  assert (transaction_active s1 = true) as Hactive1 by (subst s1; exact Hactive).
  destruct (afsql_dd_should_commit_transaction s1) eqn:Hdue.
  - destruct (commit_transaction_batch s1 Hbounds1 Hpos1 (fun _ => Hactive1))
      as [Hkept Hzero].
    destruct (afsql_dd_commit_transaction s1) as [committed s2]. simpl in Hkept, Hzero.
    destruct committed; reduce_control; [exact (Hout s2 Hkept)|].
    pose proof (rollback_transaction_batch s2 Hkept (Hzero eq_refl)) as Hrolled.
    destruct (afsql_dd_rollback_transaction s2) as [rolled_back s3]. exact Hrolled.
  - unfold ret at 1. cbv beta iota zeta. reduce_control.
    apply Hout. split; [|intros _; exact Hactive1].
    unfold afsql_dd_should_commit_transaction, afsql_dd_is_transaction_handling_enabled
      in Hdue.
    destruct (Z.eqb_spec (flush_lines_queued s1) (-1)) as [H|_]; [lia|].
    destruct (Z.eqb_spec (flush_lines_queued s1) (flush_lines s1)) as [H|H];
      [discriminate | lia].
Qed.

Lemma insert_db_message_batch (msg : LogMessage) :
  preserves batch_in_bounds (insert_db_message msg).
Proof.
  intros s Hs. pose proof (insert_db_out_batch msg false) as Hout.
  unfold insert_db_message. unfold bind at 1.
  pose proof (ensure_accessible_database_table_batch msg s Hs) as H1.
  destruct (afsql_dd_ensure_accessible_database_table msg s) as [table s1]. simpl in H1.
  destruct table as [table|]; [|exact (Hout s1 H1)].
  cbv [bind gets id]. cbv beta iota zeta.
  assert (exists (begun : bool) (s2 : AFSqlDestDriver),
             (if afsql_dd_should_begin_new_transaction s1
              then afsql_dd_begin_transaction else ret true) s1 = (begun, s2)
             /\ batch_in_bounds s2
             /\ (begun = true -> transaction_active s2 = true)) as (begun & s2 & -> & H2 & Hopen).
  { unfold afsql_dd_should_begin_new_transaction.
    destruct (Z.eqb_spec (flush_lines_queued s1) 0) as [Hzero|Hne].
    - destruct (begin_transaction_batch s1 H1) as [Hkept Hactive].
      destruct (afsql_dd_begin_transaction s1) as [begun s2]. simpl in Hkept, Hactive.
      exists begun, s2. split; [reflexivity|]. split; [exact Hkept | intros _; exact Hactive].
    - exists true, s1. split; [reflexivity|]. split; [exact H1|].
      intros _. apply (proj2 H1). destruct H1 as (Hb & _). lia. }
  destruct begun; reduce_control; [|exact (Hout s2 H2)].
  pose proof (run_query_batch (afsql_dd_build_insert_command s2 msg table) false s2 H2) as H3.
  assert (transaction_active
            (snd (afsql_dd_run_query (afsql_dd_build_insert_command s2 msg table) false s2))
          = true) as Hactive3.
  { unfold afsql_dd_run_query, afsql_dd_run_query_result. run_monad. exact (Hopen eq_refl). }
  destruct (afsql_dd_run_query (afsql_dd_build_insert_command s2 msg table) false s2)
    as [success s3].
  exact (insert_db_after_insert_batch msg success s3 H3 Hactive3).
Qed.

Lemma insert_db_batch : preserves batch_in_bounds afsql_dd_insert_db.
Proof.
  pose proof insert_db_message_batch.
  pose proof ensure_initialized_connection_batch.
  unfold afsql_dd_insert_db. repeat batch_step.
Qed.

Lemma insert_or_suspend_batch : preserves batch_in_bounds insert_or_suspend.
Proof.
  pose proof insert_db_batch. pose proof disconnect_batch. pose proof suspend_batch.
  unfold insert_or_suspend. repeat batch_step.
Qed.

Lemma database_thread_round_batch : preserves batch_in_bounds database_thread_round.
Proof.
  pose proof insert_or_suspend_batch as Hinsert.
  pose proof disconnect_batch as Hdisconnect. pose proof suspend_batch as Hsuspend.
  intros s Hs. unfold database_thread_round. cbv [bind gets]. cbv beta iota zeta.
  destruct (db_thread_suspended s).
  { unfold modify. cbv beta iota zeta. apply Hinsert. batch_assignment. }
  destruct (negb (log_queue_has_items (queue s))); [|exact (Hinsert s Hs)].
  destruct (0 <? flush_lines_queued s); [|exact (Hinsert s Hs)].
  destruct Hs as (Hbounds & Hopen).
  apply (commit_or_rollback_batch s insert_or_suspend
           (fun rolled_back =>
              if negb rolled_back then bind afsql_dd_disconnect (fun _ => afsql_dd_suspend)
              else ret tt));
    [lia | lia | exact Hopen | exact Hinsert | intros b; repeat batch_step].
Qed.

Lemma database_thread_rounds_batch (n : nat) :
  preserves batch_in_bounds (database_thread_rounds n).
Proof.
  pose proof database_thread_round_batch.
  induction n as [|n IH]; simpl; repeat batch_step.
Qed.

Lemma database_thread_finish_batch : preserves batch_in_bounds database_thread_finish.
Proof.
  pose proof disconnect_batch as Hdisconnect.
  intros s Hs. unfold database_thread_finish.
  unfold bind at 1. unfold gets at 1. cbv beta iota zeta. unfold bind at 1.
  match goal with
  | |- batch_in_bounds (snd (let '(_, _) := ?c in _)) =>
      assert (batch_in_bounds (snd c)) as Hcommitted;
      [|destruct c as [u s1]; exact (Hdisconnect s1 Hcommitted)]
  end.
  destruct (0 <? flush_lines_queued s); [|exact Hs].
  destruct Hs as (Hbounds & Hopen).
  apply (commit_or_rollback_batch s (ret tt) (fun _ => ret tt));
    [lia | lia | exact Hopen | apply preserves_ret | intros b; apply preserves_ret].
Qed.

Lemma database_thread_interrupted_round_batch :
  preserves batch_in_bounds database_thread_interrupted_round.
Proof.
  pose proof disconnect_batch as Hdisconnect. pose proof suspend_batch as Hsuspend.
  intros s Hs. unfold database_thread_interrupted_round. cbv [bind gets]. cbv beta iota zeta.
  destruct (db_thread_suspended s).
  { unfold modify. cbv beta iota zeta. batch_assignment. }
  destruct (negb (log_queue_has_items (queue s))); [|exact Hs].
  destruct (0 <? flush_lines_queued s); [|exact Hs].
  destruct Hs as (Hbounds & Hopen).
  apply (commit_or_rollback_batch s (ret tt)
           (fun rolled_back =>
              if negb rolled_back then bind afsql_dd_disconnect (fun _ => afsql_dd_suspend)
              else ret tt));
    [lia | lia | exact Hopen | apply preserves_ret | intros b; repeat batch_step].
Qed.

Lemma database_thread_drain_batch (fuel : nat) :
  preserves batch_in_bounds (database_thread_drain fuel).
Proof.
  pose proof insert_db_batch.
  induction fuel as [|fuel IH]; simpl; repeat batch_step.
Qed.

Lemma database_thread_exit_batch (fuel : nat) :
  preserves batch_in_bounds (database_thread_exit fuel).
Proof.
  pose proof database_thread_drain_batch. pose proof database_thread_finish_batch.
  pose proof disconnect_batch.
  unfold database_thread_exit. repeat batch_step.
Qed.

Lemma database_thread_batch (n : nat) (interrupted : bool) (fuel : nat) :
  preserves batch_in_bounds (afsql_dd_database_thread n interrupted fuel).
Proof.
  pose proof database_thread_rounds_batch.
  pose proof database_thread_interrupted_round_batch.
  pose proof database_thread_exit_batch.
  unfold afsql_dd_database_thread. repeat batch_step.
Qed.

(** X12.  With explicit commits a batch never outgrows the flush threshold:
    in a driver in which the counter of the transaction is below
    [flush_lines] and a transaction is open whenever rows are counted, as in
    a driver that [afsql_dd_init] has started with explicit commits and a
    positive [flush_lines], this stays so after every round of the database
    thread and when the thread has ended, whatever the database answers. *)
Theorem batch_stays_below_flush_lines (self : AFSqlDestDriver) (n : nat)
    (interrupted : bool) (fuel : nat) :
  batch_in_bounds self ->
  let s := snd (database_thread_rounds n self) in
  let s' := snd (afsql_dd_database_thread n interrupted fuel self) in
  (0 <= flush_lines_queued s < flush_lines self
   /\ (0 < flush_lines_queued s -> transaction_active s = true))
  /\ (0 <= flush_lines_queued s' < flush_lines self
      /\ (0 < flush_lines_queued s' -> transaction_active s' = true)).
Proof.
  intros Hself s s'.
  pose proof (database_thread_rounds_batch n self Hself) as Hs. fold s in Hs.
  pose proof (database_thread_batch n interrupted fuel self Hself) as Hs'. fold s' in Hs'.
  assert (flush_lines s = flush_lines self) as Hlines.
  { pose proof (rounds_keep_configuration n self) as Hcfg. fold s in Hcfg.
    unfold same_configuration in Hcfg. tauto. }
  assert (flush_lines s' = flush_lines self) as Hlines'.
  { pose proof (database_thread_preserves _ (same_configuration_stable self)
                  n interrupted fuel self (same_configuration_refl self)) as Hcfg.
    fold s' in Hcfg. unfold same_configuration in Hcfg. tauto. }
  unfold batch_in_bounds in Hs, Hs'. rewrite Hlines in Hs. rewrite Hlines' in Hs'.
  split; assumption.
Qed.

(** A driver started with explicit commits and a positive threshold begins
    with an empty batch. *)
Lemma init_batch_in_bounds (calls : list setter_call) (env : InitEnv)
    (self : AFSqlDestDriver) :
  afsql_dd_init env (configured calls) = InitStarted self ->
  has_flag (flags self) AFSQL_DDF_EXPLICIT_COMMITS = true -> 0 < flush_lines self ->
  batch_in_bounds self.
Proof.
  intros Hinit Hflag Hpos.
  destruct (init_started env _ _ (configured_unstarted calls) Hinit)
    as (Hflags & _ & _ & _ & _ & Hqueued & _).
  rewrite <- Hflags, Hflag, (proj2 (Z.ltb_lt _ _) Hpos) in Hqueued. simpl in Hqueued.
  unfold batch_in_bounds. rewrite Hqueued. split; [lia | intros; lia].
Qed.

End BatchFacts.

(** ** Bookkeeping: sequence numbers, drops and failed attempts *)

Section BookkeepingFacts.

Context {build : BuildConfig} {host : Host} {dbi : Dbi}.

Section BookkeepingStable.

Variable P : AFSqlDestDriver -> Prop.

Hypothesis stable : bookkeeping_stable P.

Ltac books_step :=
  preserve_step_by
    ltac:(first [ apply (books_event P stable); [reflexivity | assumption]
                | apply (books_queue P stable); assumption
                | apply (books_dbi_ctx P stable); assumption
                | apply (books_validated_tables P stable); assumption
                | apply (books_suspended P stable); assumption
                | apply (books_transaction_active P stable); assumption
                | apply (books_queued P stable); assumption ]).

Lemma run_query_result_books (query : string) (silent : bool) :
  preserves P (afsql_dd_run_query_result query silent).
Proof. unfold afsql_dd_run_query_result. repeat books_step. Qed.

Lemma run_query_books (query : string) (silent : bool) :
  preserves P (afsql_dd_run_query query silent).
Proof. pose proof run_query_result_books. unfold afsql_dd_run_query. repeat books_step. Qed.

Lemma handle_transaction_error_books : preserves P afsql_dd_handle_transaction_error.
Proof. unfold afsql_dd_handle_transaction_error. repeat books_step. Qed.

Lemma commit_transaction_books : preserves P afsql_dd_commit_transaction.
Proof.
  pose proof run_query_books. pose proof handle_transaction_error_books.
  unfold afsql_dd_commit_transaction. repeat books_step.
Qed.

Lemma begin_transaction_books : preserves P afsql_dd_begin_transaction.
Proof. pose proof run_query_books. unfold afsql_dd_begin_transaction. repeat books_step. Qed.

Lemma rollback_transaction_books : preserves P afsql_dd_rollback_transaction.
Proof. pose proof run_query_books. unfold afsql_dd_rollback_transaction. repeat books_step. Qed.

Lemma begin_new_transaction_books : preserves P afsql_dd_begin_new_transaction.
Proof.
  pose proof commit_transaction_books. pose proof rollback_transaction_books.
  pose proof begin_transaction_books.
  unfold afsql_dd_begin_new_transaction. repeat books_step.
Qed.

Lemma create_index_books (table column : string) :
  preserves P (afsql_dd_create_index table column).
Proof. pose proof run_query_books. unfold afsql_dd_create_index. repeat books_step. Qed.

Lemma create_indexes_of_column_books (table name : string) (l : list string) :
  preserves P (create_indexes_of_column table name l).
Proof.
  pose proof create_index_books.
  induction l as [|data next IH]; simpl; repeat books_step.
Qed.

Lemma create_all_indexes_books (table : string) (l : list string) :
  preserves P (create_all_indexes table l).
Proof.
  pose proof create_index_books.
  induction l as [|data next IH]; simpl; repeat books_step.
Qed.

Lemma add_missing_columns_books (db_res : dbi_result) (table : string)
    (fs : list AFSqlField) (started : bool) :
  preserves P (add_missing_columns db_res table fs started).
Proof.
  pose proof run_query_books. pose proof begin_new_transaction_books.
  pose proof create_indexes_of_column_books.
  revert started; induction fs as [|f rest IH]; intros started; simpl; repeat books_step.
Qed.

Lemma validate_table_books (table : string) :
  preserves P (afsql_dd_validate_table table).
Proof.
  pose proof run_query_books. pose proof run_query_result_books.
  pose proof begin_new_transaction_books.
  pose proof create_all_indexes_books. pose proof add_missing_columns_books.
  unfold afsql_dd_validate_table. repeat books_step.
Qed.

Lemma disconnect_books : preserves P afsql_dd_disconnect.
Proof. unfold afsql_dd_disconnect. repeat books_step. Qed.

Lemma suspend_books : preserves P afsql_dd_suspend.
Proof. unfold afsql_dd_suspend. repeat books_step. Qed.

Lemma run_session_statements_books (l : list string) :
  preserves P (run_session_statements l).
Proof.
  pose proof run_query_books.
  induction l as [|data next IH]; simpl; repeat books_step.
Qed.

Lemma ensure_initialized_connection_books :
  preserves P afsql_dd_ensure_initialized_connection.
Proof.
  pose proof run_session_statements_books.
  unfold afsql_dd_ensure_initialized_connection. repeat books_step.
Qed.

Lemma ensure_accessible_database_table_books (msg : LogMessage) :
  preserves P (afsql_dd_ensure_accessible_database_table msg).
Proof.
  pose proof validate_table_books.
  unfold afsql_dd_ensure_accessible_database_table. repeat books_step.
Qed.

Lemma rollback_msg_books (msg : LogMessage) : preserves P (afsql_dd_rollback_msg msg).
Proof. unfold afsql_dd_rollback_msg. repeat books_step. Qed.

Lemma handle_insert_row_error_books (msg : LogMessage) :
  preserves P (afsql_dd_handle_insert_row_error_depending_on_connection_availability msg).
Proof.
  pose proof rollback_msg_books. pose proof handle_transaction_error_books.
  unfold afsql_dd_handle_insert_row_error_depending_on_connection_availability.
  repeat books_step.
Qed.

(** The end of a message is what [afsql_dd_insert_db] does from the label
    [out] on; a property that it keeps is kept by the whole thread. *)
Hypothesis out : forall (msg : LogMessage) (success : bool),
  preserves P (insert_db_out msg success).

Lemma insert_db_after_insert_books (msg : LogMessage) (success : bool) :
  preserves P (insert_db_after_insert msg success).
Proof.
  pose proof commit_transaction_books. pose proof rollback_transaction_books.
  unfold insert_db_after_insert. repeat books_step.
Qed.

Lemma insert_db_message_books (msg : LogMessage) : preserves P (insert_db_message msg).
Proof.
  pose proof insert_db_after_insert_books.
  pose proof ensure_accessible_database_table_books.
  pose proof begin_transaction_books. pose proof run_query_books.
  unfold insert_db_message. repeat books_step.
Qed.

Lemma insert_db_books : preserves P afsql_dd_insert_db.
Proof.
  pose proof insert_db_message_books. pose proof ensure_initialized_connection_books.
  unfold afsql_dd_insert_db. repeat books_step.
Qed.

Lemma insert_or_suspend_books : preserves P insert_or_suspend.
Proof.
  pose proof insert_db_books. pose proof disconnect_books. pose proof suspend_books.
  unfold insert_or_suspend. repeat books_step.
Qed.

Lemma database_thread_round_books : preserves P database_thread_round.
Proof.
  pose proof insert_or_suspend_books. pose proof commit_transaction_books.
  pose proof rollback_transaction_books. pose proof disconnect_books.
  pose proof suspend_books.
  unfold database_thread_round. repeat books_step.
Qed.

Lemma database_thread_rounds_books (n : nat) : preserves P (database_thread_rounds n).
Proof.
  pose proof database_thread_round_books.
  induction n as [|n IH]; simpl; repeat books_step.
Qed.

Lemma database_thread_books (n : nat) (interrupted : bool) (fuel : nat) :
  preserves P (afsql_dd_database_thread n interrupted fuel).
Proof.
  pose proof database_thread_rounds_books. pose proof insert_db_books.
  pose proof commit_transaction_books. pose proof rollback_transaction_books.
  pose proof disconnect_books. pose proof suspend_books.
  assert (forall fuel', preserves P (database_thread_drain fuel')) as Hdrain.
  { induction fuel' as [|fuel' IH]; simpl; repeat books_step. }
  unfold afsql_dd_database_thread, database_thread_interrupted_round,
    database_thread_exit, database_thread_finish.
  repeat books_step.
Qed.

End BookkeepingStable.

Lemma counters_follow_stable (tr0 : list event) (seq_num0 dropped0 : Z) :
  bookkeeping_stable (counters_follow tr0 seq_num0 dropped0).
Proof.
  constructor; try (intros s v (new & Htr & Hseq & Hdropped); exists new; repeat split; assumption).
  intros s e He (new & Htr & Hseq & Hdropped). exists (e :: new). simpl.
  rewrite Htr. split; [reflexivity|].
  destruct e; try discriminate; simpl; split; assumption.
Qed.

Lemma counters_follow_out (tr0 : list event) (seq_num0 dropped0 : Z)
    (msg : LogMessage) (success : bool) :
  preserves (counters_follow tr0 seq_num0 dropped0) (insert_db_out msg success).
Proof.
  pose proof (handle_insert_row_error_books _
                (counters_follow_stable tr0 seq_num0 dropped0) msg) as Hhandle.
  intros s Hs. unfold insert_db_out. destruct success.
  - destruct Hs as (new & Htr & Hseq & Hdropped).
    cbv [bind ret modify emit]. simpl.
    exists (EvMsgAck msg :: new). simpl. rewrite Htr, Hseq. repeat split. exact Hdropped.
  - cbv [bind gets]. cbv beta iota zeta.
    destruct (failed_message_counter s <? to_guint32 (num_retries s - 1)).
    + specialize (Hhandle s Hs).
      destruct (afsql_dd_handle_insert_row_error_depending_on_connection_availability msg s)
        as [handled s1].
      simpl in Hhandle. destruct handled; reduce_control; [|exact Hhandle].
      destruct Hhandle as (new & Htr & Hseq & Hdropped).
      cbv [modify ret]. simpl. exists new. repeat split; assumption.
    + destruct Hs as (new & Htr & Hseq & Hdropped).
      cbv [bind ret modify emit]. simpl.
      exists (EvMsgDrop msg :: new). simpl. rewrite Htr, Hseq, Hdropped.
      repeat split. lia.
Qed.

Lemma retries_in_bounds_stable : bookkeeping_stable retries_in_bounds.
Proof. constructor; intros; assumption. Qed.

Lemma retries_in_bounds_out (msg : LogMessage) (success : bool) :
  preserves retries_in_bounds (insert_db_out msg success).
Proof.
  pose proof (handle_insert_row_error_books _ retries_in_bounds_stable msg) as Hhandle.
  intros s Hs. unfold insert_db_out. destruct success.
  - destruct Hs as (Hretries & Hfailed).
    cbv [bind ret modify emit]. unfold retries_in_bounds. simpl. lia.
  - cbv [bind gets]. cbv beta iota zeta.
    destruct (Z.ltb_spec (failed_message_counter s) (to_guint32 (num_retries s - 1)))
      as [Hlt|Hge].
    + pose proof Hs as (Hretries & Hfailed).
      rewrite to_guint32_small in Hlt by lia.
      assert (failed_message_counter
                (snd (afsql_dd_handle_insert_row_error_depending_on_connection_availability
                        msg s)) = failed_message_counter s
              /\ num_retries
                   (snd (afsql_dd_handle_insert_row_error_depending_on_connection_availability
                           msg s)) = num_retries s) as [Hf Hn].
      { apply (handle_insert_row_error_books
                 (fun s' => failed_message_counter s' = failed_message_counter s
                            /\ num_retries s' = num_retries s)); [|tauto].
        constructor; intros; assumption. }
      specialize (Hhandle s Hs).
      destruct (afsql_dd_handle_insert_row_error_depending_on_connection_availability msg s)
        as [handled s1].
      simpl in Hhandle, Hf, Hn. destruct handled; reduce_control; [|exact Hhandle].
      cbv [modify ret]. unfold retries_in_bounds. simpl. lia.
    + destruct Hs as (Hretries & Hfailed).
      cbv [bind ret modify emit]. unfold retries_in_bounds. simpl. lia.
Qed.

(** X13.  The bookkeeping of the database thread, whatever the database
    answers: when the thread has ended, the sequence number has been stepped
    once for each message acknowledged since the start and for nothing else,
    the statistics counter has been incremented once for each message
    dropped, and the counter of failed attempts is still below the number of
    retries if it was. *)
Theorem thread_bookkeeping (self : AFSqlDestDriver) (n : nat) (interrupted : bool)
    (fuel : nat) :
  let s' := snd (afsql_dd_database_thread n interrupted fuel self) in
  (exists new : list event,
      trace s' = new ++ trace self
      /\ seq_num s'
         = Nat.iter (length (acknowledged new)) step_sequence_number (seq_num self)
      /\ dropped_messages s' = dropped_messages self + Z.of_nat (drops new))
  /\ (1 <= num_retries self < 2 ^ 31 ->
      0 <= failed_message_counter self < num_retries self ->
      0 <= failed_message_counter s' < num_retries self).
Proof.
  intros s'. split.
  - apply (database_thread_books _
             (counters_follow_stable (trace self) (seq_num self) (dropped_messages self))
             (counters_follow_out (trace self) (seq_num self) (dropped_messages self))).
    exists []. simpl. repeat split. lia.
  - intros Hretries Hfailed.
    pose proof (database_thread_books _ retries_in_bounds_stable retries_in_bounds_out
                  n interrupted fuel self (conj Hretries Hfailed)) as (_ & Hkept).
    fold s' in Hkept.
    pose proof (database_thread_preserves _ (same_configuration_stable self)
                  n interrupted fuel self (same_configuration_refl self)) as Hcfg.
    fold s' in Hcfg. unfold same_configuration in Hcfg.
    destruct Hcfg as (_ & _ & _ & _ & _ & _ & _ & _ & Hn & _). rewrite Hn in Hkept.
    exact Hkept.
Qed.

End BookkeepingFacts.

(** ** What is sent to the database *)

Lemma preserves_gets_bind {build : BuildConfig} {host : Host} {A B : Type}
    (P : AFSqlDestDriver -> Prop) (f : AFSqlDestDriver -> A) (k : A -> M B) :
  (forall s, P s -> P (snd (k (f s) s))) -> preserves P (bind (gets f) k).
Proof. intros H s Hs. exact (H s Hs). Qed.

(** From a state on, the rest of a computation keeps the property. *)
Ltac continue_preserving s Hs :=
  match goal with
  | |- ?P (snd (?c s)) =>
      let H := fresh "Hrest" in
      assert (preserves P c) as H; [|exact (H s Hs)]
  end.

(** An assignment of the thread: the history grows by an event that is no
    statement or by an allowed statement, or another member is written. *)
Ltac statement_assignment :=
  match goal with
  | H : statements_kept _ _ _ ?s |- statements_kept _ _ _ _ =>
      let new := fresh "new" in
      let Hcfg := fresh "Hcfg" in
      let Htr := fresh "Htr" in
      let Hall := fresh "Hall" in
      let Hauto := fresh "Hauto" in
      destruct H as (Hcfg & (new & Htr & Hall) & Hauto);
      split; [exact Hcfg|]; split;
      [ first [ exists new; split; [exact Htr | exact Hall]
              | eexists (_ :: new); split; [simpl; rewrite Htr; reflexivity|];
                simpl; first [exact Hall | constructor; [assumption | exact Hall]] ]
      | simpl; first [exact Hauto | intros; congruence] ]
  end.

Ltac statement_step := preserve_step_by ltac:(idtac; statement_assignment).

(** The rest of a computation after the thread looked at itself. *)
Ltac statement_steps :=
  repeat first
    [ match goal with
      | |- preserves _ (bind (gets id) _) =>
          let s' := fresh "s" in
          let Hs' := fresh "Hs" in
          apply preserves_gets_bind; intros s' Hs'; unfold id;
          continue_preserving s' Hs'
      end
    | statement_step ].

Section StatementFacts.

Context {build : BuildConfig} {host : Host} {dbi : Dbi}.

Lemma build_insert_command_is_insert (self : AFSqlDestDriver) (msg : LogMessage)
    (table : string) :
  is_insert_statement (afsql_dd_build_insert_command self msg table).
Proof.
  unfold afsql_dd_build_insert_command, is_insert_statement. cbv zeta.
  destruct (insert_fields_loop_extends f_name (fields_of self) (length (fields_of self)) 0
              ("INSERT INTO " +:+ table +:+ " (")) as [x1 ->].
  destruct (insert_fields_loop_extends
              (insert_value_of_field (null_value self) (seq_num self) msg)
              (fields_of self) (length (fields_of self)) 0
              ((("INSERT INTO " +:+ table +:+ " (") +:+ x1) +:+ ") VALUES (")) as [x2 ->].
  eexists. rewrite !append_assoc. reflexivity.
Qed.

Lemma create_index_query_cases (type table column : string) :
  is_index_statement type table column (create_index_query type table column).
Proof.
  assert (is_create_index_statement table column
            ("CREATE INDEX " +:+ table +:+ "_" +:+ column +:+ "_idx ON " +:+ table
               +:+ " (" +:+ column +:+ ")")) as Hplain.
  { exists (table +:+ "_" +:+ column +:+ "_idx"). rewrite !append_assoc. reflexivity. }
  split; [reflexivity|]. unfold create_index_query.
  destruct (String.eqb_spec type s_oracle) as [Horacle|Hother]; [|left; exact Hplain].
  destruct (Nat.ltb_spec 25 (String.length table + String.length column)) as [Hlong|Hshort];
    [|left; exact Hplain].
  destruct ENABLE_SSL eqn:Hssl.
  - left. cbv zeta. eexists. reflexivity.
  - right. tauto.
Qed.

Lemma sanitized_in_grammar (table : string) :
  identifier_in_grammar (snd (afsql_dd_check_sql_identifier table true)).
Proof.
  unfold identifier_in_grammar, afsql_dd_check_sql_identifier.
  intros i c Hi. exact (check_from_sanitized_in_grammar table 0 i c Hi).
Qed.

Variable allowed : string -> Prop.

Variable transactions : bool.

Variable self0 : AFSqlDestDriver.

Hypothesis allowed_session : forall q, In q (session_statements self0) -> allowed q.

Hypothesis allowed_insert :
  forall (s : AFSqlDestDriver) (msg : LogMessage) (table : string),
    (has_flag (flags self0) AFSQL_DDF_DONT_CREATE_TABLES = false ->
     identifier_in_grammar table) ->
    allowed (afsql_dd_build_insert_command s msg table).

Hypothesis allowed_end : transactions = true -> allowed "COMMIT" /\ allowed "ROLLBACK".

Hypothesis allowed_begin :
  transactions = true -> type self0 <> s_oracle -> allowed (begin_statement (type self0)).

Hypothesis allowed_schema :
  has_flag (flags self0) AFSQL_DDF_DONT_CREATE_TABLES = false ->
  forall table : string,
    identifier_in_grammar table ->
    allowed (probe_query table)
    /\ (forall fs, allowed (create_table_query table fs))
    /\ (forall name type, allowed (alter_table_query table name type)).

Hypothesis allowed_index :
  has_flag (flags self0) AFSQL_DDF_DONT_CREATE_TABLES = false ->
  enable_indexes self0 = true ->
  forall table column : string,
    identifier_in_grammar table ->
    allowed (create_index_query (type self0) table column).

Hypothesis transactions_schema :
  has_flag (flags self0) AFSQL_DDF_DONT_CREATE_TABLES = false -> transactions = true.

Lemma transactions_of_active (s : AFSqlDestDriver) :
  statements_kept allowed transactions self0 s -> transaction_active s = true ->
  transactions = true.
Proof.
  intros (_ & _ & Hauto) Hactive.
  destruct transactions; [reflexivity|]. destruct (Hauto eq_refl). congruence.
Qed.

Lemma transactions_of_enabled (s : AFSqlDestDriver) :
  statements_kept allowed transactions self0 s -> flush_lines_queued s <> -1 ->
  transactions = true.
Proof.
  intros (_ & _ & Hauto) Henabled.
  destruct transactions; [reflexivity|]. destruct (Hauto eq_refl). congruence.
Qed.

Lemma kept_type (s : AFSqlDestDriver) :
  statements_kept allowed transactions self0 s -> type s = type self0.
Proof. intros (Hcfg & _). unfold same_configuration in Hcfg. tauto. Qed.

Lemma kept_flags (s : AFSqlDestDriver) :
  statements_kept allowed transactions self0 s -> flags s = flags self0.
Proof. intros (Hcfg & _). unfold same_configuration in Hcfg. tauto. Qed.

Lemma kept_enable_indexes (s : AFSqlDestDriver) :
  statements_kept allowed transactions self0 s -> enable_indexes s = enable_indexes self0.
Proof. intros (Hcfg & _). unfold same_configuration in Hcfg. tauto. Qed.

Lemma kept_session_statements (s : AFSqlDestDriver) :
  statements_kept allowed transactions self0 s ->
  session_statements s = session_statements self0.
Proof. intros (Hcfg & _). unfold same_configuration in Hcfg. tauto. Qed.

Lemma run_query_result_statements (query : string) (silent : bool) :
  allowed query ->
  preserves (statements_kept allowed transactions self0)
    (afsql_dd_run_query_result query silent).
Proof. intros Hq. unfold afsql_dd_run_query_result. repeat statement_step. Qed.

Lemma run_query_statements (query : string) (silent : bool) :
  allowed query ->
  preserves (statements_kept allowed transactions self0) (afsql_dd_run_query query silent).
Proof.
  intros Hq. pose proof (run_query_result_statements query silent Hq).
  unfold afsql_dd_run_query. repeat statement_step.
Qed.

Lemma handle_transaction_error_statements :
  transactions = true ->
  preserves (statements_kept allowed transactions self0) afsql_dd_handle_transaction_error.
Proof. intros Htx. unfold afsql_dd_handle_transaction_error. repeat statement_step. Qed.

Lemma commit_transaction_statements :
  preserves (statements_kept allowed transactions self0) afsql_dd_commit_transaction.
Proof.
  intros s Hs. unfold afsql_dd_commit_transaction.
  unfold bind at 1. unfold gets at 1. cbv beta iota zeta.
  destruct (transaction_active s) eqn:Hactive; reduce_branches; [|exact Hs].
  pose proof (transactions_of_active s Hs Hactive) as Htx.
  pose proof (run_query_statements "COMMIT" false (proj1 (allowed_end Htx))).
  pose proof (handle_transaction_error_statements Htx).
  continue_preserving s Hs. repeat statement_step.
Qed.

Lemma rollback_transaction_statements :
  preserves (statements_kept allowed transactions self0) afsql_dd_rollback_transaction.
Proof.
  intros s Hs. unfold afsql_dd_rollback_transaction.
  unfold bind at 1. unfold gets at 1. cbv beta iota zeta.
  destruct (transaction_active s) eqn:Hactive; reduce_branches; [|exact Hs].
  pose proof (transactions_of_active s Hs Hactive) as Htx.
  pose proof (run_query_statements "ROLLBACK" false (proj2 (allowed_end Htx))).
  continue_preserving s Hs. repeat statement_step.
Qed.

Lemma begin_transaction_statements :
  transactions = true ->
  preserves (statements_kept allowed transactions self0) afsql_dd_begin_transaction.
Proof.
  intros Htx. unfold afsql_dd_begin_transaction.
  apply preserves_gets_bind; intros s Hs. cbv zeta. rewrite (kept_type s Hs).
  destruct (String.eqb_spec (type self0) s_oracle) as [Horacle|Hother]; reduce_branches.
  - continue_preserving s Hs. repeat statement_step.
  - pose proof (run_query_statements _ false (allowed_begin Htx Hother)) as Hrun.
    unfold begin_statement in Hrun.
    continue_preserving s Hs. repeat statement_step.
Qed.

Lemma begin_new_transaction_statements :
  transactions = true ->
  preserves (statements_kept allowed transactions self0) afsql_dd_begin_new_transaction.
Proof.
  intros Htx.
  pose proof commit_transaction_statements. pose proof rollback_transaction_statements.
  pose proof (begin_transaction_statements Htx).
  unfold afsql_dd_begin_new_transaction. repeat statement_step.
Qed.

Section Creating.

Hypothesis creating : has_flag (flags self0) AFSQL_DDF_DONT_CREATE_TABLES = false.

Variable table : string.

Hypothesis table_in_grammar : identifier_in_grammar table.

Lemma create_index_statements (column : string) :
  enable_indexes self0 = true ->
  preserves (statements_kept allowed transactions self0)
    (afsql_dd_create_index table column).
Proof.
  intros Hindexes. unfold afsql_dd_create_index.
  apply preserves_gets_bind; intros s Hs. rewrite (kept_type s Hs).
  exact (run_query_statements _ false
           (allowed_index creating Hindexes table column table_in_grammar) s Hs).
Qed.

Lemma create_indexes_of_column_statements (name : string) (l : list string) :
  enable_indexes self0 = true ->
  preserves (statements_kept allowed transactions self0)
    (create_indexes_of_column table name l).
Proof.
  intros Hindexes. pose proof (fun column => create_index_statements column Hindexes).
  induction l as [|data next IH]; simpl; repeat statement_step.
Qed.

Lemma create_all_indexes_statements (l : list string) :
  enable_indexes self0 = true ->
  preserves (statements_kept allowed transactions self0) (create_all_indexes table l).
Proof.
  intros Hindexes. pose proof (fun column => create_index_statements column Hindexes).
  induction l as [|data next IH]; simpl; repeat statement_step.
Qed.

(** The index statements that follow a new column. *)
Lemma indexes_statements (body : list string -> M unit) (k : M bool) :
  (enable_indexes self0 = true ->
   forall l, preserves (statements_kept allowed transactions self0) (body l)) ->
  preserves (statements_kept allowed transactions self0) k ->
  preserves (statements_kept allowed transactions self0)
    (bind (gets enable_indexes)
       (fun with_indexes =>
          bind (gets indexes)
            (fun idx => bind (if with_indexes then body idx else ret tt) (fun _ => k)))).
Proof.
  intros Hbody Hk. apply preserves_gets_bind; intros s Hs.
  rewrite (kept_enable_indexes s Hs).
  destruct (Bool.bool_dec (enable_indexes self0) true) as [Hindexes|Hindexes].
  - specialize (Hbody Hindexes). rewrite Hindexes.
    continue_preserving s Hs. repeat statement_step.
  - apply not_true_is_false in Hindexes. rewrite Hindexes.
    continue_preserving s Hs. repeat statement_step.
Qed.

Lemma add_missing_columns_statements (db_res : dbi_result) (fs : list AFSqlField)
    (started : bool) :
  preserves (statements_kept allowed transactions self0)
    (add_missing_columns db_res table fs started).
Proof.
  pose proof (begin_new_transaction_statements (transactions_schema creating)).
  pose proof (fun name type =>
                run_query_statements _ false
                  (proj2 (proj2 (allowed_schema creating table table_in_grammar))
                     name type)) as Halter.
  unfold alter_table_query in Halter.
  revert started; induction fs as [|f rest IH]; intros started; simpl;
    [apply preserves_ret|].
  repeat first
    [ match goal with
      | |- preserves _ (bind (gets enable_indexes) _) =>
          apply (indexes_statements (create_indexes_of_column table (f_name f)) _
                   (fun Hi l => create_indexes_of_column_statements (f_name f) l Hi));
          apply IH
      end
    | statement_step ].
Qed.

End Creating.

(** [afsql_dd_validate_table] keeps the property, and the name it hands
    back is an identifier when table creation is on. *)
Lemma validate_table_statements (table : string) (s : AFSqlDestDriver) :
  statements_kept allowed transactions self0 s ->
  statements_kept allowed transactions self0 (snd (afsql_dd_validate_table table s))
  /\ (has_flag (flags self0) AFSQL_DDF_DONT_CREATE_TABLES = false ->
      identifier_in_grammar (snd (fst (afsql_dd_validate_table table s)))).
Proof.
  intros Hs. pose proof (kept_flags s Hs) as Hflags.
  pose proof (sanitized_in_grammar table) as Hname.
  destruct (validate_table_cases table s)
    as [(Hflag & ->) | [(Hflag & Hin & ->) | (Hflag & Hnew & _)]]; simpl.
  - split; [exact Hs|]. rewrite Hflags in Hflag. congruence.
  - split; [exact Hs | intros _; exact Hname].
  - rewrite (validate_table_unfold table s Hflag Hnew). cbv zeta.
    rewrite Hflags in Hflag.
    pose proof (transactions_schema Hflag) as Htx.
    set (t := snd (afsql_dd_check_sql_identifier table true)) in *.
    pose proof (begin_new_transaction_statements Htx) as Hbegin.
    pose proof (Hbegin s Hs) as Hs1.
    destruct (afsql_dd_begin_new_transaction s) as [begun s1]. simpl in Hs1.
    destruct begun; reduce_branches; [|split; [exact Hs1 | intros _; exact Hname]].
    pose proof (run_query_result_statements (probe_query t) true
                  (proj1 (allowed_schema Hflag t Hname)) s1 Hs1) as Hs2.
    destruct (afsql_dd_run_query_result (probe_query t) true s1) as [probe s2].
    simpl in Hs2.
    assert (forall (success : bool) (s3 : AFSqlDestDriver),
               statements_kept allowed transactions self0 s3 ->
               statements_kept allowed transactions self0
                 (if success
                  then set_validated_tables ({[ t ]} ∪ validated_tables s3) s3
                  else s3)) as Hend.
    { intros success s3 Hs3. destruct success; [statement_assignment | exact Hs3]. }
    destruct probe as [db_res|].
    + pose proof (add_missing_columns_statements Hflag t Hname db_res (fields_of s1)
                    false s2 Hs2) as Hs3.
      destruct (add_missing_columns db_res t (fields_of s1) false s2) as [success s3].
      split; [exact (Hend success s3 Hs3) | intros _; exact Hname].
    + pose proof (Hbegin s2 Hs2) as Hs3.
      destruct (afsql_dd_begin_new_transaction s2) as [b s2a]. simpl in Hs3.
      pose proof (run_query_statements (create_table_query t (fields_of s1)) false
                    (proj1 (proj2 (allowed_schema Hflag t Hname)) _) s2a Hs3) as Hs4.
      destruct (afsql_dd_run_query (create_table_query t (fields_of s1)) false s2a)
        as [created s2b].
      simpl in Hs4.
      destruct created; [|split; [exact (Hend false s2b Hs4) | intros _; exact Hname]].
      rewrite (kept_enable_indexes s2b Hs4).
      destruct (Bool.bool_dec (enable_indexes self0) true) as [Hindexes|Hindexes].
      * pose proof (create_all_indexes_statements Hflag t Hname (indexes s2b) Hindexes
                      s2b Hs4) as Hs5.
        rewrite Hindexes.
        destruct (create_all_indexes t (indexes s2b) s2b) as [u s2c].
        split; [exact (Hend true s2c Hs5) | intros _; exact Hname].
      * apply not_true_is_false in Hindexes. rewrite Hindexes.
        split; [exact (Hend true s2b Hs4) | intros _; exact Hname].
Qed.

Lemma disconnect_statements :
  preserves (statements_kept allowed transactions self0) afsql_dd_disconnect.
Proof. unfold afsql_dd_disconnect. repeat statement_step. Qed.

Lemma suspend_statements :
  preserves (statements_kept allowed transactions self0) afsql_dd_suspend.
Proof. unfold afsql_dd_suspend. repeat statement_step. Qed.

Lemma run_session_statements_statements (l : list string) :
  (forall q, In q l -> allowed q) ->
  preserves (statements_kept allowed transactions self0) (run_session_statements l).
Proof.
  induction l as [|data next IH]; intros Hl; simpl; [apply preserves_ret|].
  pose proof (run_query_statements data false (Hl data (or_introl eq_refl))).
  pose proof (IH (fun q Hq => Hl q (or_intror Hq))).
  repeat statement_step.
Qed.

Lemma ensure_initialized_connection_statements :
  preserves (statements_kept allowed transactions self0)
    afsql_dd_ensure_initialized_connection.
Proof.
  pose proof (run_session_statements_statements _ allowed_session) as Hsession.
  unfold afsql_dd_ensure_initialized_connection.
  repeat first
    [ match goal with
      | |- preserves _ (bind (gets session_statements) _) =>
          apply preserves_gets_bind; intros s Hs;
          rewrite (kept_session_statements s Hs); exact (Hsession s Hs)
      end
    | statement_step ].
Qed.

Lemma rollback_msg_statements (msg : LogMessage) :
  preserves (statements_kept allowed transactions self0) (afsql_dd_rollback_msg msg).
Proof. unfold afsql_dd_rollback_msg. repeat statement_step. Qed.

Lemma handle_insert_row_error_statements (msg : LogMessage) :
  preserves (statements_kept allowed transactions self0)
    (afsql_dd_handle_insert_row_error_depending_on_connection_availability msg).
Proof.
  pose proof (rollback_msg_statements msg) as Hrollback.
  unfold afsql_dd_handle_insert_row_error_depending_on_connection_availability.
  repeat first
    [ match goal with
      | |- preserves _ (bind (gets afsql_dd_is_transaction_handling_enabled) _) =>
          apply preserves_gets_bind; intros s Hs;
          unfold afsql_dd_is_transaction_handling_enabled;
          destruct (Z.eqb_spec (flush_lines_queued s) (-1)) as [Hoff|Hon];
          reduce_branches;
          [|pose proof (handle_transaction_error_statements
                          (transactions_of_enabled s Hs Hon))];
          continue_preserving s Hs
      end
    | statement_step ].
Qed.

Lemma insert_db_out_statements (msg : LogMessage) (success : bool) :
  preserves (statements_kept allowed transactions self0) (insert_db_out msg success).
Proof.
  pose proof (handle_insert_row_error_statements msg).
  unfold insert_db_out. repeat statement_step.
Qed.

Lemma insert_db_after_insert_statements (msg : LogMessage) (success : bool) :
  preserves (statements_kept allowed transactions self0)
    (insert_db_after_insert msg success).
Proof.
  pose proof (insert_db_out_statements msg success) as Hout.
  pose proof commit_transaction_statements. pose proof rollback_transaction_statements.
  unfold insert_db_after_insert.
  apply preserves_gets_bind; intros s Hs.
  unfold afsql_dd_is_transaction_handling_enabled.
  destruct (Z.eqb_spec (flush_lines_queued s) (-1)) as [Hoff|Hon]; reduce_branches.
  - rewrite andb_false_r. exact (Hout s Hs).
  - pose proof (transactions_of_enabled s Hs Hon) as Htx.
    destruct success; reduce_branches; [|exact (Hout s Hs)].
    continue_preserving s Hs. repeat statement_step.
Qed.

Lemma insert_db_message_statements (msg : LogMessage) :
  preserves (statements_kept allowed transactions self0) (insert_db_message msg).
Proof.
  pose proof (insert_db_out_statements msg false) as Hout.
  pose proof (insert_db_after_insert_statements msg) as Hafter.
  intros s Hs. unfold insert_db_message. unfold bind at 1.
  unfold afsql_dd_ensure_accessible_database_table.
  unfold bind at 1. unfold gets at 1. cbv beta iota zeta. unfold bind at 1.
  destruct (validate_table_statements
              (log_template_format (table s) msg LTZ_LOCAL 0) s Hs)
    as [Hs1 Hname].
  destruct (afsql_dd_validate_table
              (log_template_format (table s) msg LTZ_LOCAL 0) s)
    as [[ok name] s1].
  simpl in Hs1, Hname.
  destruct ok; reduce_branches; unfold ret at 1; cbv beta iota zeta;
    [|exact (Hout s1 Hs1)].
  pose proof (fun s' => run_query_statements _ false (allowed_insert s' msg name Hname))
    as Hrun.
  continue_preserving s1 Hs1.
  apply preserves_gets_bind; intros s2 Hs2.
  unfold afsql_dd_should_begin_new_transaction.
  destruct (Z.eqb_spec (flush_lines_queued s2) 0) as [Hzero|Hne].
  - pose proof (begin_transaction_statements
                  (transactions_of_enabled s2 Hs2 ltac:(lia))) as Hbegin.
    continue_preserving s2 Hs2. statement_steps.
  - continue_preserving s2 Hs2. statement_steps.
Qed.

Lemma insert_db_statements :
  preserves (statements_kept allowed transactions self0) afsql_dd_insert_db.
Proof.
  pose proof insert_db_message_statements.
  pose proof ensure_initialized_connection_statements.
  unfold afsql_dd_insert_db. repeat statement_step.
Qed.

Lemma insert_or_suspend_statements :
  preserves (statements_kept allowed transactions self0) insert_or_suspend.
Proof.
  pose proof insert_db_statements.
  pose proof disconnect_statements. pose proof suspend_statements.
  unfold insert_or_suspend. repeat statement_step.
Qed.

Lemma database_thread_round_statements :
  preserves (statements_kept allowed transactions self0) database_thread_round.
Proof.
  pose proof insert_or_suspend_statements.
  pose proof commit_transaction_statements. pose proof rollback_transaction_statements.
  pose proof disconnect_statements. pose proof suspend_statements.
  unfold database_thread_round. repeat statement_step.
Qed.

Lemma database_thread_rounds_statements (n : nat) :
  preserves (statements_kept allowed transactions self0) (database_thread_rounds n).
Proof.
  pose proof database_thread_round_statements.
  induction n as [|n IH]; simpl; repeat statement_step.
Qed.

Lemma database_thread_statements (n : nat) (interrupted : bool) (fuel : nat) :
  preserves (statements_kept allowed transactions self0)
    (afsql_dd_database_thread n interrupted fuel).
Proof.
  pose proof insert_db_statements.
  pose proof commit_transaction_statements. pose proof rollback_transaction_statements.
  pose proof disconnect_statements. pose proof suspend_statements.
  pose proof insert_or_suspend_statements as Hinsert.
  pose proof database_thread_round_statements as Hround.
  pose proof database_thread_rounds_statements as Hrounds.
  assert (forall fuel', preserves (statements_kept allowed transactions self0)
                          (database_thread_drain fuel')) as Hdrain.
  { induction fuel' as [|fuel' IH]; simpl; repeat statement_step. }
  unfold afsql_dd_database_thread, database_thread_interrupted_round,
    database_thread_exit, database_thread_finish.
  repeat statement_step.
Qed.

End StatementFacts.

Section StatementTheorems.

Context {build : BuildConfig} {host : Host} {dbi : Dbi}.

Lemma statements_kept_refl (allowed : string -> Prop) (transactions : bool)
    (self : AFSqlDestDriver) :
  (transactions = false ->
   flush_lines_queued self = -1 /\ transaction_active self = false) ->
  statements_kept allowed transactions self self.
Proof.
  intros Hauto. split; [unfold same_configuration; tauto|]. split; [|exact Hauto].
  exists []. split; [reflexivity | constructor].
Qed.

(** X14.  With table creation switched off the database thread sends no
    statement of its own about the schema: every statement it sends, from
    its first round to its end, is a session statement of the configuration,
    one of BEGIN, BEGIN TRANSACTION, COMMIT and ROLLBACK, or an INSERT.  When
    moreover the transaction handling is off and no transaction is open, it
    sends session statements and INSERTs only. *)
Theorem dont_create_tables_sends_no_ddl (self : AFSqlDestDriver) (n : nat)
    (interrupted : bool) (fuel : nat) :
  has_flag (flags self) AFSQL_DDF_DONT_CREATE_TABLES = true ->
  let s' := snd (afsql_dd_database_thread n interrupted fuel self) in
  exists new : list event,
    trace s' = new ++ trace self
    /\ (forall q : string,
          In q (statements_sent new) ->
          In q (session_statements self) \/ is_transaction_statement q
          \/ is_insert_statement q)
    /\ (flush_lines_queued self = -1 -> transaction_active self = false ->
        forall q : string,
          In q (statements_sent new) ->
          In q (session_statements self) \/ is_insert_statement q).
Proof.
  intros Hflag s'.
  assert (statements_kept
            (fun q => In q (session_statements self) \/ is_transaction_statement q
                      \/ is_insert_statement q) true self s') as H1.
  { apply database_thread_statements; try (intros; congruence).
    - intros; cbv beta; tauto.
    - intros; right; right; apply build_insert_command_is_insert.
    - intros _; unfold is_transaction_statement; tauto.
    - intros _ _. right; left. unfold begin_statement, is_transaction_statement.
      destruct (String.eqb (type self) s_freetds); tauto.
    - apply statements_kept_refl; discriminate. }
  destruct H1 as (_ & (new & Htr & Hall) & _).
  exists new. split; [exact Htr|]. split.
  - intros q Hq. exact (proj1 (List.Forall_forall _ _) Hall q Hq).
  - intros Hoff Hclosed.
    assert (statements_kept
              (fun q => In q (session_statements self) \/ is_insert_statement q)
              false self s') as H2.
    { apply database_thread_statements; try (intros; congruence).
      - intros; cbv beta; tauto.
      - intros; right; apply build_insert_command_is_insert.
      - apply statements_kept_refl; tauto. }
    destruct H2 as (_ & (new' & Htr' & Hall') & _).
    rewrite Htr in Htr'. apply app_inv_tail in Htr'. subst new'.
    intros q Hq. exact (proj1 (List.Forall_forall _ _) Hall' q Hq).
Qed.

(** X15.  Every statement the database thread sends, from its first round
    to its end, is a statement of the driver: a session statement, COMMIT,
    ROLLBACK, the BEGIN of the dialect (none for Oracle), an INSERT, or,
    only when table creation is on, the probe, a CREATE TABLE, an ALTER TABLE
    or, only with indexes, what [afsql_dd_create_index] sends: a CREATE INDEX
    on a column of the table or, for an Oracle index whose names are
    together longer than 25 characters in a build without [ENABLE_SSL], the
    empty statement.  When table creation is on, the table named in each of
    them, the INSERT too, is an identifier of the grammar, whatever the
    template of the table name made of the message. *)
Theorem thread_sends_driver_statements (self : AFSqlDestDriver) (n : nat)
    (interrupted : bool) (fuel : nat) :
  let s' := snd (afsql_dd_database_thread n interrupted fuel self) in
  exists new : list event,
    trace s' = new ++ trace self
    /\ forall q : string, In q (statements_sent new) -> is_driver_statement self q.
Proof.
  intros s'.
  assert (statements_kept (is_driver_statement self) true self s') as H1.
  { apply database_thread_statements; unfold is_driver_statement.
    - intros; tauto.
    - intros s msg table Htable. do 5 right. exists s, msg, table. tauto.
    - intros _; tauto.
    - intros _ Hother. tauto.
    - intros Hflag table Htable. split; [|split]; intros; do 4 right; left;
        (split; [exact Hflag|]); exists table; (split; [exact Htable|]);
        unfold is_schema_statement; eauto 6.
    - intros Hflag Hindexes table column Htable. do 4 right; left.
      split; [exact Hflag|]. exists table. split; [exact Htable|].
      unfold is_schema_statement. do 3 right. split; [exact Hindexes|].
      exists column. apply create_index_query_cases.
    - reflexivity.
    - apply statements_kept_refl; discriminate. }
  destruct H1 as (_ & (new & Htr & Hall) & _).
  exists new. split; [exact Htr|].
  intros q Hq. exact (proj1 (List.Forall_forall _ _) Hall q Hq).
Qed.

End StatementTheorems.

(** ** Delivery to a database that accepts every statement *)

(** An assignment that leaves the waiting messages, the acknowledgements and
    the drops alone. *)
Ltac delivery_assignment :=
  match goal with
  | H : delivered _ _ _ _ _ _ |- delivered _ _ _ _ _ _ =>
      let Hitems := fresh "Hitems" in
      let Hdriver := fresh "Hdriver" in
      let Hacked := fresh "Hacked" in
      let Hdrops := fresh "Hdrops" in
      let Hcfg := fresh "Hcfg" in
      let Hseq := fresh "Hseq" in
      destruct H as (Hitems & Hdriver & Hacked & Hdrops & Hcfg & Hseq);
      split; [exact Hitems|]; split; [exact Hdriver|]; split; [exact Hacked|];
      split; [exact Hdrops|]; split; [exact Hcfg | exact Hseq]
  end.

Ltac delivery_step := preserve_step_by ltac:(idtac; delivery_assignment).

(** The call [c] at [s] returns TRUE, by [H : succeeds P c]. *)
Ltac run_succeeding H s Hs s1 Hs1 :=
  let Heq := fresh "Heq" in
  destruct (H s Hs) as (s1 & Heq & Hs1); rewrite Heq; clear Heq.

(** The computation has come to its end. *)
Ltac succeeded := eexists; split; [reflexivity|].

Section DeliveryFacts.

Context {build : BuildConfig} {host : Host} {dbi : Dbi}.

Hypothesis accepting : accepting_database.

Variable self0 : AFSqlDestDriver.

Variable seq : Z.

Variable items : list LogMessage.

Variable acks : list (LogMessage * list string).

Variable dropped : nat.

Lemma run_query_accepting (query : string) (silent : bool) (s : AFSqlDestDriver) :
  afsql_dd_run_query query silent s = (true, set_trace (EvQuery query true :: trace s) s).
Proof.
  run_monad. pose proof (proj1 accepting (trace s) query) as Hquery.
  destruct (dbi_conn_query (trace s) query); [reflexivity | discriminate].
Qed.

Lemma commit_transaction_accepted (s : AFSqlDestDriver) :
  transaction_active s = true ->
  afsql_dd_commit_transaction s
  = (true,
     set_transaction_active false
       (set_flush_lines_queued 0
          (set_trace (EvAckBacklog (flush_lines_queued s) :: EvQuery "COMMIT" true :: trace s)
             (set_queue
                (log_queue_ack_backlog (queue s) (to_guint32 (flush_lines_queued s))) s)))).
Proof.
  intros Hactive. unfold afsql_dd_commit_transaction. run_monad.
  rewrite Hactive. simpl. rewrite (proj1 accepting). reflexivity.
Qed.

Lemma commit_transaction_closed (s : AFSqlDestDriver) :
  transaction_active s = false -> afsql_dd_commit_transaction s = (true, s).
Proof.
  intros Hclosed. unfold afsql_dd_commit_transaction. cbv [bind gets ret].
  now rewrite Hclosed.
Qed.

Lemma run_query_result_delivers (query : string) (silent : bool) (s : AFSqlDestDriver) :
  delivered self0 seq items acks dropped s ->
  exists (db_res : dbi_result) (s' : AFSqlDestDriver),
    afsql_dd_run_query_result query silent s = (Some db_res, s')
    /\ delivered self0 seq items acks dropped s'.
Proof.
  intros Hs. unfold afsql_dd_run_query_result. cbv [bind gets ret modify emit].
  pose proof (proj1 accepting (trace s) query) as Hq.
  destruct (dbi_conn_query (trace s) query) as [db_res|]; [|discriminate].
  exists db_res. succeeded. delivery_assignment.
Qed.

Lemma run_query_delivers (query : string) (silent : bool) :
  succeeds (delivered self0 seq items acks dropped) (afsql_dd_run_query query silent).
Proof.
  intros s Hs. unfold afsql_dd_run_query. unfold bind, ret.
  destruct (run_query_result_delivers query silent s Hs) as (db_res & s1 & -> & Hs1).
  now succeeded.
Qed.

Lemma succeeds_preserves (P : AFSqlDestDriver -> Prop) (c : M bool) :
  succeeds P c -> preserves P c.
Proof. intros H s Hs. destruct (H s Hs) as (s' & -> & Hs'). exact Hs'. Qed.

Lemma succeeds_ret (P : AFSqlDestDriver -> Prop) : succeeds P (ret true).
Proof. intros s Hs. now succeeded. Qed.

Lemma commit_transaction_delivers :
  succeeds (delivered self0 seq items acks dropped) afsql_dd_commit_transaction.
Proof.
  intros s Hs. unfold afsql_dd_commit_transaction.
  unfold bind at 1. unfold gets at 1. cbv beta iota zeta.
  destruct (transaction_active s); reduce_branches; [|now succeeded].
  unfold bind at 1. run_succeeding (run_query_delivers "COMMIT" false) s Hs s1 Hs1.
  cbv [bind gets ret modify emit]. succeeded. delivery_assignment.
Qed.

Lemma begin_transaction_delivers :
  succeeds (delivered self0 seq items acks dropped) afsql_dd_begin_transaction.
Proof.
  intros s Hs. unfold afsql_dd_begin_transaction.
  unfold bind at 1. unfold gets at 1. cbv beta iota zeta. unfold bind at 1.
  destruct (negb (String.eqb (type s) s_oracle)).
  - run_succeeding
      (run_query_delivers
         (if String.eqb (type s) s_freetds then "BEGIN TRANSACTION" else "BEGIN") false)
      s Hs s1 Hs1.
    cbv [bind ret modify]. succeeded. delivery_assignment.
  - cbv [bind ret modify]. succeeded. delivery_assignment.
Qed.

Lemma begin_new_transaction_delivers :
  succeeds (delivered self0 seq items acks dropped) afsql_dd_begin_new_transaction.
Proof.
  intros s Hs. unfold afsql_dd_begin_new_transaction.
  unfold bind at 1. unfold gets at 1. cbv beta iota zeta. unfold bind at 1.
  destruct (transaction_active s).
  - unfold bind at 1.
    run_succeeding commit_transaction_delivers s Hs s1 Hs1.
    reduce_branches. unfold ret at 1. reduce_branches.
    exact (begin_transaction_delivers s1 Hs1).
  - unfold ret at 1. reduce_branches. exact (begin_transaction_delivers s Hs).
Qed.

Lemma create_index_delivers (table column : string) :
  preserves (delivered self0 seq items acks dropped) (afsql_dd_create_index table column).
Proof.
  pose proof (fun q silent => succeeds_preserves _ _ (run_query_delivers q silent)).
  unfold afsql_dd_create_index. repeat delivery_step.
Qed.

Lemma create_indexes_of_column_delivers (table name : string) (l : list string) :
  preserves (delivered self0 seq items acks dropped) (create_indexes_of_column table name l).
Proof.
  pose proof create_index_delivers.
  induction l as [|data next IH]; simpl; repeat delivery_step.
Qed.

Lemma create_all_indexes_delivers (table : string) (l : list string) :
  preserves (delivered self0 seq items acks dropped) (create_all_indexes table l).
Proof.
  pose proof create_index_delivers.
  induction l as [|data next IH]; simpl; repeat delivery_step.
Qed.

Lemma add_missing_columns_delivers (db_res : dbi_result) (table : string)
    (fs : list AFSqlField) (started : bool) :
  succeeds (delivered self0 seq items acks dropped) (add_missing_columns db_res table fs started).
Proof.
  revert started; induction fs as [|f rest IH]; intros started s Hs; simpl;
    [now succeeded|].
  destruct (Z.eqb (dbi_result_get_field_idx db_res (f_name f)) 0); [|exact (IH _ s Hs)].
  unfold bind at 1.
  assert (succeeds (delivered self0 seq items acks dropped)
            (if negb started then afsql_dd_begin_new_transaction else ret true)) as Hbegin.
  { destruct started; simpl; [apply succeeds_ret | exact begin_new_transaction_delivers]. }
  run_succeeding Hbegin s Hs s1 Hs1. reduce_branches. unfold bind at 1.
  run_succeeding (run_query_delivers
                    ("ALTER TABLE " +:+ table +:+ " ADD " +:+ f_name f +:+ " " +:+ f_type f)
                    false) s1 Hs1 s2 Hs2.
  reduce_branches. unfold bind at 1. unfold gets at 1. cbv beta iota zeta.
  unfold bind at 1. unfold gets at 1. cbv beta iota zeta. unfold bind at 1.
  pose proof (create_indexes_of_column_delivers table (f_name f) (indexes s2) s2 Hs2) as Hs3.
  destruct (enable_indexes s2).
  - destruct (create_indexes_of_column table (f_name f) (indexes s2) s2) as [u s3].
    exact (IH true s3 Hs3).
  - unfold ret at 1. cbv beta iota zeta. exact (IH true s2 Hs2).
Qed.

Lemma validate_table_delivers (table : string) (s : AFSqlDestDriver) :
  delivered self0 seq items acks dropped s ->
  exists s' : AFSqlDestDriver,
    afsql_dd_validate_table table s
    = ((true,
        if has_flag (flags s) AFSQL_DDF_DONT_CREATE_TABLES then table
        else snd (afsql_dd_check_sql_identifier table true)), s')
    /\ delivered self0 seq items acks dropped s'.
Proof.
  intros Hs.
  destruct (validate_table_cases table s)
    as [(Hflag & ->) | [(Hflag & _ & ->) | (Hflag & Hnew & _)]];
    rewrite Hflag; [now succeeded | now succeeded |].
  rewrite (validate_table_unfold table s Hflag Hnew). cbv zeta.
  run_succeeding begin_new_transaction_delivers s Hs s1 Hs1. reduce_branches.
  destruct (run_query_result_delivers
              (probe_query (snd (afsql_dd_check_sql_identifier table true))) true s1 Hs1)
    as (db_res & s2 & -> & Hs2).
  run_succeeding (add_missing_columns_delivers db_res
                    (snd (afsql_dd_check_sql_identifier table true)) (fields_of s1) false)
    s2 Hs2 s3 Hs3.
  succeeded. delivery_assignment.
Qed.

Lemma run_session_statements_delivers (l : list string) :
  succeeds (delivered self0 seq items acks dropped) (run_session_statements l).
Proof.
  induction l as [|data next IH]; intros s Hs; simpl; [now succeeded|].
  unfold bind at 1. run_succeeding (run_query_delivers data false) s Hs s1 Hs1.
  reduce_branches. exact (IH s1 Hs1).
Qed.

Lemma ensure_initialized_connection_delivers :
  succeeds (delivered self0 seq items acks dropped) afsql_dd_ensure_initialized_connection.
Proof.
  intros s Hs. unfold afsql_dd_ensure_initialized_connection.
  cbv [bind gets modify emit]. cbv beta iota zeta.
  destruct (dbi_ctx s); [now succeeded|].
  rewrite (proj1 (proj2 Hs)). reduce_branches. simpl trace.
  rewrite (proj2 accepting). reduce_branches.
  apply run_session_statements_delivers. delivery_assignment.
Qed.

Lemma disconnect_delivers : preserves (delivered self0 seq items acks dropped) afsql_dd_disconnect.
Proof. unfold afsql_dd_disconnect. repeat delivery_step. Qed.

End DeliveryFacts.

Section DeliveryRounds.

Context {build : BuildConfig} {host : Host} {dbi : Dbi}.

Hypothesis accepting : accepting_database.

Variable self0 : AFSqlDestDriver.

Lemma insert_db_out_delivers (msg : LogMessage) (seq : Z) (items : list LogMessage)
    (acks : list (LogMessage * list string)) (dropped : nat) (s : AFSqlDestDriver) :
  delivered self0 seq items acks dropped s ->
  exists s' : AFSqlDestDriver,
    insert_db_out msg true s = (true, s')
    /\ delivered self0 (step_sequence_number seq) items
         ((msg, accepted_since_outcome (trace s)) :: acks) dropped s'.
Proof.
  intros (Hitems & Hdriver & Hacked & Hdrops & Hcfg & Hseq). unfold insert_db_out.
  cbv [bind ret modify emit]. succeeded. unfold delivered.
  cbn [queue type trace seq_num set_failed_message_counter set_seq_num set_trace
       acknowledgements drops].
  rewrite Hacked, Hseq.
  split; [exact Hitems|]. split; [exact Hdriver|]. split; [reflexivity|].
  split; [exact Hdrops|]. split; [exact Hcfg | reflexivity].
Qed.

(** A successful INSERT ends in the acknowledgement of the message, after
    the COMMIT of the batch when the message fills it. *)
Lemma insert_db_after_insert_delivers (msg : LogMessage) (insert : string)
    (before : list string) (seq : Z) (items : list LogMessage)
    (acks : list (LogMessage * list string)) (dropped : nat) (s : AFSqlDestDriver) :
  delivered self0 seq items acks dropped s ->
  accepted_since_outcome (trace s) = insert :: before ->
  exists (s' : AFSqlDestDriver) (accepted : list string),
    insert_db_after_insert msg true s = (true, s')
    /\ delivered self0 (step_sequence_number seq) items ((msg, accepted) :: acks)
         dropped s'
    /\ inserted_before_ack insert accepted.
Proof.
  intros Hs Haccepted.
  assert (forall s0 : AFSqlDestDriver,
             delivered self0 seq items acks dropped s0 ->
             inserted_before_ack insert (accepted_since_outcome (trace s0)) ->
             exists (s' : AFSqlDestDriver) (accepted : list string),
               insert_db_out msg true s0 = (true, s')
               /\ delivered self0 (step_sequence_number seq) items
                    ((msg, accepted) :: acks) dropped s'
               /\ inserted_before_ack insert accepted) as Hout.
  { intros s0 Hs0 Hinserted.
    destruct (insert_db_out_delivers msg seq items acks dropped s0 Hs0) as (s' & -> & Hs').
    exists s', (accepted_since_outcome (trace s0)). tauto. }
  assert (inserted_before_ack insert (accepted_since_outcome (trace s))) as Hplain
    by (exists before; left; exact Haccepted).
  unfold insert_db_after_insert.
  unfold bind at 1. unfold gets at 1. cbv beta iota zeta.
  destruct (afsql_dd_is_transaction_handling_enabled s); reduce_branches;
    [|exact (Hout s Hs Hplain)].
  unfold bind at 1. unfold modify at 1. cbv beta iota zeta.
  set (s1 := set_flush_lines_queued (flush_lines_queued s + 1) s).
  assert (delivered self0 seq items acks dropped s1) as Hs1
    by (subst s1; delivery_assignment).
  unfold bind at 1. unfold gets at 1. cbv beta iota zeta. unfold bind at 1.
  destruct (afsql_dd_should_commit_transaction s1);
    [|unfold ret at 1; reduce_branches; exact (Hout s1 Hs1 Hplain)].
  destruct (transaction_active s1) eqn:Hactive.
  - rewrite (commit_transaction_accepted accepting s1 Hactive). reduce_branches.
    apply Hout.
    + delivery_assignment.
    + exists before. right.
      change (accepted_since_outcome
                (EvAckBacklog (flush_lines_queued s1) :: EvQuery "COMMIT" true :: trace s)
              = "COMMIT" :: insert :: before).
      cbn [accepted_since_outcome]. now rewrite Haccepted.
  - rewrite (commit_transaction_closed s1 Hactive). reduce_branches.
    exact (Hout s1 Hs1 Hplain).
Qed.

Lemma insert_db_message_delivers (msg : LogMessage) (seq : Z) (items : list LogMessage)
    (acks : list (LogMessage * list string)) (dropped : nat) (s : AFSqlDestDriver) :
  delivered self0 seq items acks dropped s ->
  exists (s' : AFSqlDestDriver) (accepted : list string),
    insert_db_message msg s = (true, s')
    /\ delivered self0 (step_sequence_number seq) items ((msg, accepted) :: acks)
         dropped s'
    /\ inserted_before_ack (insert_command_at self0 seq msg) accepted.
Proof.
  intros Hs. unfold insert_db_message. unfold bind at 1.
  unfold afsql_dd_ensure_accessible_database_table.
  unfold bind at 1. unfold gets at 1. cbv beta iota zeta. unfold bind at 1.
  destruct (validate_table_delivers accepting self0 seq items acks dropped
              (log_template_format (table s) msg LTZ_LOCAL 0) s Hs)
    as (s1 & -> & Hs1).
  reduce_branches. unfold ret at 1. cbv beta iota zeta.
  unfold bind at 1. unfold gets at 1. cbv beta iota zeta. unfold bind at 1.
  assert (succeeds (delivered self0 seq items acks dropped)
            (if afsql_dd_should_begin_new_transaction s1
             then afsql_dd_begin_transaction else ret true)) as Hbegin.
  { destruct (afsql_dd_should_begin_new_transaction s1);
      [exact (begin_transaction_delivers accepting self0 seq items acks dropped)
      | apply succeeds_ret]. }
  run_succeeding Hbegin s1 Hs1 s2 Hs2. reduce_branches.
  unfold bind at 1. unfold gets at 1. cbv beta iota zeta. unfold id. unfold bind at 1.
  rewrite (run_query_accepting accepting _ false s2).
  assert (afsql_dd_build_insert_command s2 msg
            (if has_flag (flags s) AFSQL_DDF_DONT_CREATE_TABLES
             then log_template_format (table s) msg LTZ_LOCAL 0
             else snd (afsql_dd_check_sql_identifier
                         (log_template_format (table s) msg LTZ_LOCAL 0) true))
          = insert_command_at self0 seq msg) as ->.
  { destruct Hs as (_ & _ & _ & _ & Hcfg & Hseq).
    destruct Hs2 as (_ & _ & _ & _ & Hcfg2 & Hseq2).
    unfold insert_command_at, insert_command_of.
    unfold same_configuration in Hcfg, Hcfg2.
    destruct Hcfg as (_ & _ & _ & _ & Htable & Hfields & Hnull & _ & _ & _ & Hflags & _).
    destruct Hcfg2 as (_ & _ & _ & _ & _ & Hfields2 & Hnull2 & _).
    cbn [table flags set_seq_num]. rewrite Htable, Hflags.
    apply build_insert_command_ext; cbn [fields null_value seq_num set_seq_num];
      congruence. }
  apply (insert_db_after_insert_delivers msg _
           (accepted_since_outcome (trace s2)) seq items acks dropped).
  - delivery_assignment.
  - reflexivity.
Qed.

(** One call of [afsql_dd_insert_db] inserts and acknowledges the message at
    the head of the queue. *)
Lemma insert_db_delivers (msg : LogMessage) (seq : Z) (items : list LogMessage)
    (acks : list (LogMessage * list string)) (dropped : nat) (s : AFSqlDestDriver) :
  delivered self0 seq (msg :: items) acks dropped s ->
  exists (s' : AFSqlDestDriver) (accepted : list string),
    afsql_dd_insert_db s = (true, s')
    /\ delivered self0 (step_sequence_number seq) items ((msg, accepted) :: acks)
         dropped s'
    /\ inserted_before_ack (insert_command_at self0 seq msg) accepted.
Proof.
  intros Hs. unfold afsql_dd_insert_db. unfold bind at 1.
  run_succeeding (ensure_initialized_connection_delivers accepting self0 seq
                    (msg :: items) acks dropped) s Hs s1 Hs1.
  reduce_branches. cbv [bind gets modify emit]. cbv beta iota zeta.
  destruct Hs1 as (Hitems & Hdriver & Hacked & Hdrops & Hcfg & Hseq).
  unfold log_queue_pop_head. rewrite Hitems. simpl fst. cbv beta iota zeta.
  apply insert_db_message_delivers.
  split; [reflexivity|]. split; [exact Hdriver|]. split; [exact Hacked|].
  split; [exact Hdrops|]. split; [exact Hcfg | exact Hseq].
Qed.

Lemma database_thread_round_delivers (msg : LogMessage) (seq : Z)
    (items : list LogMessage) (acks : list (LogMessage * list string)) (dropped : nat)
    (s : AFSqlDestDriver) :
  delivered self0 seq (msg :: items) acks dropped s ->
  exists (s' : AFSqlDestDriver) (accepted : list string),
    database_thread_round s = (tt, s')
    /\ delivered self0 (step_sequence_number seq) items ((msg, accepted) :: acks)
         dropped s'
    /\ inserted_before_ack (insert_command_at self0 seq msg) accepted.
Proof.
  intros Hs.
  assert (forall s0 : AFSqlDestDriver,
             delivered self0 seq (msg :: items) acks dropped s0 ->
             exists (s' : AFSqlDestDriver) (accepted : list string),
               insert_or_suspend s0 = (tt, s')
               /\ delivered self0 (step_sequence_number seq) items
                    ((msg, accepted) :: acks) dropped s'
               /\ inserted_before_ack (insert_command_at self0 seq msg) accepted)
    as Hinsert.
  { intros s0 Hs0. unfold insert_or_suspend. unfold bind at 1.
    destruct (insert_db_delivers msg seq items acks dropped s0 Hs0)
      as (s1 & accepted & -> & Hs1 & Hinserted).
    reduce_branches. exists s1, accepted. tauto. }
  unfold database_thread_round. unfold bind at 1. unfold gets at 1.
  cbv beta iota zeta.
  destruct (db_thread_suspended s).
  - unfold bind at 1. unfold modify at 1. cbv beta iota zeta.
    apply Hinsert. delivery_assignment.
  - unfold bind at 1. unfold gets at 1. cbv beta iota zeta.
    unfold log_queue_has_items. rewrite (proj1 Hs). reduce_branches.
    now apply Hinsert.
Qed.

Lemma each_inserted_app (seq : Z) (msgs : list LogMessage) (msg : LogMessage)
    (acks : list (LogMessage * list string)) (accepted : list string) :
  each_inserted self0 seq msgs acks ->
  inserted_before_ack
    (insert_command_at self0 (Nat.iter (length msgs) step_sequence_number seq) msg)
    accepted ->
  each_inserted self0 seq (msgs ++ [msg]) (acks ++ [(msg, accepted)]).
Proof.
  revert seq acks; induction msgs as [|m msgs IH]; intros seq [|[acked a] acks];
    simpl; try contradiction.
  - intros _ Hlast. tauto.
  - intros (Hm & Ha & Hrest) Hlast. split; [exact Hm|]. split; [exact Ha|].
    apply IH; [exact Hrest|]. now rewrite <- Nat.iter_succ_r.
Qed.

Lemma database_thread_rounds_delivers (msgs : list LogMessage) :
  forall (seq : Z) (items : list LogMessage) (acks : list (LogMessage * list string))
         (dropped : nat) (s : AFSqlDestDriver),
    delivered self0 seq (msgs ++ items) acks dropped s ->
    exists (s' : AFSqlDestDriver) (new : list (LogMessage * list string)),
      database_thread_rounds (length msgs) s = (tt, s')
      /\ delivered self0 (Nat.iter (length msgs) step_sequence_number seq) items
           (rev new ++ acks) dropped s'
      /\ each_inserted self0 seq msgs new.
Proof.
  induction msgs as [|msg msgs IH]; intros seq items acks dropped s Hs.
  - exists s, []. split; [reflexivity|]. split; [exact Hs | exact I].
  - cbn [length database_thread_rounds]. unfold bind.
    destruct (database_thread_round_delivers msg seq (msgs ++ items) acks dropped s Hs)
      as (s1 & accepted & -> & Hs1 & Hinserted).
    destruct (IH _ _ _ _ s1 Hs1) as (s' & new & -> & Hs' & Hnew).
    exists s', ((msg, accepted) :: new). split; [reflexivity|].
    split; [|simpl; tauto].
    rewrite Nat.iter_succ_r. cbn [rev]. rewrite <- app_assoc. exact Hs'.
Qed.

Lemma database_thread_drain_delivers (fuel : nat) :
  forall (msgs : list LogMessage) (seq : Z) (acks : list (LogMessage * list string))
         (dropped : nat) (s : AFSqlDestDriver),
    delivered self0 seq msgs acks dropped s -> (length msgs <= fuel)%nat ->
    exists (s' : AFSqlDestDriver) (new : list (LogMessage * list string)),
      database_thread_drain fuel s = (Some true, s')
      /\ delivered self0 (Nat.iter (length msgs) step_sequence_number seq) []
           (rev new ++ acks) dropped s'
      /\ each_inserted self0 seq msgs new.
Proof.
  induction fuel as [|fuel IH]; intros msgs seq acks dropped s Hs Hfuel.
  - destruct msgs as [|msg msgs]; [|simpl in Hfuel; lia].
    cbn [database_thread_drain]. cbv [bind gets]. unfold log_queue_get_length.
    rewrite (proj1 Hs). simpl. exists s, []. split; [reflexivity|].
    split; [exact Hs | exact I].
  - cbn [database_thread_drain]. unfold bind at 1. unfold gets at 1. cbv beta iota zeta.
    unfold log_queue_get_length. rewrite (proj1 Hs).
    destruct msgs as [|msg msgs].
    { simpl. exists s, []. split; [reflexivity|]. split; [exact Hs | exact I]. }
    change (0 <? length (msg :: msgs))%nat with true. cbv beta iota. unfold bind at 1.
    destruct (insert_db_delivers msg seq msgs acks dropped s Hs)
      as (s1 & accepted & -> & Hs1 & Hinserted).
    reduce_branches.
    destruct (IH msgs _ _ _ s1 Hs1 ltac:(simpl in Hfuel; lia))
      as (s2 & new & -> & Hs2 & Hnew).
    exists s2, ((msg, accepted) :: new). split; [reflexivity|].
    split; [|simpl; tauto].
    cbn [length]. rewrite Nat.iter_succ_r. cbn [rev]. rewrite <- app_assoc. exact Hs2.
Qed.

(** The end of the thread on an empty queue: the open batch is committed and
    the connection is closed. *)
Lemma database_thread_finish_delivers (seq : Z) (items : list LogMessage)
    (acks : list (LogMessage * list string)) (dropped : nat) (s : AFSqlDestDriver) :
  delivered self0 seq items acks dropped s ->
  let s' := snd (database_thread_finish s) in
  delivered self0 seq items acks dropped s' /\ dbi_ctx s' = false
  /\ validated_tables s' = ∅
  /\ (batch_in_bounds s -> flush_lines_queued s' = 0).
Proof.
  intros Hs.
  assert (forall s1 : AFSqlDestDriver,
             delivered self0 seq items acks dropped s1 ->
             let s' := snd (afsql_dd_disconnect s1) in
             delivered self0 seq items acks dropped s' /\ dbi_ctx s' = false
             /\ validated_tables s' = ∅
             /\ flush_lines_queued s' = flush_lines_queued s1) as Hdisconnect.
  { intros s1 Hs1. unfold afsql_dd_disconnect. cbv [bind modify emit]. simpl.
    split; [delivery_assignment | tauto]. }
  assert (exists s_mid : AFSqlDestDriver,
             database_thread_finish s = afsql_dd_disconnect s_mid
             /\ delivered self0 seq items acks dropped s_mid
             /\ (batch_in_bounds s -> flush_lines_queued s_mid = 0))
    as (s_mid & Heq & Hmid & Hqueued).
  { unfold database_thread_finish.
    unfold bind at 1. unfold gets at 1. cbv beta iota zeta. unfold bind at 1.
    destruct (Z.ltb_spec 0 (flush_lines_queued s)) as [Hpos|Hzero].
    - unfold bind at 1.
      destruct (transaction_active s) eqn:Hactive.
      + rewrite (commit_transaction_accepted accepting s Hactive). reduce_branches.
        unfold ret at 1. cbv beta iota zeta.
        eexists. split; [reflexivity|].
        split; [delivery_assignment | intros; reflexivity].
      + rewrite (commit_transaction_closed s Hactive).
        reduce_branches. unfold ret at 1. cbv beta iota zeta.
        eexists. split; [reflexivity|]. split; [exact Hs|].
        intros (_ & Hopen). specialize (Hopen Hpos). congruence.
    - unfold ret at 1. cbv beta iota zeta.
      eexists. split; [reflexivity|]. split; [exact Hs|].
      intros ((Hlow & _) & _). lia. }
  rewrite Heq. destruct (Hdisconnect s_mid Hmid) as (H1 & H2 & H3 & H4).
  cbv zeta. split; [exact H1|]. split; [exact H2|]. split; [exact H3|].
  intros Hin. rewrite H4. exact (Hqueued Hin).
Qed.

End DeliveryRounds.

Section DeliveryTheorems.

Context {build : BuildConfig} {host : Host} {dbi : Dbi}.

Lemma acknowledged_app (a b : list event) :
  acknowledged (a ++ b) = acknowledged a ++ acknowledged b.
Proof.
  induction a as [|e a IH]; [reflexivity|].
  destruct e; simpl; rewrite IH; reflexivity.
Qed.

Lemma acknowledgements_messages (tr : list event) :
  map fst (acknowledgements tr) = acknowledged tr.
Proof.
  induction tr as [|e tr IH]; [reflexivity|].
  destruct e; simpl; rewrite ?IH; reflexivity.
Qed.

Lemma each_inserted_messages (self : AFSqlDestDriver) (seq : Z)
    (msgs : list LogMessage) (acks : list (LogMessage * list string)) :
  each_inserted self seq msgs acks -> map fst acks = msgs.
Proof.
  revert seq acks; induction msgs as [|msg msgs IH]; intros seq [|[acked a] acks];
    simpl; try contradiction; [reflexivity|].
  intros (-> & _ & Hrest). now rewrite (IH _ _ Hrest).
Qed.

(** What [afsql_dd_queue] does to a driver, message after message. *)
Lemma queue_messages (msgs : list LogMessage) (s : AFSqlDestDriver) :
  let queued := fold_left (fun s msg => afsql_dd_queue msg s) msgs s in
  q_items (queue queued) = q_items (queue s) ++ msgs
  /\ same_configuration s queued /\ trace queued = trace s
  /\ seq_num queued = seq_num s /\ dropped_messages queued = dropped_messages s.
Proof.
  revert s; induction msgs as [|msg msgs IH]; intros s; simpl.
  - rewrite app_nil_r. split; [reflexivity|]. split; [apply same_configuration_refl|].
    tauto.
  - destruct (IH (afsql_dd_queue msg s)) as (Hitems & Hcfg & Htrace & Hseq & Hdropped).
    rewrite Hitems, Htrace, Hseq, Hdropped. simpl. rewrite <- app_assoc.
    split; [reflexivity|]. split; [exact Hcfg | tauto].
Qed.

(** X16.  Delivery in order: when the database accepts every statement, the
    messages that waited in the queue and those that [afsql_dd_queue] added
    behind them are inserted and acknowledged one per round of the database
    thread, in the order in which they arrived: each acknowledgement comes
    after the database has accepted the INSERT of that message, built with
    the sequence number of the message, with nothing accepted in between but
    the COMMIT of the batch that the message fills.  No message is dropped,
    the sequence number is stepped once per message, and the messages that
    have not had their round are still waiting. *)
Theorem messages_delivered_in_order (self : AFSqlDestDriver)
    (msgs first rest : list LogMessage) :
  accepting_database -> dbi_conn_new_r (type self) = true ->
  q_items (queue self) ++ msgs = first ++ rest ->
  let queued := fold_left (fun s msg => afsql_dd_queue msg s) msgs self in
  let s := snd (database_thread_rounds (length first) queued) in
  q_items (queue s) = rest
  /\ acknowledged (trace s) = rev first ++ acknowledged (trace self)
  /\ drops (trace s) = drops (trace self)
  /\ seq_num s = Nat.iter (length first) step_sequence_number (seq_num self)
  /\ dropped_messages s = dropped_messages self
  /\ exists new : list (LogMessage * list string),
       acknowledgements (trace s) = rev new ++ acknowledgements (trace self)
       /\ each_inserted self (seq_num self) first new.
Proof.
  intros Haccepting Hdriver Hsplit queued s.
  destruct (queue_messages msgs self) as (Hitems & Hcfg & Htrace & Hseq & Hdropped).
  fold queued in Hitems, Hcfg, Htrace, Hseq, Hdropped.
  assert (delivered self (seq_num self) (first ++ rest) (acknowledgements (trace self))
            (drops (trace self)) queued) as Hqueued.
  { unfold delivered. rewrite Hitems, Htrace, Hsplit, Hseq.
    assert (type queued = type self) as -> by (unfold same_configuration in Hcfg; tauto).
    tauto. }
  destruct (database_thread_rounds_delivers Haccepting self first _ rest _ _ queued
              Hqueued)
    as (s' & new & Hrounds & (Hrest & _ & Hacks & Hdrops & _ & Hseq') & Hnew).
  assert (s = s') as <- by (subst s; now rewrite Hrounds).
  split; [exact Hrest|]. split.
  { rewrite <- !acknowledgements_messages, Hacks, map_app, map_rev.
    now rewrite (each_inserted_messages _ _ _ _ Hnew). }
  split; [exact Hdrops|]. split; [exact Hseq'|]. split.
  { destruct (database_thread_rounds_books _
                (counters_follow_stable (trace queued) (seq_num queued)
                   (dropped_messages queued))
                (counters_follow_out (trace queued) (seq_num queued)
                   (dropped_messages queued))
                (length first) queued) as (new' & Hnew' & _ & Hdropped').
    { exists []. simpl. repeat split. lia. }
    fold s in Hnew', Hdropped'.
    rewrite Hnew', Htrace, drops_app in Hdrops.
    rewrite Hdropped', Hdropped. lia. }
  exists new. split; [exact Hacks | exact Hnew].
Qed.

(** X17.  Shutdown delivers the queue: when the database accepts every
    statement, the end of the database thread inserts and acknowledges every
    message that still waits, in order and without a drop: each
    acknowledgement comes after the database has accepted the INSERT of that
    message, with nothing accepted in between but the COMMIT of the batch
    that the message fills.  It empties the queue and closes the connection;
    no batch is left open when the counter of the transaction was within its
    bounds. *)
Theorem shutdown_delivers_the_queue (self : AFSqlDestDriver) (fuel : nat) :
  accepting_database -> dbi_conn_new_r (type self) = true ->
  (length (q_items (queue self)) <= fuel)%nat ->
  let r := database_thread_exit fuel self in
  fst r = Some tt
  /\ q_items (queue (snd r)) = []
  /\ acknowledged (trace (snd r))
     = rev (q_items (queue self)) ++ acknowledged (trace self)
  /\ drops (trace (snd r)) = drops (trace self)
  /\ dbi_ctx (snd r) = false /\ validated_tables (snd r) = ∅
  /\ (batch_in_bounds self -> flush_lines_queued (snd r) = 0)
  /\ exists new : list (LogMessage * list string),
       acknowledgements (trace (snd r)) = rev new ++ acknowledgements (trace self)
       /\ each_inserted self (seq_num self) (q_items (queue self)) new.
Proof.
  intros Haccepting Hdriver Hfuel r.
  assert (delivered self (seq_num self) (q_items (queue self))
            (acknowledgements (trace self)) (drops (trace self)) self) as Hself.
  { unfold delivered. split; [reflexivity|]. split; [exact Hdriver|].
    split; [reflexivity|]. split; [reflexivity|].
    split; [apply same_configuration_refl | reflexivity]. }
  pose proof (database_thread_drain_batch fuel self) as Hbatch.
  destruct (database_thread_drain_delivers Haccepting self fuel _ _ _ _ self Hself Hfuel)
    as (s1 & new & Heq & Hs1 & Hnew).
  rewrite Heq in Hbatch. simpl in Hbatch.
  assert (r = (Some tt, snd (database_thread_finish s1))) as ->.
  { subst r. unfold database_thread_exit. unfold bind at 1. rewrite Heq.
    cbv beta iota zeta. unfold bind, ret.
    destruct (database_thread_finish s1) as [u s2]. reflexivity. }
  destruct (database_thread_finish_delivers Haccepting self _ _ _ _ s1 Hs1)
    as ((Hitems & _ & Hacks & Hdrops & _) & Hctx & Hvalidated & Hqueued).
  simpl fst. simpl snd.
  split; [reflexivity|]. split; [exact Hitems|]. split.
  { rewrite <- !acknowledgements_messages, Hacks, map_app, map_rev.
    now rewrite (each_inserted_messages _ _ _ _ Hnew). }
  split; [exact Hdrops|]. split; [exact Hctx|]. split; [exact Hvalidated|].
  split; [intros Hin; exact (Hqueued (Hbatch Hin))|].
  exists new. split; [exact Hacks | exact Hnew].
Qed.

End DeliveryTheorems.

(** ** Names, the persisted sequence number and the start *)

Section NameFacts.

Context {build : BuildConfig} {host : Host} {persist : Persist}.

Lemma string_take_all (n : nat) (s : string) :
  (String.length s <= n)%nat -> string_take n s = s.
Proof.
  revert s; induction n as [|n IH]; intros [|c s]; simpl; try reflexivity; try lia.
  intros H. rewrite IH; [reflexivity | lia].
Qed.

Lemma string_take_bound (n : nat) (s : string) : (String.length (string_take n s) <= n)%nat.
Proof.
  revert s; induction n as [|n IH]; intros [|c s]; simpl; try lia.
  specialize (IH s). lia.
Qed.

Lemma append_inv_head (a b c : string) : a +:+ b = a +:+ c -> b = c.
Proof.
  induction a as [|x a IH]; [trivial|].
  intros H. apply IH.
  change (String x (a +:+ b) = String x (a +:+ c)) in H. now injection H.
Qed.

Lemma append_inv_last (a b : string) (x : ascii) :
  a +:+ String x "" = b +:+ String x "" -> a = b.
Proof.
  revert b; induction a as [|y a IH]; intros [|z b] H.
  - reflexivity.
  - change (String x "" = String z (b +:+ String x "")) in H.
    injection H as _ H. destruct b; discriminate.
  - change (String y (a +:+ String x "") = String x "") in H.
    injection H as _ H. destruct a; discriminate.
  - change (String y (a +:+ String x "") = String z (b +:+ String x "")) in H.
    injection H as -> H. now rewrite (IH b H).
Qed.

Lemma persist_text_length (prefix : string) (self : AFSqlDestDriver)
    (o : AFSqlDestOptions) :
  String.length
    (prefix +:+ destination_text self o +:+ "," +:+ o_table_template o +:+ ")")
  = (String.length prefix + destination_length self o + 5)%nat.
Proof.
  unfold destination_text, destination_length. rewrite !length_append. simpl. lia.
Qed.

(** X18.  The names under which a destination keeps its queue, its sequence
    number and its statistics: each fits its buffer (255, 255 and 63
    characters); none depends on the user or the password; and as long as
    the five parts are short enough to fit, two destinations of the same
    type, host, port and database have the same queue name, or the same name
    of the sequence number, only if they have the same table template. *)
Theorem persist_names (state : persist_state) (self : AFSqlDestDriver)
    (o o' : AFSqlDestOptions) :
  ((String.length (afsql_dd_format_stats_instance self o) <= 63)%nat
   /\ (String.length (afsql_dd_format_persist_sequence_number self o) <= 255)%nat
   /\ (String.length (fst (afsql_dd_format_persist_name state self o)) <= 255)%nat)
  /\ (forall user password : string,
        let o2 := afsql_dd_set_password password (afsql_dd_set_user user o) in
        afsql_dd_format_stats_instance self o2 = afsql_dd_format_stats_instance self o
        /\ afsql_dd_format_persist_sequence_number self o2
           = afsql_dd_format_persist_sequence_number self o
        /\ fst (afsql_dd_format_persist_name state self o2)
           = fst (afsql_dd_format_persist_name state self o))
  /\ (o_host o' = o_host o -> o_port o' = o_port o -> o_database o' = o_database o ->
      (destination_length self o <= 225)%nat -> (destination_length self o' <= 225)%nat ->
      (fst (afsql_dd_format_persist_name state self o')
       = fst (afsql_dd_format_persist_name state self o)
       \/ afsql_dd_format_persist_sequence_number self o'
          = afsql_dd_format_persist_sequence_number self o) ->
      o_table_template o' = o_table_template o).
Proof.
  split; [|split].
  - unfold afsql_dd_format_stats_instance, afsql_dd_format_persist_sequence_number,
      afsql_dd_format_persist_name, g_snprintf. cbn [fst].
    split; [exact (string_take_bound (64 - 1) _)|].
    split; exact (string_take_bound (256 - 1) _).
  - intros user password o2. repeat split.
  - intros Hhost Hport Hdatabase Hfits Hfits' Hsame.
    assert (destination_text self o' = destination_text self o) as Htext.
    { unfold destination_text. now rewrite Hhost, Hport, Hdatabase. }
    unfold afsql_dd_format_persist_name, afsql_dd_format_persist_sequence_number,
      g_snprintf in Hsame. cbn [fst] in Hsame.
    rewrite !string_take_all in Hsame
      by (rewrite persist_text_length; simpl String.length; lia).
    rewrite Htext in Hsame.
    destruct Hsame as [Hsame|Hsame];
      apply append_inv_head, append_inv_head, append_inv_head in Hsame;
      exact (append_inv_last _ _ _ Hsame).
Qed.

(** The sequence number with which [afsql_dd_init] starts a driver. *)
Lemma init_seq_num (env : InitEnv) (self0 self : AFSqlDestDriver) :
  afsql_dd_init env self0 = InitStarted self ->
  seq_num self
  = (if Z.eqb (persisted_seq_num env) 0 then init_sequence_number
     else persisted_seq_num env).
Proof.
  unfold afsql_dd_init.
  destruct (server_mode env); simpl negb; cbv iota; [|discriminate].
  destruct (log_dest_driver_init_method env); simpl negb; cbv iota; [|discriminate].
  destruct (columns self0) as [|c0 cs]; [discriminate|].
  destruct (indexes self0) as [|i0 idx]; [discriminate|].
  destruct (values self0) as [|v0 vs]; [discriminate|].
  destruct (acquired_queue env) as [q|]; [|discriminate].
  cbv zeta.
  match goal with
  | |- match ?built with _ => _ end = _ -> _ => destruct built as [fs| |]
  end; try discriminate.
  match goal with
  | |- (if ?failed then _ else _) = _ -> _ => destruct failed
  end; [discriminate|].
  intros H; injection H as <-.
  repeat match goal with
         | |- context [if ?b then _ else _] =>
             lazymatch b with
             | Z.eqb (persisted_seq_num env) 0 => fail
             | _ => destruct b
             end
         end; reflexivity.
Qed.

(** X19.  The sequence number outlives a reload: when the persistent
    configuration gives back under a name the number that was stored under
    it, a driver that [afsql_dd_init] starts after [afsql_dd_deinit] has
    stopped one of the same type, host, port, database and table continues
    with the sequence number of the stopped one; it starts afresh, with
    [init_sequence_number], only when that number was 0. *)
Theorem seq_num_outlives_reload (cfg : persist_config) (deinit_method : bool)
    (stopped self0 started : AFSqlDestDriver) (o : AFSqlDestOptions) (env : InitEnv) :
  (forall (c : persist_config) (name : string) (n : Z),
      cfg_persist_config_fetch (cfg_persist_config_add c name n) name = n) ->
  type self0 = type stopped ->
  afsql_dd_init
    (init_environment (snd (afsql_dd_deinit cfg deinit_method stopped o)) self0 o env)
    self0
  = InitStarted started ->
  seq_num started
  = (if Z.eqb (seq_num stopped) 0 then init_sequence_number else seq_num stopped).
Proof.
  intros Hstore Htype Hinit. apply init_seq_num in Hinit. rewrite Hinit.
  unfold init_environment, afsql_dd_deinit. simpl.
  assert (afsql_dd_format_persist_sequence_number self0 o
          = afsql_dd_format_persist_sequence_number stopped o) as ->.
  { unfold afsql_dd_format_persist_sequence_number, destination_text. now rewrite Htype. }
  now rewrite Hstore.
Qed.

Lemma check_sql_identifier_in_grammar (name : string) :
  fst (afsql_dd_check_sql_identifier name false) = true <-> identifier_in_grammar name.
Proof.
  unfold afsql_dd_check_sql_identifier, identifier_in_grammar.
  exact (check_from_accepts name 0).
Qed.

(** The field loop of [afsql_dd_init] comes to its end exactly when every
    column is named by an identifier and every code among the values is the
    default marker. *)
Lemma init_fields_built_iff (cols : list string) (vals : list AFSqlValue) :
  length cols = length vals ->
  (exists fs : list AFSqlField, init_fields cols vals = FieldsBuilt fs) <->
  Forall (fun col => identifier_in_grammar (fst (column_name_and_type col))) cols
  /\ Forall value_is_known vals.
Proof.
  revert vals; induction cols as [|col cols IH]; intros [|value vals] Hlen;
    try discriminate.
  - simpl. split; [intros _; split; constructor | intros _; now exists []].
  - injection Hlen as Hlen. specialize (IH vals Hlen). simpl init_fields.
    destruct (column_name_and_type col) as [name type0] eqn:Hcol. simpl fst.
    pose proof (check_sql_identifier_in_grammar name) as Hname.
    destruct (fst (afsql_dd_check_sql_identifier name false)); simpl negb; cbv iota.
    2:{ split; [intros [fs H]; discriminate|].
        intros [Hcols _]. inversion Hcols as [|? ? Hc _]; subst.
        rewrite Hcol in Hc. simpl in Hc. apply Hname in Hc. discriminate. }
    assert (identifier_in_grammar name) as Hgood by (now apply Hname).
    assert (Forall (fun col => identifier_in_grammar (fst (column_name_and_type col)))
              (col :: cols)
            <-> Forall (fun col => identifier_in_grammar (fst (column_name_and_type col)))
                  cols) as Hcols.
    { split; [intros H; now inversion H|].
      intros H. constructor; [now rewrite Hcol | exact H]. }
    rewrite Hcols. clear Hcols.
    destruct value as [template|code].
    + destruct (init_fields cols vals) as [fs| |].
      * split; [intros _|intros _; eexists; reflexivity].
        destruct (proj1 IH ltac:(now exists fs)) as [H1 H2].
        split; [exact H1 | constructor; [exact I | exact H2]].
      * split; [intros [fs H]; discriminate|].
        intros [H1 H2]. inversion H2; subst. apply (proj2 IH). now split.
      * split; [intros [fs H]; discriminate|].
        intros [H1 H2]. inversion H2; subst. apply (proj2 IH). now split.
    + destruct (Z.eqb_spec code AFSQL_COLUMN_DEFAULT) as [Hcode|Hcode].
      * destruct (init_fields cols vals) as [fs| |].
        -- split; [intros _|intros _; eexists; reflexivity].
           destruct (proj1 IH ltac:(now exists fs)) as [H1 H2].
           split; [exact H1 | constructor; [exact Hcode | exact H2]].
        -- split; [intros [fs H]; discriminate|].
           intros [H1 H2]. inversion H2; subst. apply (proj2 IH). now split.
        -- split; [intros [fs H]; discriminate|].
           intros [H1 H2]. inversion H2; subst. apply (proj2 IH). now split.
      * split; [intros [fs H]; discriminate|].
        intros [_ H2]. inversion H2 as [|? ? Hv _]; subst. simpl in Hv. contradiction.
Qed.

(** X20.  When [afsql_dd_init] starts a configured driver: exactly when the
    process runs in server mode, the host's part of the initialization
    succeeds, columns, values and indexes have been given, the host hands
    over a queue, there are as many columns as values, every column is named
    by an SQL identifier, every code among the values is the default marker,
    and the driver library is or can be initialized.  In every other case the
    database thread is not started. *)
Theorem init_starts_exactly_when (env : InitEnv) (calls : list setter_call) :
  (exists started : AFSqlDestDriver,
      afsql_dd_init env (configured calls) = InitStarted started)
  <-> server_mode env = true /\ log_dest_driver_init_method env = true
      /\ columns (configured calls) <> [] /\ indexes (configured calls) <> []
      /\ values (configured calls) <> []
      /\ acquired_queue env <> None
      /\ length (columns (configured calls)) = length (values (configured calls))
      /\ Forall (fun col => identifier_in_grammar (fst (column_name_and_type col)))
           (columns (configured calls))
      /\ Forall value_is_known (values (configured calls))
      /\ (dbi_initialized env = true \/ 0 < dbi_initialize_r env).
Proof.
  destruct (configured_unstarted calls) as (_ & Hfields & _).
  generalize dependent (configured calls). intros self Hfields.
  unfold afsql_dd_init.
  destruct (server_mode env); simpl negb; cbv iota;
    [|split; [intros [? H]; discriminate | intros (H & _); discriminate]].
  destruct (log_dest_driver_init_method env); simpl negb; cbv iota;
    [|split; [intros [? H]; discriminate | intros (_ & H & _); discriminate]].
  destruct (columns self) as [|c0 cs] eqn:Hcols;
    [split; [intros [? H]; discriminate | intros (_ & _ & H & _); congruence]|].
  destruct (indexes self) as [|i0 idx] eqn:Hidx;
    [split; [intros [? H]; discriminate | intros (_ & _ & _ & H & _); congruence]|].
  destruct (values self) as [|v0 vs] eqn:Hvals;
    [split; [intros [? H]; discriminate | intros (_ & _ & _ & _ & H & _); congruence]|].
  destruct (acquired_queue env) as [q|];
    [|split; [intros [? H]; discriminate | intros (_ & _ & _ & _ & _ & H & _); congruence]].
  cbv zeta. simpl fields. rewrite Hfields. simpl columns. simpl values.
  rewrite Hcols, Hvals.
  destruct (Nat.eqb_spec (length (c0 :: cs)) (length (v0 :: vs))) as [Hlen|Hlen];
    simpl negb; cbv iota.
  2:{ split; [intros [? H]; discriminate|].
      intros (_ & _ & _ & _ & _ & _ & H & _). contradiction. }
  pose proof (init_fields_built_iff (c0 :: cs) (v0 :: vs) Hlen) as Hbuilt.
  destruct (init_fields (c0 :: cs) (v0 :: vs)) as [fs| |].
  - assert (negb (dbi_initialized env) && (dbi_initialize_r env <=? 0) = false
            <-> dbi_initialized env = true \/ 0 < dbi_initialize_r env) as Hdbi.
    { destruct (dbi_initialized env); simpl; [split; [now left | reflexivity]|].
      destruct (Z.leb_spec (dbi_initialize_r env) 0); split; try discriminate;
        try (intros [?|?]; (discriminate || lia)); try reflexivity.
      intros _. right. lia. }
    destruct (proj1 Hbuilt ltac:(now exists fs)) as [H1 H2].
    destruct (negb (dbi_initialized env) && (dbi_initialize_r env <=? 0)).
    + split; [intros [? H]; discriminate|].
      intros (_ & _ & _ & _ & _ & _ & _ & _ & _ & H). apply Hdbi in H. discriminate.
    + split; [intros _|intros _; eexists; reflexivity].
      repeat split; try discriminate; try assumption. now apply Hdbi.
  - split; [intros [? H]; discriminate|].
    intros (_ & _ & _ & _ & _ & _ & _ & H1 & H2 & _).
    destruct (proj2 Hbuilt (conj H1 H2)) as [fs H]. discriminate.
  - split; [intros [? H]; discriminate|].
    intros (_ & _ & _ & _ & _ & _ & _ & H1 & H2 & _).
    destruct (proj2 Hbuilt (conj H1 H2)) as [fs H]. discriminate.
Qed.

End NameFacts.

(** ** A database that is out of reach *)

Section OutageFacts.

Context {build : BuildConfig} {host : Host} {dbi : Dbi}.

Lemma waiting_since_refl (self : AFSqlDestDriver) :
  dbi_ctx self = false -> waiting_since self 0 self.
Proof.
  intros Hctx. unfold waiting_since.
  split; [apply same_configuration_refl|].
  do 6 (split; [reflexivity|]). split; [exact Hctx|].
  exists []. repeat split.
Qed.

(** A failed attempt to connect, followed by the disconnect and the
    suspension. *)
Lemma insert_or_suspend_unreachable (self s : AFSqlDestDriver) (n : nat) :
  unreachable_database self -> waiting_since self n s ->
  waiting_since self (S n) (snd (insert_or_suspend s))
  /\ db_thread_suspended (snd (insert_or_suspend s)) = true.
Proof.
  intros Hdown (Hcfg & Hqueue & Hseq & Hdropped & Hfailed & Hqueued & Hactive & Hctx
                & new & Htr & Hattempts & Hsent & Hpops).
  assert (type s = type self) as Htype by (unfold same_configuration in Hcfg; tauto).
  unfold insert_or_suspend, afsql_dd_insert_db, afsql_dd_ensure_initialized_connection,
    afsql_dd_disconnect, afsql_dd_suspend.
  cbv [bind gets ret modify emit]. rewrite Hctx. cbv beta iota.
  destruct (dbi_conn_new_r (type s)) eqn:Hnew; reduce_control.
  - destruct Hdown as [Hdriver|Hconnect]; [congruence|].
    rewrite Hconnect. reduce_control. simpl.
    split; [|reflexivity].
    unfold waiting_since. do 7 (split; [assumption|]). split; [reflexivity|].
    exists (EvClose :: EvConnect false :: EvConnNew (type s) true :: new).
    simpl. rewrite Htr, Hattempts, Hsent, Hpops. repeat split.
  - simpl. split; [|reflexivity].
    unfold waiting_since. do 7 (split; [assumption|]). split; [reflexivity|].
    exists (EvClose :: EvConnNew (type s) false :: new).
    simpl. rewrite Htr, Hattempts, Hsent, Hpops. repeat split.
Qed.

Lemma waiting_since_resumed (self s : AFSqlDestDriver) (n : nat) :
  waiting_since self n s -> waiting_since self n (set_db_thread_suspended false s).
Proof. intros H. exact H. Qed.

Lemma database_thread_round_unreachable (self s : AFSqlDestDriver) (n : nat) :
  unreachable_database self -> flush_lines_queued self <= 0 -> waiting_since self n s ->
  waiting_since self (S n) (snd (database_thread_round s))
  /\ db_thread_suspended (snd (database_thread_round s)) = true.
Proof.
  intros Hdown Hidle Hs.
  assert (flush_lines_queued s = flush_lines_queued self) as Hqueued
    by (unfold waiting_since in Hs; tauto).
  unfold database_thread_round. cbv [bind gets modify].
  destruct (db_thread_suspended s).
  - exact (insert_or_suspend_unreachable self _ n Hdown (waiting_since_resumed self s n Hs)).
  - destruct (log_queue_has_items (queue s)); reduce_control;
      [exact (insert_or_suspend_unreachable self s n Hdown Hs)|].
    rewrite Hqueued. rewrite (proj2 (Z.ltb_ge 0 (flush_lines_queued self)) Hidle).
    exact (insert_or_suspend_unreachable self s n Hdown Hs).
Qed.

Lemma database_thread_rounds_unreachable (self : AFSqlDestDriver) (n : nat) :
  unreachable_database self -> flush_lines_queued self <= 0 ->
  forall (s : AFSqlDestDriver) (k : nat),
    waiting_since self k s ->
    waiting_since self (n + k) (snd (database_thread_rounds n s))
    /\ ((0 < n)%nat -> db_thread_suspended (snd (database_thread_rounds n s)) = true).
Proof.
  intros Hdown Hidle. induction n as [|n IH]; intros s k Hs.
  - simpl. split; [exact Hs | lia].
  - destruct (database_thread_round_unreachable self s k Hdown Hidle Hs)
      as [Hround Hsuspended].
    cbn [database_thread_rounds]. unfold bind.
    destruct (database_thread_round s) as [u s1]. cbn [snd] in Hround, Hsuspended.
    destruct (IH _ _ Hround) as [Hrounds Hlater].
    replace (S n + k)%nat with (n + S k)%nat by lia.
    split; [exact Hrounds|]. intros _.
    destruct n as [|n]; [exact Hsuspended | apply Hlater; lia].
Qed.

(** X21.  While the database is out of reach nothing is lost and nothing is
    taken from the queue: in a driver without a connection and without rows
    counted in a transaction, each round of the thread tries once to connect,
    sends no statement, asks the queue for no message and suspends itself;
    the queue, the sequence number and the counters of the driver stay as
    they were. *)
Theorem unreachable_database_keeps_the_queue (self : AFSqlDestDriver) (n : nat) :
  unreachable_database self -> dbi_ctx self = false -> flush_lines_queued self <= 0 ->
  let s := snd (database_thread_rounds n self) in
  queue s = queue self /\ seq_num s = seq_num self
  /\ dropped_messages s = dropped_messages self
  /\ failed_message_counter s = failed_message_counter self
  /\ dbi_ctx s = false
  /\ ((0 < n)%nat -> db_thread_suspended s = true)
  /\ exists new : list event,
       trace s = new ++ trace self
       /\ connection_attempts new = n /\ statements_sent new = [] /\ pops new = 0%nat.
Proof.
  intros Hdown Hctx Hidle s.
  destruct (database_thread_rounds_unreachable self n Hdown Hidle self 0%nat
              (waiting_since_refl self Hctx))
    as ((_ & Hqueue & Hseq & Hdropped & Hfailed & _ & _ & Hclosed & new & Hnew) & Hlater).
  fold s in Hqueue, Hseq, Hdropped, Hfailed, Hclosed, Hnew, Hlater.
  rewrite Nat.add_0_r in Hnew.
  do 5 (split; [assumption|]). split; [exact Hlater|]. exists new. exact Hnew.
Qed.

Lemma connection_lost_later (tr0 : list event) (e : event) :
  connection_lost_after tr0 -> connection_lost_after (e :: tr0).
Proof.
  intros Hlost new. specialize (Hlost (new ++ [e])).
  rewrite <- app_assoc in Hlost. exact Hlost.
Qed.

Lemma run_query_lost (query : string) (silent : bool) (s : AFSqlDestDriver) :
  connection_lost_after (trace s) ->
  afsql_dd_run_query query silent s = (false, set_trace (EvQuery query false :: trace s) s).
Proof.
  intros Hlost. destruct (Hlost []) as (Hquery & _). simpl in Hquery.
  run_monad. now rewrite Hquery.
Qed.

(** The error handling when the connection is lost, entered from a state
    [s4] that differs from [s] by its history and the state of the
    transaction. *)
Lemma insert_db_out_lost (msg : LogMessage) (s s4 : AFSqlDestDriver) :
  connection_lost_after (trace s4) -> 1 <= num_retries s < 2 ^ 31 ->
  failed_message_counter s < num_retries s - 1 ->
  same_configuration s s4 -> queue s4 = queue s ->
  flush_lines_queued s4 = flush_lines_queued s ->
  failed_message_counter s4 = failed_message_counter s ->
  seq_num s4 = seq_num s -> dropped_messages s4 = dropped_messages s ->
  acknowledged (trace s4) = acknowledged (trace s) ->
  drops (trace s4) = drops (trace s) ->
  fst (insert_db_out msg false s4) = false
  /\ put_back msg s (snd (insert_db_out msg false s4)).
Proof.
  intros Hlost Hretries Hcount Hcfg Hqueue Hqueued Hfailed Hseq Hdropped Hacked Hdrops.
  destruct (Hlost []) as (_ & Hping). simpl in Hping.
  assert (num_retries s4 = num_retries s /\ flags s4 = flags s) as [Hnum Hflags]
    by (unfold same_configuration in Hcfg; tauto).
  unfold insert_db_out,
    afsql_dd_handle_insert_row_error_depending_on_connection_availability,
    afsql_dd_handle_transaction_error, put_back.
  cbv [bind gets ret modify emit].
  rewrite Hnum, Hfailed, to_guint32_small by lia.
  rewrite (proj2 (Z.ltb_lt _ _) Hcount), Hping. reduce_control.
  assert (afsql_dd_is_transaction_handling_enabled
            (set_trace (EvPing false :: trace s4) s4)
          = afsql_dd_is_transaction_handling_enabled s) as ->.
  { unfold afsql_dd_is_transaction_handling_enabled. simpl. now rewrite Hqueued. }
  destruct (afsql_dd_is_transaction_handling_enabled s); reduce_control.
  - simpl. rewrite Hqueue. repeat split; assumption.
  - rewrite rollback_msg_outcome. reduce_control. simpl. rewrite Hflags.
    destruct (has_flag (flags s) AFSQL_DDF_EXPLICIT_COMMITS); simpl;
      rewrite Hqueue; repeat split; assumption.
Qed.

Lemma insert_db_message_lost (msg : LogMessage) (s : AFSqlDestDriver) :
  connection_lost_after (trace s) ->
  has_flag (flags s) AFSQL_DDF_DONT_CREATE_TABLES = true ->
  1 <= num_retries s < 2 ^ 31 ->
  failed_message_counter s < num_retries s - 1 ->
  fst (insert_db_message msg s) = false
  /\ put_back msg s (snd (insert_db_message msg s)).
Proof.
  intros Hlost Hflag Hretries Hcount.
  assert (forall s4 : AFSqlDestDriver,
             connection_lost_after (trace s4) ->
             same_configuration s s4 -> queue s4 = queue s ->
             flush_lines_queued s4 = flush_lines_queued s ->
             failed_message_counter s4 = failed_message_counter s ->
             seq_num s4 = seq_num s -> dropped_messages s4 = dropped_messages s ->
             acknowledged (trace s4) = acknowledged (trace s) ->
             drops (trace s4) = drops (trace s) ->
             fst (insert_db_out msg false s4) = false
             /\ put_back msg s (snd (insert_db_out msg false s4))) as Hout.
  { intros s4 Hlost4. apply insert_db_out_lost; assumption. }
  unfold insert_db_message, afsql_dd_ensure_accessible_database_table.
  cbv [bind gets ret].
  rewrite (proj1 (validate_table_skipped s _) Hflag). reduce_control.
  unfold insert_db_after_insert, afsql_dd_begin_transaction.
  cbv [bind gets ret modify id].
  destruct (afsql_dd_should_begin_new_transaction s); reduce_control.
  - destruct (String.eqb (type s) s_oracle); reduce_control.
    + match goal with
      | |- context [afsql_dd_run_query ?q false ?st] =>
          rewrite (run_query_lost q false st Hlost)
      end.
      reduce_control.
      apply Hout; try reflexivity.
      * now apply connection_lost_later.
      * unfold same_configuration. repeat split.
    + match goal with
      | |- context [afsql_dd_run_query ?q false ?st] =>
          rewrite (run_query_lost q false st Hlost)
      end.
      reduce_control.
      apply Hout; try reflexivity.
      * now apply connection_lost_later.
      * unfold same_configuration. repeat split.
  - match goal with
      | |- context [afsql_dd_run_query ?q false ?st] =>
          rewrite (run_query_lost q false st Hlost)
      end.
      reduce_control.
    apply Hout; try reflexivity.
    + now apply connection_lost_later.
    + unfold same_configuration. repeat split.
Qed.

Lemma pop_head_of (q : LogQueue) (msg : LogMessage) (rest : list LogMessage) :
  q_items q = msg :: rest ->
  log_queue_pop_head q
  = (Some msg,
     {| q_items := rest;
        q_backlog := if use_backlog q then q_backlog q ++ [msg] else q_backlog q;
        use_backlog := use_backlog q |}).
Proof. intros H. unfold log_queue_pop_head. now rewrite H. Qed.

(** In a driver that does not create its tables, the states the thread
    reaches keep the configuration, and the transaction handling stays off
    and no transaction is opened when it was so at the start. *)
Lemma thread_reaches_kept (transactions : bool) (self0 s : AFSqlDestDriver) :
  has_flag (flags self0) AFSQL_DDF_DONT_CREATE_TABLES = true ->
  (transactions = false ->
   flush_lines_queued self0 = -1 /\ transaction_active self0 = false) ->
  thread_reaches self0 s ->
  statements_kept (fun _ => True) transactions self0 s.
Proof.
  intros Hflag Hstart Hreaches.
  induction Hreaches as [|s msg _ IH|s _ IH].
  - now apply statements_kept_refl.
  - destruct IH as (Hcfg & Hnew & Hoff).
    split; [|split; [exact Hnew | exact Hoff]].
    unfold same_configuration in *. exact Hcfg.
  - apply database_thread_round_statements;
      solve [exact IH | intros; exact I | intros; split; exact I | intros; congruence].
Qed.

(** In a driver that [afsql_dd_init] has started without table creation, the
    transaction handling is on in no state of the thread unless explicit
    commits are configured. *)
Lemma transaction_handling_is_explicit (calls : list setter_call) (env : InitEnv)
    (self0 s : AFSqlDestDriver) :
  afsql_dd_init env (configured calls) = InitStarted self0 ->
  has_flag (flags self0) AFSQL_DDF_DONT_CREATE_TABLES = true ->
  thread_reaches self0 s ->
  flags s = flags self0 /\ num_retries s = num_retries self0
  /\ 1 <= num_retries self0
  /\ (flush_lines_queued s <> -1 ->
      has_flag (flags self0) AFSQL_DDF_EXPLICIT_COMMITS = true).
Proof.
  intros Hinit Hflag Hreaches.
  destruct (configured_unstarted calls) as (_ & _ & _ & _ & Hretries).
  destruct (init_started env _ _ (configured_unstarted calls) Hinit)
    as (Hflags & Hnum & _ & Hclosed & _ & Hqueued & _).
  destruct (thread_reaches_kept true self0 s Hflag ltac:(discriminate) Hreaches)
    as (Hcfg & _).
  assert (flags s = flags self0 /\ num_retries s = num_retries self0) as [Hf Hn]
    by (unfold same_configuration in Hcfg; tauto).
  split; [exact Hf|]. split; [exact Hn|]. split; [lia|].
  intros Hon. rewrite Hflags.
  destruct (has_flag (flags (configured calls)) AFSQL_DDF_EXPLICIT_COMMITS) eqn:Hexplicit;
    [reflexivity|].
  simpl in Hqueued.
  destruct (thread_reaches_kept false self0 s Hflag ltac:(intros _; tauto) Hreaches)
    as (_ & _ & Hoff).
  destruct (Hoff eq_refl). contradiction.
Qed.

(** X22.  In a driver that does not create its tables, a connection lost
    while a message is inserted loses no message.  Let [afsql_dd_init] have
    started the driver with table creation switched off, and let the
    connection be lost (every statement and every ping fail from now on) in a
    state that the thread has reached by its rounds and the messages queued
    meanwhile, in which the driver is connected, a message waits and has
    attempts left, and the queue keeps a backlog exactly when explicit
    commits are configured.  Then after the round the message, and with
    transaction handling the whole batch that was not committed, is back in
    the queue in its order, the batch starts anew, no message is acknowledged
    or dropped, the failure is not counted as a failed attempt, and the
    thread has closed the connection and suspended itself. *)
Theorem connection_lost_keeps_the_messages (calls : list setter_call) (env : InitEnv)
    (self0 self : AFSqlDestDriver) (msg : LogMessage) (rest : list LogMessage) :
  afsql_dd_init env (configured calls) = InitStarted self0 ->
  has_flag (flags self0) AFSQL_DDF_DONT_CREATE_TABLES = true ->
  thread_reaches self0 self ->
  connection_lost_after (trace self) ->
  dbi_ctx self = true ->
  q_items (queue self) = msg :: rest ->
  use_backlog (queue self) = has_flag (flags self) AFSQL_DDF_EXPLICIT_COMMITS ->
  num_retries self < 2 ^ 31 ->
  failed_message_counter self < num_retries self - 1 ->
  let s' := snd (insert_or_suspend self) in
  q_backlog (queue s') ++ q_items (queue s')
  = q_backlog (queue self) ++ q_items (queue self)
  /\ (flush_lines_queued self <> -1 ->
      q_backlog (queue s') = [] /\ flush_lines_queued s' = 0)
  /\ (flush_lines_queued self = -1 ->
      queue s' = queue self /\ flush_lines_queued s' = -1)
  /\ acknowledged (trace s') = acknowledged (trace self)
  /\ drops (trace s') = drops (trace self)
  /\ failed_message_counter s' = failed_message_counter self
  /\ seq_num s' = seq_num self /\ dropped_messages s' = dropped_messages self
  /\ dbi_ctx s' = false /\ db_thread_suspended s' = true.
Proof.
  intros Hinit Hflag0 Hreaches Hlost Hctx Hitems Hbacklog Hint Hcount s'.
  destruct (transaction_handling_is_explicit calls env self0 self Hinit Hflag0 Hreaches)
    as (Hflags & Hnum & Hone & Hexplicit).
  rewrite <- Hflags in Hflag0, Hexplicit.
  assert (1 <= num_retries self < 2 ^ 31) as Hretries by lia.
  rename Hflag0 into Hflag. clear Hinit Hreaches Hflags Hnum Hone Hint.
  destruct (queue self) as [items backlog ub] eqn:Hq. simpl in Hitems, Hbacklog.
  subst items.
  assert (exists s3 : AFSqlDestDriver,
             s' = set_db_thread_suspended true
                    (set_validated_tables ∅
                       (set_dbi_ctx false (set_trace (EvClose :: trace s3) s3)))
             /\ put_back msg
                  (set_trace (EvPopHead :: trace self)
                     (set_queue
                        {| q_items := rest;
                           q_backlog := if ub then backlog ++ [msg] else backlog;
                           use_backlog := ub |} self)) s3) as (s3 & Hs' & Hput).
  { subst s'. unfold insert_or_suspend, afsql_dd_insert_db,
      afsql_dd_ensure_initialized_connection, afsql_dd_disconnect, afsql_dd_suspend.
    cbv [bind gets ret modify emit]. rewrite Hctx. reduce_control.
    rewrite Hq.
    rewrite (pop_head_of {| q_items := msg :: rest; q_backlog := backlog;
                            use_backlog := ub |} msg rest eq_refl).
    reduce_control.
    match goal with
    | |- context [insert_db_message msg ?s2] =>
        destruct (insert_db_message_lost msg s2
                    (connection_lost_later _ EvPopHead Hlost) Hflag Hretries Hcount)
          as (Hfalse & Hput);
        destruct (insert_db_message msg s2) as [ok s3]
    end.
    simpl in Hfalse. subst ok. exists s3. split; [reflexivity | exact Hput]. }
  clearbody s'. subst s'.
  destruct Hput as (Hfailed & Hseq & Hdropped & Hacked & Hdrops & Hqueue & Hqueued).
  unfold afsql_dd_is_transaction_handling_enabled in Hqueue, Hqueued.
  simpl in Hfailed, Hseq, Hdropped, Hacked, Hdrops, Hqueue, Hqueued. simpl.
  destruct (Z.eqb_spec (flush_lines_queued self) (-1)) as [Hoff|Hon];
    simpl in Hqueue, Hqueued.
  - assert (queue s3 = {| q_items := msg :: rest; q_backlog := backlog;
                          use_backlog := ub |}) as Hsame.
    { rewrite Hqueue, <- Hbacklog. destruct ub; [|reflexivity].
      unfold log_queue_rewind_backlog. simpl.
      rewrite length_app. simpl.
      replace (length backlog + 1 - 1)%nat with (length backlog) by lia.
      rewrite skipn_app, firstn_app, Nat.sub_diag, skipn_all, firstn_all. simpl.
      now rewrite app_nil_r. }
    rewrite Hsame. simpl.
    split; [reflexivity|]. split; [intros; contradiction|].
    split; [intros _; split; [reflexivity | congruence]|].
    repeat split; assumption.
  - specialize (Hexplicit Hon). rewrite Hexplicit in Hbacklog. subst ub.
    rewrite Hqueue. simpl. rewrite <- app_assoc. simpl.
    split; [reflexivity|]. split; [intros _; split; [reflexivity | exact Hqueued]|].
    split; [intros; contradiction|].
    repeat split; assumption.
Qed.

End OutageFacts.

(** ** Columns added to an existing table *)

Section ColumnFacts.

Context {build : BuildConfig} {host : Host} {dbi : Dbi}.

Lemma prefix_append (a b : string) : String.prefix a (a +:+ b) = true.
Proof.
  induction a as [|c a IH]; [destruct b; reflexivity|].
  change (String c a +:+ b) with (String c (a +:+ b)). simpl.
  destruct (ascii_dec c c); [exact IH | congruence].
Qed.

Lemma alter_table_query_is_alter (table name type : string) :
  is_alter_statement (alter_table_query table name type) = true.
Proof.
  unfold is_alter_statement, alter_table_query. apply prefix_append.
Qed.

Lemma create_index_query_is_no_alter (type table column : string) :
  is_alter_statement (create_index_query type table column) = false.
Proof.
  unfold create_index_query.
  destruct (String.eqb type s_oracle); [|reflexivity].
  destruct (Nat.ltb 25 _); [|reflexivity].
  destruct ENABLE_SSL; reflexivity.
Qed.

Lemma statements_sent_app (a b : list event) :
  statements_sent (a ++ b) = statements_sent a ++ statements_sent b.
Proof.
  induction a as [|e a IH]; [reflexivity|].
  destruct e; simpl; rewrite IH; reflexivity.
Qed.

Lemma alterations_app (a b : list event) :
  alterations (a ++ b) = alterations b ++ alterations a.
Proof.
  unfold alterations. now rewrite statements_sent_app, rev_app_distr, List.filter_app.
Qed.

Lemma alterations_none (new : list event) :
  Forall (fun q => is_alter_statement q = false) (statements_sent new) ->
  alterations new = [].
Proof.
  unfold alterations. intros Hall.
  apply Forall_rev in Hall. revert Hall. generalize (rev (statements_sent new)).
  intros l Hall. induction Hall as [|q l Hq _ IH]; [reflexivity|].
  simpl. now rewrite Hq.
Qed.

Lemma kept_sends_no_alteration {A : Type} (c : M A) :
  (forall s : AFSqlDestDriver,
      statements_kept (fun q => is_alter_statement q = false) true s s ->
      statements_kept (fun q => is_alter_statement q = false) true s (snd (c s))) ->
  sends_no_alteration c.
Proof.
  intros Hc s.
  destruct (Hc s (statements_kept_refl _ true s ltac:(discriminate)))
    as (Hcfg & (new & Htr & Hall) & _).
  split; [exact Hcfg|]. exists new. split; [exact Htr|].
  now apply alterations_none.
Qed.

Lemma begin_new_transaction_sends_no_alteration :
  sends_no_alteration afsql_dd_begin_new_transaction.
Proof.
  apply kept_sends_no_alteration. intros s.
  apply begin_new_transaction_statements; try reflexivity.
  - intros _. split; reflexivity.
  - intros _ _. unfold begin_statement. destruct (String.eqb (type s) s_freetds); reflexivity.
Qed.

Lemma create_index_sends_no_alteration (table column : string) :
  sends_no_alteration (afsql_dd_create_index table column).
Proof.
  intros s. unfold afsql_dd_create_index, afsql_dd_run_query, afsql_dd_run_query_result.
  cbv [bind gets ret modify emit]. simpl.
  split; [unfold same_configuration; simpl; tauto|].
  eexists [_]. split; [reflexivity|].
  unfold alterations. simpl. now rewrite create_index_query_is_no_alter.
Qed.

Lemma sends_no_alteration_ret {A : Type} (a : A) : sends_no_alteration (ret a).
Proof.
  intros s. split; [apply same_configuration_refl|]. exists []. split; reflexivity.
Qed.

Lemma sends_no_alteration_bind {A B : Type} (c : M A) (k : A -> M B) :
  sends_no_alteration c -> (forall a, sends_no_alteration (k a)) ->
  sends_no_alteration (bind c k).
Proof.
  intros Hc Hk s. unfold bind.
  destruct (Hc s) as (Hcfg1 & new1 & Htr1 & Hnone1).
  destruct (c s) as [a s1]. simpl in Hcfg1, Htr1.
  destruct (Hk a s1) as (Hcfg2 & new2 & Htr2 & Hnone2).
  split; [exact (same_configuration_trans _ _ _ Hcfg1 Hcfg2)|].
  exists (new2 ++ new1). split; [rewrite Htr2, Htr1; apply app_assoc|].
  now rewrite alterations_app, Hnone1, Hnone2.
Qed.

Lemma create_indexes_of_column_sends_no_alteration (table name : string)
    (l : list string) :
  sends_no_alteration (create_indexes_of_column table name l).
Proof.
  induction l as [|data next IH]; simpl; [apply sends_no_alteration_ret|].
  apply sends_no_alteration_bind; [|intros _; exact IH].
  destruct (String.eqb data name); [|apply sends_no_alteration_ret].
  apply sends_no_alteration_bind; [apply create_index_sends_no_alteration|].
  intros _. apply sends_no_alteration_ret.
Qed.

Lemma commit_transaction_accepting (s : AFSqlDestDriver) :
  accepting_database -> fst (afsql_dd_commit_transaction s) = true.
Proof.
  intros Haccepting. unfold afsql_dd_commit_transaction.
  cbv [bind gets ret modify emit]. destruct (transaction_active s); [|reflexivity].
  reduce_control. now rewrite (run_query_accepting Haccepting).
Qed.

Lemma begin_transaction_accepting (s : AFSqlDestDriver) :
  accepting_database -> fst (afsql_dd_begin_transaction s) = true.
Proof.
  intros Haccepting. unfold afsql_dd_begin_transaction.
  cbv [bind gets ret modify]. destruct (String.eqb (type s) s_oracle); reduce_control;
    [reflexivity|].
  now rewrite (run_query_accepting Haccepting).
Qed.

Lemma begin_new_transaction_accepting (s : AFSqlDestDriver) :
  accepting_database -> fst (afsql_dd_begin_new_transaction s) = true.
Proof.
  intros Haccepting. unfold afsql_dd_begin_new_transaction.
  unfold bind at 1. unfold gets at 1. cbv beta iota zeta. unfold bind at 1.
  destruct (transaction_active s).
  - unfold bind at 1.
    pose proof (commit_transaction_accepting s Haccepting) as Hcommit.
    destruct (afsql_dd_commit_transaction s) as [ok s1]. simpl in Hcommit. subst ok.
    reduce_branches. unfold ret at 1. reduce_branches.
    apply begin_transaction_accepting, Haccepting.
  - unfold ret at 1. reduce_branches. apply begin_transaction_accepting, Haccepting.
Qed.

(** The loop over the fields on a database that accepts every statement:
    it succeeds and alters the table once for each field that is missing, in
    the order of the fields. *)
Lemma add_missing_columns_alterations (db_res : dbi_result) (table : string)
    (fs : list AFSqlField) :
  accepting_database ->
  forall (started : bool) (s : AFSqlDestDriver),
    fst (add_missing_columns db_res table fs started s) = true
    /\ same_configuration s (snd (add_missing_columns db_res table fs started s))
    /\ exists new : list event,
         trace (snd (add_missing_columns db_res table fs started s)) = new ++ trace s
         /\ alterations new
            = map (fun f => alter_table_query table (f_name f) (f_type f))
                (List.filter (field_is_missing db_res) fs).
Proof.
  intros Haccepting. induction fs as [|f rest IH]; intros started s.
  - simpl. split; [reflexivity|]. split; [apply same_configuration_refl|].
    exists []. split; reflexivity.
  - cbn [add_missing_columns List.filter]. unfold field_is_missing at 1.
    destruct (Z.eqb (dbi_result_get_field_idx db_res (f_name f)) 0); [|apply IH].
    unfold bind, gets.
    assert (exists s1 : AFSqlDestDriver,
               (if negb started then afsql_dd_begin_new_transaction else ret true) s
               = (true, s1)
               /\ same_configuration s s1
               /\ exists new : list event,
                    trace s1 = new ++ trace s /\ alterations new = [])
      as (s1 & -> & Hcfg1 & new1 & Htr1 & Hnone1).
    { destruct started; cbn [negb].
      - exists s. split; [reflexivity|]. split; [apply same_configuration_refl|].
        exists []. split; reflexivity.
      - pose proof (begin_new_transaction_accepting s Haccepting) as Hbegun.
        destruct (begin_new_transaction_sends_no_alteration s) as (Hcfg & Hnew).
        destruct (afsql_dd_begin_new_transaction s) as [ok s1].
        simpl in Hbegun, Hcfg, Hnew. subst ok. exists s1. tauto. }
    reduce_branches.
    rewrite (run_query_accepting Haccepting _ false s1). reduce_branches.
    set (s2 := set_trace _ s1).
    assert (sends_no_alteration
              (if enable_indexes s2
               then create_indexes_of_column table (f_name f) (indexes s2)
               else ret tt)) as Hindexes.
    { destruct (enable_indexes s2);
        [apply create_indexes_of_column_sends_no_alteration
        | apply sends_no_alteration_ret]. }
    destruct (Hindexes s2) as (Hcfg3 & new3 & Htr3 & Hnone3).
    destruct ((if enable_indexes s2
               then create_indexes_of_column table (f_name f) (indexes s2)
               else ret tt) s2) as [u s3].
    simpl in Hcfg3, Htr3.
    destruct (IH true s3) as (Hok & Hcfg4 & new4 & Htr4 & Halter4).
    split; [exact Hok|]. split.
    + apply same_configuration_trans with s1; [exact Hcfg1|].
      apply same_configuration_trans with s3; [|exact Hcfg4].
      apply same_configuration_trans with s2; [|exact Hcfg3].
      unfold same_configuration. subst s2. simpl. tauto.
    + exists (new4 ++ new3 ++ [EvQuery (alter_table_query table (f_name f) (f_type f)) true]
                ++ new1).
      split.
      * rewrite Htr4, Htr3. subst s2. simpl. rewrite Htr1.
        rewrite <- !app_assoc. reflexivity.
      * rewrite !alterations_app, Hnone1, Hnone3, Halter4. simpl.
        unfold alterations at 1. simpl. now rewrite alter_table_query_is_alter.
Qed.

(** X23.  Columns that an existing table lacks are added.  On a database
    that accepts every statement, [afsql_dd_validate_table] on a table it has
    not validated yet probes the table, alters it once for each configured
    field that the answer to the probe lacks, in the order of the fields and
    with the name and the type of the field, sends no other ALTER TABLE,
    returns TRUE with the sanitized name and remembers the table. *)
Theorem missing_columns_are_added (self : AFSqlDestDriver) (table : string) :
  let t := snd (afsql_dd_check_sql_identifier table true) in
  let r := afsql_dd_validate_table table self in
  accepting_database ->
  has_flag (flags self) AFSQL_DDF_DONT_CREATE_TABLES = false ->
  t ∉ validated_tables self ->
  exists (db_res : dbi_result) (new : list event),
    dbi_conn_query (trace (snd (afsql_dd_begin_new_transaction self))) (probe_query t)
    = Some db_res
    /\ fst r = (true, t) /\ t ∈ validated_tables (snd r)
    /\ trace (snd r) = new ++ trace self
    /\ alterations new
       = map (fun f => alter_table_query t (f_name f) (f_type f))
           (List.filter (field_is_missing db_res) (fields_of self)).
Proof.
  intros t r Haccepting Hflag Hnew. subst r.
  rewrite (validate_table_unfold table self Hflag Hnew). cbv zeta. fold t.
  pose proof (begin_new_transaction_accepting self Haccepting) as Hbegun.
  destruct (begin_new_transaction_sends_no_alteration self) as (Hcfg1 & new1 & Htr1 & Hnone1).
  destruct (afsql_dd_begin_new_transaction self) as [ok s1].
  simpl in Hbegun, Hcfg1, Htr1. subst ok. reduce_branches.
  unfold afsql_dd_run_query_result. cbv [bind gets ret modify emit].
  pose proof (proj1 Haccepting (trace s1) (probe_query t)) as Hprobe.
  destruct (dbi_conn_query (trace s1) (probe_query t)) as [db_res|]; [|discriminate].
  simpl is_some.
  set (s2 := set_trace _ s1).
  destruct (add_missing_columns_alterations db_res t (fields_of s1) Haccepting false s2)
    as (Hok & Hcfg2 & new2 & Htr2 & Halter2).
  destruct (add_missing_columns db_res t (fields_of s1) false s2) as [success s3].
  simpl in Hok, Hcfg2, Htr2. subst success.
  assert (fields_of s1 = fields_of self) as Hfields.
  { unfold fields_of, same_configuration in *.
    destruct Hcfg1 as (_ & _ & _ & _ & _ & -> & _). reflexivity. }
  exists db_res, (new2 ++ [EvQuery (probe_query t) true] ++ new1).
  split; [reflexivity|]. split; [reflexivity|]. split; [|split].
  - simpl. apply elem_of_union_l, elem_of_singleton. reflexivity.
  - simpl. rewrite Htr2. subst s2. simpl. rewrite Htr1.
    rewrite <- !app_assoc. reflexivity.
  - rewrite !alterations_app, Hnone1, Halter2, Hfields. simpl. reflexivity.
Qed.

End ColumnFacts.

(** ** A batch is one transaction *)

Section BatchTransactionFacts.

Context {build : BuildConfig} {host : Host} {dbi : Dbi}.

Hypothesis accepting : accepting_database.

Lemma begin_transaction_accepted (s : AFSqlDestDriver) :
  afsql_dd_begin_transaction s
  = (true,
     set_transaction_active true
       (if String.eqb (type s) s_oracle then s
        else set_trace (EvQuery (begin_statement (type s)) true :: trace s) s)).
Proof.
  unfold afsql_dd_begin_transaction. cbv [bind gets ret modify].
  destruct (String.eqb (type s) s_oracle); reduce_control; [reflexivity|].
  now rewrite (run_query_accepting accepting).
Qed.

Lemma commit_transaction_accepted_open (s : AFSqlDestDriver) :
  transaction_active s = true ->
  exists s' : AFSqlDestDriver,
    afsql_dd_commit_transaction s = (true, s')
    /\ trace s'
       = EvAckBacklog (flush_lines_queued s) :: EvQuery "COMMIT" true :: trace s
    /\ queue s'
       = log_queue_ack_backlog (queue s) (to_guint32 (flush_lines_queued s))
    /\ flush_lines_queued s' = 0 /\ transaction_active s' = false
    /\ same_configuration s s' /\ dbi_ctx s' = dbi_ctx s
    /\ db_thread_suspended s' = db_thread_suspended s
    /\ seq_num s' = seq_num s /\ failed_message_counter s' = failed_message_counter s.
Proof.
  intros Hactive. unfold afsql_dd_commit_transaction.
  cbv [bind gets ret modify emit]. rewrite Hactive. reduce_control.
  rewrite (run_query_accepting accepting). reduce_control.
  eexists. split; [reflexivity|]. simpl.
  unfold same_configuration. simpl. tauto.
Qed.

Lemma insert_db_out_success (msg : LogMessage) (s : AFSqlDestDriver) :
  insert_db_out msg true s
  = (true,
     set_failed_message_counter 0
       (set_seq_num (step_sequence_number (seq_num s))
          (set_trace (EvMsgAck msg :: trace s) s))).
Proof. reflexivity. Qed.

(** [afsql_dd_insert_db] once a message has been taken from the queue, in
    a driver that counts the rows of its transaction. *)
Lemma insert_db_message_in_batch (s : AFSqlDestDriver) (msg : LogMessage) :
  has_flag (flags s) AFSQL_DDF_DONT_CREATE_TABLES = true -> batch_in_bounds s ->
  exists (s' : AFSqlDestDriver) (new : list event),
    insert_db_message msg s = (true, s')
    /\ batch_round s msg new s'
    /\ q_items (queue s') = q_items (queue s).
Proof.
  intros Hflag ((Hlow & Hhigh) & Hopen).
  unfold insert_db_message, afsql_dd_ensure_accessible_database_table.
  cbv [bind gets ret id].
  rewrite (proj1 (validate_table_skipped s _) Hflag). reduce_control.
  set (name := log_template_format (table s) msg LTZ_LOCAL 0).
  unfold afsql_dd_should_begin_new_transaction.
  set (s3 := if Z.eqb (flush_lines_queued s) 0
             then set_transaction_active true
                    (if String.eqb (type s) s_oracle then s
                     else set_trace (EvQuery (begin_statement (type s)) true :: trace s) s)
             else s).
  assert ((if Z.eqb (flush_lines_queued s) 0 then afsql_dd_begin_transaction
           else fun self => (true, self)) s = (true, s3)) as ->.
  { subst s3. destruct (Z.eqb (flush_lines_queued s) 0);
      [apply begin_transaction_accepted | reflexivity]. }
  reduce_control.
  rewrite (run_query_accepting accepting _ false s3). reduce_control.
  set (insert := afsql_dd_build_insert_command s3 msg name).
  assert (is_insert_statement insert) as Hinsert
    by apply build_insert_command_is_insert.
  assert (flush_lines_queued s3 = flush_lines_queued s /\ flush_lines s3 = flush_lines s
          /\ same_configuration s s3 /\ queue s3 = queue s /\ dbi_ctx s3 = dbi_ctx s
          /\ db_thread_suspended s3 = db_thread_suspended s /\ seq_num s3 = seq_num s
          /\ transaction_active s3 = true
          /\ trace s3
             = (if Z.eqb (flush_lines_queued s) 0
                then map (fun q => EvQuery q true) (begin_statements (type s))
                else []) ++ trace s)
    as (Hqueued3 & Hlines3 & Hcfg3 & Hqueue3 & Hctx3 & Hawake3 & Hseq3 & Hactive3 & Htr3).
  { subst s3. unfold begin_statements, same_configuration.
    destruct (Z.eqb_spec (flush_lines_queued s) 0) as [Hzero|Hpositive].
    - destruct (String.eqb (type s) s_oracle); simpl; tauto.
    - simpl. repeat split; try reflexivity. apply Hopen. lia. }
  clearbody s3 insert.
  unfold insert_db_after_insert. cbv [bind gets ret modify].
  unfold afsql_dd_should_commit_transaction, afsql_dd_is_transaction_handling_enabled.
  cbn [flush_lines_queued set_trace]. rewrite Hqueued3.
  assert (Z.eqb (flush_lines_queued s) (-1) = false) as -> by (apply Z.eqb_neq; lia).
  reduce_control.
  cbn [flush_lines_queued flush_lines set_trace set_flush_lines_queued].
  rewrite Hqueued3, Hlines3.
  assert (Z.eqb (flush_lines_queued s + 1) (-1) = false) as -> by (apply Z.eqb_neq; lia).
  reduce_control.
  set (s5 := set_flush_lines_queued (flush_lines_queued s + 1)
               (set_trace (EvQuery insert true :: trace s3) s3)).
  set (full := Z.eqb (flush_lines_queued s + 1) (flush_lines s)).
  assert (exists s6 : AFSqlDestDriver,
             (if full then afsql_dd_commit_transaction else fun self => (true, self)) s5
             = (true, s6)
             /\ trace s6
                = (if full
                   then [EvAckBacklog (flush_lines_queued s + 1); EvQuery "COMMIT" true]
                   else []) ++ EvQuery insert true :: trace s3
             /\ q_items (queue s6) = q_items (queue s)
             /\ flush_lines_queued s6 = (if full then 0 else flush_lines_queued s + 1)
             /\ transaction_active s6 = negb full
             /\ same_configuration s s6 /\ dbi_ctx s6 = dbi_ctx s
             /\ db_thread_suspended s6 = db_thread_suspended s
             /\ seq_num s6 = seq_num s)
    as (s6 & -> & Htr6 & Hitems6 & Hqueued6 & Hactive6 & Hcfg6 & Hctx6 & Hawake6 & Hseq6).
  { destruct full.
    - destruct (commit_transaction_accepted_open s5 Hactive3)
        as (s6 & Hcommit & Htr & Hqueue & Hqueued & Hactive & Hcfg & Hctx & Hawake
            & Hseq & _).
      exists s6. split; [exact Hcommit|].
      split; [exact Htr|]. split; [rewrite Hqueue, <- Hqueue3; reflexivity|].
      split; [exact Hqueued|]. split; [exact Hactive|].
      split; [exact (same_configuration_trans _ _ _ Hcfg3 Hcfg)|].
      split; [rewrite Hctx; exact Hctx3|]. split; [rewrite Hawake; exact Hawake3|].
      rewrite Hseq. exact Hseq3.
    - exists s5. split; [reflexivity|]. split; [reflexivity|].
      split; [subst s5; cbn [queue set_flush_lines_queued set_trace]; now rewrite Hqueue3|].
      split; [reflexivity|]. split; [exact Hactive3|].
      split; [exact Hcfg3|]. split; [exact Hctx3|]. split; [exact Hawake3 | exact Hseq3]. }
  reduce_control. rewrite insert_db_out_success.
  eexists. exists (EvMsgAck msg :: (if full
                        then [EvAckBacklog (flush_lines_queued s + 1);
                              EvQuery "COMMIT" true]
                        else [])
                     ++ EvQuery insert true
                     :: (if Z.eqb (flush_lines_queued s) 0
                         then map (fun q => EvQuery q true) (begin_statements (type s))
                         else [])).
  split; [reflexivity|]. split; [|exact Hitems6].
  unfold batch_round. cbv zeta. fold full.
  cbn [trace flush_lines_queued transaction_active dbi_ctx db_thread_suspended seq_num
       set_failed_message_counter set_seq_num set_trace].
  split; [rewrite Htr6, Htr3; cbn [app]; rewrite <- app_assoc; reflexivity|].
  split.
  { exists insert. split; [exact Hinsert|].
    unfold begin_statements.
    destruct full; destruct (Z.eqb (flush_lines_queued s) 0);
      destruct (String.eqb (type s) s_oracle); reflexivity. }
  split.
  { unfold begin_statements.
    destruct full; destruct (Z.eqb (flush_lines_queued s) 0);
      destruct (String.eqb (type s) s_oracle); reflexivity. }
  split.
  { unfold begin_statements.
    destruct full; destruct (Z.eqb (flush_lines_queued s) 0);
      destruct (String.eqb (type s) s_oracle); reflexivity. }
  split; [exact Hqueued6|]. split; [exact Hactive6|].
  split; [exact Hcfg6|]. split; [exact Hctx6|]. split; [exact Hawake6|].
  now rewrite Hseq6.
Qed.

(** A round of the thread that finds the driver ready and a message
    waiting. *)
Lemma database_thread_round_in_batch (s : AFSqlDestDriver) (msg : LogMessage)
    (rest : list LogMessage) :
  ready_for_batch s -> q_items (queue s) = msg :: rest ->
  exists (s' : AFSqlDestDriver) (new : list event),
    database_thread_round s = (tt, s')
    /\ batch_round s msg new s' /\ q_items (queue s') = rest.
Proof.
  intros (Hflag & Hctx & Hawake & Hbounds) Hitems.
  unfold database_thread_round. cbv [bind gets]. rewrite Hawake.
  assert (log_queue_has_items (queue s) = true) as ->
    by (unfold log_queue_has_items; now rewrite Hitems).
  reduce_control.
  unfold insert_or_suspend, afsql_dd_insert_db, afsql_dd_ensure_initialized_connection.
  cbv [bind gets ret modify emit]. rewrite Hctx. reduce_control.
  rewrite (pop_head_of (queue s) msg rest Hitems). reduce_control.
  match goal with
  | |- context [insert_db_message msg ?s2] =>
      destruct (insert_db_message_in_batch s2 msg Hflag Hbounds)
        as (s' & new & -> & Hround & Hrest)
  end.
  reduce_control. exists s', (new ++ [EvPopHead]). split; [reflexivity|].
  split; [|exact Hrest].
  destruct Hround as (Htr & (insert & Hinsert & Hsent) & Hacked & Hdrops & Hqueued
                      & Hactive & Hcfg & Hconnected & Hsuspended & Hseq).
  unfold batch_round. cbv zeta.
  split; [rewrite Htr, <- app_assoc; reflexivity|].
  split.
  { exists insert. split; [exact Hinsert|].
    rewrite statements_sent_app. simpl statements_sent at 2. rewrite app_nil_r.
    exact Hsent. }
  split.
  { rewrite acknowledged_app. simpl acknowledged at 2. rewrite app_nil_r. exact Hacked. }
  split.
  { rewrite drops_app. simpl drops at 2. rewrite Nat.add_0_r. exact Hdrops. }
  split; [exact Hqueued|]. split; [exact Hactive|].
  split; [exact Hcfg|]. split; [exact Hconnected|]. split; [exact Hsuspended | exact Hseq].
Qed.

Lemma rounds_complete_batch (msgs : list LogMessage) :
  forall (s : AFSqlDestDriver) (rest : list LogMessage),
    msgs <> [] -> ready_for_batch s -> q_items (queue s) = msgs ++ rest ->
    flush_lines_queued s + Z.of_nat (length msgs) = flush_lines s ->
    exists (s' : AFSqlDestDriver) (new : list event) (inserts : list string),
      database_thread_rounds (length msgs) s = (tt, s')
      /\ trace s' = new ++ trace s
      /\ rev (statements_sent new)
         = (if Z.eqb (flush_lines_queued s) 0 then begin_statements (type s) else [])
             ++ inserts ++ ["COMMIT"]
      /\ length inserts = length msgs
      /\ Forall is_insert_statement inserts
      /\ acknowledged new = rev msgs /\ drops new = 0%nat
      /\ q_items (queue s') = rest
      /\ flush_lines_queued s' = 0 /\ transaction_active s' = false
      /\ seq_num s' = Nat.iter (length msgs) step_sequence_number (seq_num s).
Proof.
  induction msgs as [|msg msgs IH]; intros s rest Hsome Hready Hitems Hfull;
    [contradiction|].
  destruct (database_thread_round_in_batch s msg (msgs ++ rest) Hready Hitems)
    as (s1 & new1 & Hround & Hstep & Hrest1).
  cbn [length database_thread_rounds]. unfold bind. rewrite Hround.
  destruct Hstep as (Htr1 & (insert & Hinsert & Hsent1) & Hacked1 & Hdrops1 & Hqueued1
                     & Hactive1 & Hcfg1 & Hctx1 & Hawake1 & Hseq1).
  destruct Hready as (Hflag & Hctx & Hawake & (Hlow & Hhigh) & Hopen).
  destruct msgs as [|msg2 msgs].
  - assert (Z.eqb (flush_lines_queued s + 1) (flush_lines s) = true) as Hlast
      by (apply Z.eqb_eq; simpl in Hfull; lia).
    rewrite Hlast in Hsent1, Hqueued1, Hactive1.
    exists s1, new1, [insert]. split; [reflexivity|]. split; [exact Htr1|].
    split; [exact Hsent1|]. split; [reflexivity|].
    split; [constructor; [exact Hinsert | constructor]|].
    split; [exact Hacked1|]. split; [exact Hdrops1|]. split; [exact Hrest1|].
    split; [exact Hqueued1|]. split; [exact Hactive1 | exact Hseq1].
  - assert (Z.eqb (flush_lines_queued s + 1) (flush_lines s) = false) as Hmore
      by (apply Z.eqb_neq; cbn [length] in Hfull; lia).
    rewrite Hmore in Hsent1, Hqueued1, Hactive1.
    assert (flush_lines s1 = flush_lines s /\ flags s1 = flags s /\ type s1 = type s)
      as (Hlines1 & Hflags1 & Htype1)
      by (unfold same_configuration in Hcfg1; tauto).
    destruct (IH s1 rest) as (s' & new & inserts & Hrounds & Htr & Hsent & Hlength
                              & Hinserts & Hacked & Hdrops & Hrest & Hqueued & Hactive
                              & Hseq).
    + discriminate.
    + unfold ready_for_batch, batch_in_bounds.
      rewrite Hflags1, Hctx1, Hawake1, Hqueued1, Hlines1.
      split; [exact Hflag|]. split; [exact Hctx|]. split; [exact Hawake|].
      split; [cbn [length] in Hfull; lia | intros _; exact Hactive1].
    + exact Hrest1.
    + rewrite Hqueued1, Hlines1. cbn [length] in Hfull |- *. lia.
    + exists s', (new ++ new1), (insert :: inserts).
      split; [exact Hrounds|].
      split; [rewrite Htr, Htr1; apply app_assoc|].
      split.
      { rewrite statements_sent_app, rev_app_distr, Hsent1, Hsent, Hqueued1.
        assert (Z.eqb (flush_lines_queued s + 1) 0 = false) as ->
          by (apply Z.eqb_neq; lia).
        rewrite <- !app_assoc. reflexivity. }
      split; [cbn [length]; now rewrite Hlength|].
      split; [constructor; assumption|].
      split.
      { rewrite acknowledged_app, Hacked, Hacked1.
        change (rev (msg :: msg2 :: msgs)) with (rev (msg2 :: msgs) ++ [msg]).
        reflexivity. }
      split; [rewrite drops_app, Hdrops, Hdrops1; reflexivity|].
      split; [exact Hrest|]. split; [exact Hqueued|]. split; [exact Hactive|].
      rewrite Hseq, Hseq1.
      change (length (msg :: msg2 :: msgs)) with (S (length (msg2 :: msgs))).
      now rewrite Nat.iter_succ_r.
Qed.

End BatchTransactionFacts.

Section BatchTransactionTheorems.

Context {build : BuildConfig} {host : Host} {dbi : Dbi}.

(** X24.  A batch is one transaction.  On a database that accepts every
    statement, a connected driver that does not create its tables, with the
    counter of its transaction at 0 and as many messages waiting as
    [flush_lines] says, takes one round of the thread for each of them and
    sends the BEGIN of its dialect (none for Oracle), one INSERT for each
    message and then COMMIT, and nothing else; each message is acknowledged
    in its order, none is dropped, the counter is back at 0, no transaction
    is open, and the messages behind the batch are still waiting. *)
Theorem full_batch_is_one_transaction (self : AFSqlDestDriver)
    (msgs rest : list LogMessage) :
  accepting_database -> ready_for_batch self -> flush_lines_queued self = 0 ->
  q_items (queue self) = msgs ++ rest ->
  Z.of_nat (length msgs) = flush_lines self ->
  let s := snd (database_thread_rounds (length msgs) self) in
  exists (new : list event) (inserts : list string),
    trace s = new ++ trace self
    /\ rev (statements_sent new) = begin_statements (type self) ++ inserts ++ ["COMMIT"]
    /\ length inserts = length msgs
    /\ Forall is_insert_statement inserts
    /\ acknowledged new = rev msgs /\ drops new = 0%nat
    /\ q_items (queue s) = rest
    /\ flush_lines_queued s = 0 /\ transaction_active s = false
    /\ seq_num s = Nat.iter (length msgs) step_sequence_number (seq_num self).
Proof.
  intros Haccepting Hready Hzero Hitems Hfull s.
  assert (msgs <> []) as Hsome.
  { destruct Hready as (_ & _ & _ & (_ & Hhigh) & _).
    intros ->. simpl in Hfull. lia. }
  destruct (rounds_complete_batch Haccepting msgs self rest Hsome Hready Hitems
              ltac:(lia))
    as (s' & new & inserts & Hrounds & Htr & Hsent & Hrest).
  subst s. rewrite Hrounds. cbn [snd].
  rewrite Hzero in Hsent. cbn [Z.eqb] in Hsent.
  exists new, inserts. split; [exact Htr|]. split; [exact Hsent | exact Hrest].
Qed.

End BatchTransactionTheorems.

(** ** A table that does not exist *)

Section CreationFacts.

Context {build : BuildConfig} {host : Host} {dbi : Dbi}.

Lemma differs_at_head (a b : string) : String.get 0 a <> String.get 0 b -> a <> b.
Proof. intros H ->. now apply H. Qed.

Lemma transaction_statement_is_no_probe (table q : string) :
  is_transaction_statement q -> q <> probe_query table.
Proof.
  intros [-> | [-> | [-> | ->]]]; apply differs_at_head; discriminate.
Qed.

Lemma create_table_query_is_no_probe (table table' : string) (fs : list AFSqlField) :
  create_table_query table fs <> probe_query table'.
Proof. apply differs_at_head. discriminate. Qed.

(** The statements of [afsql_dd_begin_new_transaction] on a database that
    refuses the probe only. *)
Lemma begin_new_transaction_before_probe (table : string) (s : AFSqlDestDriver) :
  refuses_only (probe_query table) ->
  exists (s' : AFSqlDestDriver) (new : list event),
    afsql_dd_begin_new_transaction s = (true, s')
    /\ same_configuration s s' /\ validated_tables s' = validated_tables s
    /\ trace s' = new ++ trace s
    /\ Forall is_transaction_statement (statements_sent new).
Proof.
  intros Hrefuses.
  assert (forall (q : string) (s0 : AFSqlDestDriver),
             is_transaction_statement q ->
             afsql_dd_run_query q false s0
             = (true, set_trace (EvQuery q true :: trace s0) s0)) as Hrun.
  { intros q s0 Hq. apply (run_query_accepted (probe_query table)); [exact Hrefuses|].
    now apply transaction_statement_is_no_probe. }
  assert (forall s0 : AFSqlDestDriver,
             exists (s' : AFSqlDestDriver) (new : list event),
               afsql_dd_begin_transaction s0 = (true, s')
               /\ same_configuration s0 s' /\ validated_tables s' = validated_tables s0
               /\ trace s' = new ++ trace s0
               /\ Forall is_transaction_statement (statements_sent new)) as Hbegin.
  { intros s0. unfold afsql_dd_begin_transaction. cbv [bind gets ret modify].
    destruct (String.eqb (type s0) s_oracle); reduce_control.
    - eexists. exists []. split; [reflexivity|].
      split; [unfold same_configuration; simpl; tauto|].
      split; [reflexivity|]. split; [reflexivity | constructor].
    - assert (is_transaction_statement
                (if String.eqb (type s0) s_freetds then "BEGIN TRANSACTION" else "BEGIN"))
        as Hq
        by (unfold is_transaction_statement; destruct (String.eqb (type s0) s_freetds);
            tauto).
      rewrite (Hrun _ s0 Hq). reduce_control.
      eexists. eexists [_]. split; [reflexivity|].
      split; [unfold same_configuration; simpl; tauto|].
      split; [reflexivity|]. split; [reflexivity|].
      constructor; [exact Hq | constructor]. }
  unfold afsql_dd_begin_new_transaction. cbv [bind gets ret modify emit].
  destruct (transaction_active s) eqn:Hactive; [|exact (Hbegin s)].
  unfold afsql_dd_commit_transaction. cbv [bind gets ret modify emit].
  rewrite Hactive. reduce_control.
  rewrite (Hrun "COMMIT" s ltac:(unfold is_transaction_statement; tauto)).
  reduce_control.
  match goal with
  | |- context [afsql_dd_begin_transaction ?s1] =>
      destruct (Hbegin s1) as (s' & new & -> & Hcfg & Hvalidated & Htr & Hall)
  end.
  exists s', (new ++ [EvAckBacklog (flush_lines_queued s); EvQuery "COMMIT" true]).
  split; [reflexivity|].
  split; [unfold same_configuration in *; simpl in Hcfg; tauto|].
  split; [exact Hvalidated|].
  split; [rewrite Htr, <- app_assoc; reflexivity|].
  rewrite statements_sent_app. apply Forall_app. split; [exact Hall|].
  constructor; [unfold is_transaction_statement; tauto | constructor].
Qed.

(** The loop over the indexes of a new table sends one statement for each,
    whatever the database answers. *)
Lemma create_all_indexes_sent (table : string) (l : list string) (s : AFSqlDestDriver) :
  exists (s' : AFSqlDestDriver) (new : list event),
    create_all_indexes table l s = (tt, s')
    /\ same_configuration s s' /\ validated_tables s' = validated_tables s
    /\ trace s' = new ++ trace s
    /\ rev (statements_sent new) = map (create_index_query (type s) table) l.
Proof.
  revert s; induction l as [|column l IH]; intros s.
  - exists s, []. split; [reflexivity|]. split; [apply same_configuration_refl|].
    repeat split.
  - cbn [create_all_indexes]. unfold afsql_dd_create_index, afsql_dd_run_query,
      afsql_dd_run_query_result.
    cbv [bind gets ret modify emit].
    match goal with
    | |- context [create_all_indexes table l ?s1] =>
        destruct (IH s1) as (s' & new & -> & Hcfg & Hvalidated & Htr & Hsent)
    end.
    eexists s', (new ++ [_]). split; [reflexivity|].
    split; [unfold same_configuration in *; simpl in Hcfg; tauto|].
    split; [exact Hvalidated|].
    split; [rewrite Htr, <- app_assoc; reflexivity|].
    rewrite statements_sent_app, rev_app_distr, Hsent. reflexivity.
Qed.

(** X25.  A table that does not exist is created.  On a database that
    refuses the probe and nothing else, [afsql_dd_validate_table] on a table
    it has not validated yet sends, between statements of transactions, the
    probe, the CREATE TABLE with every configured field and then, when
    indexes are configured, one statement for each of them in their order:
    what [afsql_dd_create_index] builds for it, a CREATE INDEX on that column
    of the table or, for an Oracle index whose names are together longer
    than 25 characters in a build without [ENABLE_SSL], the empty statement.
    It returns TRUE with the sanitized name and remembers the table. *)
Theorem missing_table_is_created (self : AFSqlDestDriver) (table : string) :
  let t := snd (afsql_dd_check_sql_identifier table true) in
  let r := afsql_dd_validate_table table self in
  refuses_only (probe_query t) ->
  has_flag (flags self) AFSQL_DDF_DONT_CREATE_TABLES = false ->
  t ∉ validated_tables self ->
  fst r = (true, t) /\ t ∈ validated_tables (snd r)
  /\ exists (new : list event) (before between index_statements : list string),
       trace (snd r) = new ++ trace self
       /\ Forall is_transaction_statement before
       /\ Forall is_transaction_statement between
       /\ rev (statements_sent new)
          = before ++ [probe_query t] ++ between
              ++ [create_table_query t (fields_of self)] ++ index_statements
       /\ index_statements
          = (if enable_indexes self
             then map (create_index_query (type self) t) (indexes self)
             else [])
       /\ (enable_indexes self = true ->
           Forall2 (is_index_statement (type self) t) (indexes self) index_statements).
Proof.
  intros t r Hrefuses Hflag Hnew. subst r.
  rewrite (validate_table_unfold table self Hflag Hnew). cbv zeta. fold t.
  destruct (begin_new_transaction_before_probe t self Hrefuses)
    as (s1 & new1 & -> & Hcfg1 & Hvalidated1 & Htr1 & Hall1).
  reduce_branches.
  assert (fields_of s1 = fields_of self) as ->.
  { unfold same_configuration in Hcfg1. unfold fields_of.
    destruct Hcfg1 as (_ & _ & _ & _ & _ & -> & _). reflexivity. }
  unfold afsql_dd_run_query_result. cbv [bind gets ret modify emit].
  rewrite (proj1 Hrefuses (trace s1)). cbn [is_some].
  set (s2 := set_trace _ s1).
  destruct (begin_new_transaction_before_probe t s2 Hrefuses)
    as (s2a & new2 & -> & Hcfg2 & Hvalidated2 & Htr2 & Hall2).
  rewrite (run_query_accepted (probe_query t) _ false s2a Hrefuses
             (create_table_query_is_no_probe _ _ _)).
  set (s2b := set_trace _ s2a).
  assert (same_configuration self s2b) as Hcfg.
  { apply same_configuration_trans with s1; [exact Hcfg1|].
    apply same_configuration_trans with s2a; [exact Hcfg2|].
    unfold same_configuration. simpl. tauto. }
  assert (enable_indexes s2b = enable_indexes self /\ indexes s2b = indexes self
          /\ type s2b = type self)
    as (Henable & Hindexes & Htype)
    by (unfold same_configuration in Hcfg; tauto).
  rewrite Henable, Hindexes.
  assert (exists (s2c : AFSqlDestDriver) (new3 : list event),
             (if enable_indexes self then create_all_indexes t (indexes self)
              else fun self0 => (tt, self0)) s2b = (tt, s2c)
             /\ validated_tables s2c = validated_tables s2b
             /\ trace s2c = new3 ++ trace s2b
             /\ rev (statements_sent new3)
                = (if enable_indexes self
                   then map (create_index_query (type self) t) (indexes self)
                   else []))
    as (s2c & new3 & -> & Hvalidated3 & Htr3 & Hsent3).
  { destruct (enable_indexes self).
    - destruct (create_all_indexes_sent t (indexes self) s2b)
        as (s2c & new3 & Heq & _ & Hvalidated3 & Htr3 & Hsent3).
      exists s2c, new3. rewrite <- Htype. tauto.
    - exists s2b, []. repeat split. }
  split; [reflexivity|]. split.
  { cbn [snd validated_tables set_validated_tables].
    apply elem_of_union_l, elem_of_singleton. reflexivity. }
  exists (new3 ++ [EvQuery (create_table_query t (fields_of self)) true] ++ new2
            ++ [EvQuery (probe_query t) false] ++ new1),
    (rev (statements_sent new1)), (rev (statements_sent new2)),
    (if enable_indexes self
     then map (create_index_query (type self) t) (indexes self)
     else []).
  split.
  { cbn [snd trace set_validated_tables]. rewrite Htr3. subst s2b.
    cbn [trace set_trace]. rewrite Htr2. subst s2. cbn [trace set_trace].
    rewrite Htr1, <- !app_assoc. reflexivity. }
  split; [apply Forall_rev; exact Hall1|]. split; [apply Forall_rev; exact Hall2|].
  split.
  { rewrite !statements_sent_app, !rev_app_distr, Hsent3.
    cbn [statements_sent rev app]. rewrite <- !app_assoc. reflexivity. }
  split; [reflexivity|]. intros ->. generalize (indexes self). intros l.
  induction l as [|column l IH]; constructor;
    [apply create_index_query_cases | exact IH].
Qed.

End CreationFacts.

(** ** A row that the database refuses *)



Section RowErrorFacts.

Context {build : BuildConfig} {host : Host} {dbi : Dbi}.

Section InFlight.

Variable refused : string.

Hypothesis refuses : refuses_only refused.

Hypothesis refused_is_insert : exists x : string, refused = String "I" x.

Variable s0 : AFSqlDestDriver.

Variable msg : LogMessage.

Variable rest : list LogMessage.

Variable attempts : nat.






Section Creating.

Hypothesis creating : has_flag (flags s0) AFSQL_DDF_DONT_CREATE_TABLES = false.








End Creating.

End InFlight.









End RowErrorFacts.


(** * Part III: the statements on the sample instances *)

(** The sample configurations start. *)
Lemma sample_driver_started :
  afsql_dd_init (build := sample_build) sample_env (configured sample_calls)
  = InitStarted sample_driver.
Proof. vm_compute. reflexivity. Qed.

Lemma sample_driver_well_formed : Forall field_well_formed (fields_of sample_driver).
Proof.
  destruct (init_started (build := sample_build) sample_env (configured sample_calls)
              sample_driver (configured_unstarted sample_calls) sample_driver_started)
    as (_ & _ & _ & _ & _ & _ & _ & Hwf).
  exact Hwf.
Qed.

(** The initialization with explicit commits and a flush threshold of 2
    switches transaction handling on: the counter starts at 0 and is not -1
    after any number of rounds on the accepting database. *)
Lemma init_flush_lines_queued_witness :
  afsql_dd_init (build := sample_build) sample_env (configured sample_calls_explicit)
  = InitStarted sample_driver_explicit
  /\ flush_lines_queued sample_driver_explicit = 0
  /\ (flush_lines_queued sample_driver_explicit = -1 <->
      ~ (has_flag (flags sample_driver_explicit) AFSQL_DDF_EXPLICIT_COMMITS = true
         /\ 0 < flush_lines sample_driver_explicit))
  /\ (forall n : nat,
        flush_lines_queued
          (snd (database_thread_rounds (build := sample_build) (dbi := accepting_dbi)
                  n sample_driver_explicit)) <> -1).
Proof.
  assert (afsql_dd_init (build := sample_build) sample_env (configured sample_calls_explicit)
          = InitStarted sample_driver_explicit) as Hinit by (vm_compute; reflexivity).
  destruct (init_flush_lines_queued (build := sample_build) (dbi := accepting_dbi)
              sample_calls_explicit sample_env sample_driver_explicit Hinit)
    as (Hstart & _ & Hlater).
  split; [exact Hinit|]. split; [reflexivity|]. split; [exact Hstart|].
  intros n Hoff. destruct (Hlater n) as (Hrounds & _).
  apply (Hrounds Hoff).
  destruct (rounds_keep_configuration (build := sample_build) (dbi := accepting_dbi)
              n sample_driver_explicit)
    as (_ & _ & _ & _ & _ & _ & _ & _ & _ & Hlines & Hflags & _).
  rewrite Hlines, Hflags. split; reflexivity.
Defined.

(** A flush threshold of 100 without explicit commits: after the
    initialization [flush_lines] is 100 and the counter is -1, so the counter
    is -1 although [flush_lines] is not. *)
Lemma flush_lines_without_explicit_commits :
  afsql_dd_init (build := sample_build) sample_env (configured sample_calls_flush_100)
  = InitStarted sample_driver_flush_100
  /\ flush_lines sample_driver_flush_100 = 100
  /\ flush_lines_queued sample_driver_flush_100 = -1
  /\ ~ (flush_lines sample_driver_flush_100 = -1 <->
        flush_lines_queued sample_driver_flush_100 = -1).
Proof.
  split; [reflexivity|]. split; [reflexivity|]. split; [reflexivity|].
  intros [_ H]. specialize (H eq_refl). discriminate H.
Qed.

(** The history of three rounds of the sample driver on the database that
    refuses the INSERT of [hello], youngest event first. *)
Example row_error_history :
  trace (snd (database_thread_rounds (build := sample_build) (dbi := refusing_insert_dbi)
                3 sample_driver))
  = [@EvMsgDrop sample_host "hello"; EvQuery sample_insert false; EvPopHead;
     EvConnect true; EvConnNew "mysql" true; EvClose;
     @EvPushHead sample_host "hello"; EvPing true; EvQuery sample_insert false; EvPopHead;
     EvConnect true; EvConnNew "mysql" true; EvClose;
     @EvPushHead sample_host "hello"; EvPing true; EvQuery sample_insert false; EvPopHead;
     EvConnect true; EvConnNew "mysql" true].
Proof. vm_compute. reflexivity. Qed.

(** The three outcomes of a commit on the sample drivers: no transaction,
    COMMIT accepted in the middle of a batch of two, COMMIT refused. *)
Lemma commit_transaction_outcomes_witness :
  afsql_dd_commit_transaction (dbi := accepting_dbi) sample_driver = (true, sample_driver)
  /\ (let self' := snd (afsql_dd_commit_transaction (dbi := accepting_dbi)
                          sample_driver_in_batch) in
      trace self' = [EvAckBacklog 2; EvQuery "COMMIT" true]
      /\ q_backlog (queue self') = []
      /\ flush_lines_queued self' = 0 /\ transaction_active self' = false)
  /\ (let self' := snd (afsql_dd_commit_transaction (dbi := refusing_commit_dbi)
                          sample_driver_in_batch) in
      trace self' = [EvRewindBacklogAll; EvQuery "COMMIT" false]
      /\ q_items (queue self') = ["hello"; "world"; "third"]
      /\ flush_lines_queued self' = 0 /\ transaction_active self' = true).
Proof.
  split; [|split].
  - apply (proj1 (commit_transaction_outcomes (dbi := accepting_dbi) sample_driver)).
    reflexivity.
  - destruct (proj1 (proj2 (commit_transaction_outcomes (dbi := accepting_dbi)
                              sample_driver_in_batch)) eq_refl eq_refl)
      as (_ & Ht & Hq & Hf & Ha & _).
    cbv zeta in *. rewrite Ht, Hq, Hf, Ha. vm_compute. repeat split.
  - destruct (proj2 (proj2 (commit_transaction_outcomes (dbi := refusing_commit_dbi)
                              sample_driver_in_batch)) eq_refl eq_refl)
      as (_ & Ht & Hq & Hf & Ha & _).
    cbv zeta in *. rewrite Ht, Hq, Hf, Ha. vm_compute. repeat split.
Defined.

(** A refused COMMIT in the middle of a batch, then the rollback. *)
Lemma commit_failure_then_rollback_witness :
  exists self1 : @AFSqlDestDriver sample_host,
    afsql_dd_commit_transaction (dbi := refusing_commit_dbi) sample_driver_in_batch
    = (false, self1)
    /\ flush_lines_queued (snd (afsql_dd_rollback_transaction (dbi := refusing_commit_dbi)
                                  self1)) = 0
    /\ transaction_active (snd (afsql_dd_rollback_transaction (dbi := refusing_commit_dbi)
                                  self1)) = false.
Proof.
  eexists. split; [reflexivity|].
  pose proof (commit_failure_then_rollback (build := sample_build)
                (dbi := refusing_commit_dbi) sample_driver_in_batch _ eq_refl) as H.
  exact (conj (proj1 (proj1 H)) (proj1 (proj2 (proj1 H)))).
Defined.

(** The INSERT of [hello] on the sample driver: the defaulted column [id]
    is left out of both lists. *)
Lemma insert_command_lists_witness :
  Forall field_well_formed (fields_of sample_driver)
  /\ afsql_dd_build_insert_command (dbi := accepting_dbi) sample_driver "hello" "messages"
     = "INSERT INTO messages (msg, note) VALUES ('hello', NULL)"
  /\ insert_column_list sample_driver = ["msg"; "note"]
  /\ insert_value_list (dbi := accepting_dbi) sample_driver "hello" = ["'hello'"; "NULL"].
Proof.
  split; [exact sample_driver_well_formed|].
  destruct (insert_command_lists (dbi := accepting_dbi) sample_driver "hello" "messages"
              sample_driver_well_formed) as (E & _ & _).
  split; [rewrite E; reflexivity | split; reflexivity].
Defined.

(** The values of the INSERT of a message the driver cannot quote: two
    apostrophes for the message, [NULL] for the null value. *)
Lemma insert_values_null_or_quoted_witness :
  Forall field_well_formed (fields_of sample_driver)
  /\ afsql_dd_build_insert_command (dbi := accepting_dbi) sample_driver "unquotable"
       "messages"
     = "INSERT INTO messages (msg, note) VALUES ('', NULL)"
  /\ insert_value_list (dbi := accepting_dbi) sample_driver "unquotable" = ["''"; "NULL"].
Proof.
  split; [exact sample_driver_well_formed|].
  destruct (insert_values_null_or_quoted (dbi := accepting_dbi) sample_driver "unquotable"
              "messages" sample_driver_well_formed) as (E & _).
  split; [rewrite E; reflexivity | reflexivity].
Defined.

(** An Oracle index on a table and a column of 30 characters in all, in a
    build with OpenSSL. *)
Lemma create_index_name_witness :
  exists name : string,
    create_index_query (build := sample_build) (host := sample_host)
      "oracle" "a_table_name_of_20_c" "column_ten"
    = "CREATE INDEX " +:+ name +:+ " ON a_table_name_of_20_c (column_ten)"
    /\ matches_oracle_index_name name.
Proof.
  destruct (proj1 (create_index_name (build := sample_build) (host := sample_host)
                     "oracle" "a_table_name_of_20_c" "column_ten")
              eq_refl ltac:(simpl; lia) eq_refl) as (name & E & _ & M).
  exists name. split; [exact E | exact M].
Defined.

(** The same index in a build without OpenSSL: the statement is empty, so
    it names no index at all. *)
Lemma oracle_index_without_ssl :
  create_index_query (build := build_without_ssl) (host := sample_host)
    "oracle" "a_table_name_of_20_c" "column_ten" = ""
  /\ ~ (exists name : string,
          create_index_query (build := build_without_ssl) (host := sample_host)
            "oracle" "a_table_name_of_20_c" "column_ten"
          = "CREATE INDEX " +:+ name +:+ " ON a_table_name_of_20_c (column_ten)").
Proof.
  split; [reflexivity|]. intros [name H]. discriminate H.
Qed.

(** On a driver without transaction handling that validates a table, the
    commit that closes the transaction of the probe sets the counter to 0;
    after the first round it is 1 although [flush_lines] is -1. *)
Example schema_commit_resets_counter :
  flush_lines sample_driver_creating = -1
  /\ flush_lines_queued sample_driver_creating = -1
  /\ (let s := snd (database_thread_rounds (build := sample_build) (dbi := accepting_dbi)
                     1 sample_driver_creating) in
      flush_lines s = -1 /\ flush_lines_queued s = 1
      /\ trace s
         = [@EvMsgAck sample_host "hello";
            EvQuery "INSERT INTO messages (msg) VALUES ('hello')" true;
            EvQuery "BEGIN" true;
            EvQuery "ALTER TABLE messages ADD msg text" true;
            EvQuery "BEGIN" true; EvAckBacklog (-1); EvQuery "COMMIT" true;
            EvQuery "SELECT * FROM messages WHERE 0=1" true;
            EvQuery "BEGIN" true; EvPopHead; EvConnect true; EvConnNew "mysql" true]).
Proof. vm_compute. repeat split. Qed.

(** The fields of the sample configuration. *)
Lemma init_fields_checked_witness :
  exists fs : list (@AFSqlField sample_host),
    init_fields (build := sample_build)
      ["msg"; "id int"; "note varchar(8)"]
      [ValueTemplate "$MSG"; ValueCode 1; ValueTemplate "-"] = FieldsBuilt fs
    /\ map f_name fs = ["msg"; "id"; "note"]
    /\ map f_type fs = ["text"; "int"; "varchar(8)"]
    /\ Forall field_well_formed fs
    /\ length fs = 3%nat.
Proof.
  eexists. split; [vm_compute; reflexivity|].
  split; [reflexivity|]. split; [reflexivity|].
  match goal with
  | |- Forall _ ?fs /\ _ =>
      destruct (init_fields_checked (build := sample_build) (host := sample_host)
                  ["msg"; "id int"; "note varchar(8)"]
                  [ValueTemplate "$MSG"; ValueCode 1; ValueTemplate "-"] fs
                  ltac:(vm_compute; reflexivity)) as (Hwf & _ & Hlen)
  end.
  split; [exact Hwf | exact Hlen].
Defined.

(** The table [messages] exists with its column: the driver that creates
    its tables opens a transaction, probes the table, remembers it and sends
    nothing else. *)
Lemma complete_table_is_not_altered_witness :
  exists s' : AFSqlDestDriver,
    afsql_dd_validate_table (build := sample_build) (dbi := existing_table_dbi)
      "messages" sample_driver_creating
    = ((true, "messages"), s')
    /\ "messages" ∈ validated_tables s'
    /\ statements_sent (trace s') = ["SELECT * FROM messages WHERE 0=1"; "BEGIN"].
Proof.
  pose proof (complete_table_is_not_altered (build := sample_build)
                (dbi := existing_table_dbi) sample_driver_creating
                (snd (afsql_dd_begin_new_transaction (dbi := existing_table_dbi)
                        sample_driver_creating))
                "messages" ["msg"]) as H.
  cbv zeta in H. eexists. split; [|split].
  - apply H.
    + reflexivity.
    + intros Hin. exact (not_elem_of_empty (C := gset string) _ Hin).
    + vm_compute. reflexivity.
    + reflexivity.
    + repeat constructor. discriminate.
  - change ("messages" ∈ ({[ "messages" ]} ∪ (∅ : gset string))).
    apply elem_of_union_l, elem_of_singleton. reflexivity.
  - reflexivity.
Defined.

(** The explicit-commit driver with a flush threshold of 2 starts within the
    bounds and stays there on the accepting database. *)
Lemma batch_stays_below_flush_lines_witness :
  batch_in_bounds sample_driver_explicit
  /\ (let s := snd (database_thread_rounds (build := sample_build) (dbi := accepting_dbi)
                      2 sample_driver_explicit) in
      0 <= flush_lines_queued s < 2)
  /\ (let s' := snd (afsql_dd_database_thread (build := sample_build)
                       (dbi := accepting_dbi) 2 false 3 sample_driver_explicit) in
      0 <= flush_lines_queued s' < 2).
Proof.
  assert (batch_in_bounds sample_driver_explicit) as Hstart.
  { unfold batch_in_bounds. simpl. split; [lia | intros; lia]. }
  split; [exact Hstart|].
  destruct (batch_stays_below_flush_lines (build := sample_build) (dbi := accepting_dbi)
              sample_driver_explicit 2 false 3 Hstart) as ((H1 & _) & (H2 & _)).
  split; [exact H1 | exact H2].
Defined.

(** The sample driver does not create tables: on the accepting database its
    thread sends session statements, statements of transactions and INSERTs
    only. *)
Lemma dont_create_tables_sends_no_ddl_witness :
  has_flag (flags sample_driver) AFSQL_DDF_DONT_CREATE_TABLES = true
  /\ exists new : list event,
       trace (snd (afsql_dd_database_thread (build := sample_build)
                     (dbi := accepting_dbi) 2 false 3 sample_driver))
       = new ++ trace sample_driver
       /\ forall q : string,
            In q (statements_sent new) ->
            In q (session_statements sample_driver) \/ is_transaction_statement q
            \/ is_insert_statement q.
Proof.
  assert (has_flag (flags sample_driver) AFSQL_DDF_DONT_CREATE_TABLES = true) as Hflag
    by reflexivity.
  split; [exact Hflag|].
  destruct (dont_create_tables_sends_no_ddl (build := sample_build)
              (dbi := accepting_dbi) sample_driver 2 false 3 Hflag)
    as (new & Htr & Hall & _).
  exists new. split; [exact Htr | exact Hall].
Defined.

Lemma accepting_dbi_accepts : accepting_database (dbi := accepting_dbi).
Proof. split; intros; reflexivity. Qed.

(** Two messages wait in the queue of the sample driver and a third is
    queued behind them: two rounds on the accepting database insert and
    acknowledge the first two in their order, each after its own INSERT, and
    leave the third waiting. *)
Lemma messages_delivered_in_order_witness :
  let queued := afsql_dd_queue (host := sample_host) "again" sample_driver in
  let s := snd (database_thread_rounds (build := sample_build) (dbi := accepting_dbi)
                  2 queued) in
  q_items (queue s) = ["again"]
  /\ acknowledged (trace s) = ["world"; "hello"]
  /\ drops (trace s) = 0%nat
  /\ seq_num s = 3
  /\ acknowledgements (trace s)
     = [("world", ["INSERT INTO messages (msg, note) VALUES ('world', NULL)"]);
        ("hello", ["INSERT INTO messages (msg, note) VALUES ('hello', NULL)"])]
  /\ exists new : list (LogMessage * list string),
       acknowledgements (trace s) = rev new ++ acknowledgements (trace sample_driver)
       /\ each_inserted (build := sample_build) (dbi := accepting_dbi) sample_driver 1
            ["hello"; "world"] new.
Proof.
  destruct (messages_delivered_in_order (build := sample_build) (dbi := accepting_dbi)
              (host := sample_host) sample_driver ["again"] ["hello"; "world"] ["again"]
              accepting_dbi_accepts eq_refl eq_refl)
    as (Hrest & Hacked & Hdrops & Hseq & _ & Hinserted).
  cbv zeta. split; [exact Hrest|]. split; [exact Hacked|]. split; [exact Hdrops|].
  split; [exact Hseq|]. split; [vm_compute; reflexivity | exact Hinserted].
Defined.

(** The thread of the sample driver ends with two messages waiting: on the
    accepting database both are inserted and acknowledged, each after its
    own INSERT, before the connection is closed. *)
Lemma shutdown_delivers_the_queue_witness :
  let r := database_thread_exit (build := sample_build) (dbi := accepting_dbi)
             2 sample_driver in
  fst r = Some tt
  /\ q_items (queue (snd r)) = []
  /\ acknowledged (trace (snd r)) = ["world"; "hello"]
  /\ dbi_ctx (snd r) = false
  /\ acknowledgements (trace (snd r))
     = [("world", ["INSERT INTO messages (msg, note) VALUES ('world', NULL)"]);
        ("hello", ["INSERT INTO messages (msg, note) VALUES ('hello', NULL)"])]
  /\ exists new : list (LogMessage * list string),
       acknowledgements (trace (snd r)) = rev new ++ acknowledgements (trace sample_driver)
       /\ each_inserted (build := sample_build) (dbi := accepting_dbi) sample_driver 1
            ["hello"; "world"] new.
Proof.
  destruct (shutdown_delivers_the_queue (build := sample_build) (dbi := accepting_dbi)
              sample_driver 2 accepting_dbi_accepts eq_refl ltac:(simpl; lia))
    as (Hdone & Hitems & Hacked & _ & Hclosed & _ & _ & Hinserted).
  cbv zeta. split; [exact Hdone|]. split; [exact Hitems|]. split; [exact Hacked|].
  split; [exact Hclosed|]. split; [vm_compute; reflexivity | exact Hinserted].
Defined.

(** The sample driver stops after two messages, at the sequence number 3;
    the driver of the next configuration starts at 3. *)
Lemma seq_num_outlives_reload_witness :
  seq_num sample_driver_after_two = 3
  /\ forall started : @AFSqlDestDriver sample_host,
       afsql_dd_init (build := sample_build)
         (init_environment (persist := sample_persist)
            (snd (afsql_dd_deinit (persist := sample_persist) [] true
                    sample_driver_after_two afsql_dd_new_options))
            (configured sample_calls) afsql_dd_new_options sample_env)
         (configured sample_calls)
       = InitStarted started ->
       seq_num started = 3.
Proof.
  split; [reflexivity|]. intros started Hstarted.
  apply (seq_num_outlives_reload (build := sample_build) (persist := sample_persist)
           [] true sample_driver_after_two (configured sample_calls) started
           afsql_dd_new_options sample_env).
  - intros cfg name n. simpl. rewrite String.eqb_refl. reflexivity.
  - reflexivity.
  - exact Hstarted.
Defined.

(** The sample driver in front of a database that cannot be reached: three
    rounds are three attempts to connect, and the two messages still wait. *)
Lemma unreachable_database_keeps_the_queue_witness :
  let s := snd (database_thread_rounds (build := sample_build) (dbi := unreachable_dbi)
                  3 sample_driver) in
  q_items (queue s) = ["hello"; "world"]
  /\ db_thread_suspended s = true
  /\ exists new : list event,
       trace s = new ++ trace sample_driver
       /\ connection_attempts new = 3%nat /\ statements_sent new = [].
Proof.
  destruct (unreachable_database_keeps_the_queue (build := sample_build)
              (dbi := unreachable_dbi) sample_driver 3
              (or_intror (fun _ => eq_refl)) eq_refl ltac:(simpl; lia))
    as (Hqueue & _ & _ & _ & _ & Hsuspended & new & Htr & Hattempts & Hsent & _).
  cbv zeta. split; [rewrite Hqueue; reflexivity|].
  split; [apply Hsuspended; lia|].
  exists new. split; [exact Htr|]. split; [exact Hattempts | exact Hsent].
Defined.

Lemma lost_after_first_dbi_lost (tr0 : list event) :
  (1 <= length (acknowledged tr0))%nat ->
  connection_lost_after (dbi := lost_after_first_dbi) tr0.
Proof.
  intros Hacked new.
  assert ((1 <=? length (acknowledged (new ++ tr0)))%nat = true) as Hlost.
  { apply Nat.leb_le. rewrite acknowledged_app, length_app. lia. }
  split; [intros q|]; cbv [dbi_conn_query dbi_conn_ping lost_after_first_dbi];
    rewrite Hlost; reflexivity.
Qed.

(** The driver with explicit commits and a batch of two, started by
    [afsql_dd_init] with the messages [hello] and [world] waiting: the first
    round inserts and acknowledges [hello], then the connection is lost.  The
    round of [world] puts the batch that was not committed back: both
    messages wait again in their order, the backlog is empty and the batch
    starts anew. *)
Lemma connection_lost_keeps_the_messages_witness :
  let self := snd (database_thread_round (build := sample_build)
                     (dbi := lost_after_first_dbi) sample_driver_explicit) in
  let s' := snd (insert_or_suspend (build := sample_build) (dbi := lost_after_first_dbi)
                   self) in
  acknowledged (trace self) = ["hello"]
  /\ q_backlog (queue self) = ["hello"] /\ q_items (queue self) = ["world"]
  /\ flush_lines_queued self = 1
  /\ q_backlog (queue s') ++ q_items (queue s') = ["hello"; "world"]
  /\ q_backlog (queue s') = []
  /\ flush_lines_queued s' = 0
  /\ acknowledged (trace s') = ["hello"]
  /\ dbi_ctx s' = false
  /\ db_thread_suspended s' = true.
Proof.
  intros self.
  assert (afsql_dd_init (build := sample_build) sample_env (configured sample_calls_explicit)
          = InitStarted sample_driver_explicit) as Hinit by (vm_compute; reflexivity).
  assert (acknowledged (trace self) = ["hello"]) as Hfirst by (vm_compute; reflexivity).
  destruct (connection_lost_keeps_the_messages (build := sample_build)
              (dbi := lost_after_first_dbi) sample_calls_explicit sample_env
              sample_driver_explicit self "world" []
              Hinit eq_refl (reaches_round _ _ (reaches_start _))
              (lost_after_first_dbi_lost (trace self) ltac:(rewrite Hfirst; simpl; lia))
              ltac:(vm_compute; reflexivity) ltac:(vm_compute; reflexivity)
              ltac:(vm_compute; reflexivity) ltac:(vm_compute; reflexivity)
              ltac:(vm_compute; reflexivity))
    as (Hpending & Hbatch & _ & Hacked & _ & _ & _ & _ & Hclosed & Hsuspended).
  destruct Hbatch as [Hbacklog Hqueued]; [vm_compute; discriminate|].
  cbv zeta. split; [exact Hfirst|].
  split; [vm_compute; reflexivity|]. split; [vm_compute; reflexivity|].
  split; [vm_compute; reflexivity|].
  split; [rewrite Hpending; vm_compute; reflexivity|].
  split; [exact Hbacklog|]. split; [exact Hqueued|].
  split; [rewrite Hacked; exact Hfirst|]. split; [exact Hclosed | exact Hsuspended].
Defined.

(** The accepting database answers the probe with a result without
    columns: the driver that creates its tables adds the column [msg]. *)
Lemma missing_columns_are_added_witness :
  let r := afsql_dd_validate_table (build := sample_build) (dbi := accepting_dbi)
             "messages" sample_driver_creating in
  fst r = (true, "messages")
  /\ exists new : list event,
       trace (snd r) = new ++ trace sample_driver_creating
       /\ alterations new = ["ALTER TABLE messages ADD msg text"].
Proof.
  destruct (missing_columns_are_added (build := sample_build) (dbi := accepting_dbi)
              sample_driver_creating "messages" accepting_dbi_accepts eq_refl
              (fun Hin => not_elem_of_empty (C := gset string) _ Hin))
    as (db_res & new & Hprobe & Hok & _ & Htr & Halter).
  injection Hprobe as <-.
  cbv zeta. split; [exact Hok|]. exists new. split; [exact Htr | exact Halter].
Defined.

(** The explicit-commit driver with a flush threshold of 2 and two messages
    waiting: BEGIN, two INSERTs and COMMIT. *)
Lemma full_batch_is_one_transaction_witness :
  let s := snd (database_thread_rounds (build := sample_build) (dbi := accepting_dbi)
                  2 sample_driver_at_batch) in
  exists (new : list event) (inserts : list string),
    trace s = new ++ trace sample_driver_at_batch
    /\ rev (statements_sent new) = ["BEGIN"] ++ inserts ++ ["COMMIT"]
    /\ length inserts = 2%nat
    /\ acknowledged new = ["world"; "hello"]
    /\ flush_lines_queued s = 0.
Proof.
  assert (ready_for_batch sample_driver_at_batch) as Hready.
  { unfold ready_for_batch, batch_in_bounds. simpl.
    repeat split; try reflexivity; intros; lia. }
  destruct (full_batch_is_one_transaction (build := sample_build) (dbi := accepting_dbi)
              sample_driver_at_batch ["hello"; "world"] [] accepting_dbi_accepts Hready
              eq_refl eq_refl eq_refl)
    as (new & inserts & Htr & Hsent & Hlength & _ & Hacked & _ & _ & Hqueued & _).
  cbv zeta. exists new, inserts.
  split; [exact Htr|]. split; [exact Hsent|]. split; [exact Hlength|].
  split; [exact Hacked | exact Hqueued].
Defined.

Lemma probe_refusing_dbi_refuses :
  refuses_only (dbi := probe_refusing_dbi) "SELECT * FROM messages WHERE 0=1".
Proof.
  split; [reflexivity|]. split; [|split; reflexivity].
  intros tr q Hq. simpl.
  destruct (String.eqb_spec q "SELECT * FROM messages WHERE 0=1");
    [contradiction | reflexivity].
Qed.

(** The table [messages] does not exist: the driver that creates its tables
    and an index on its column probes the table, creates it with its column
    and creates the index. *)
Lemma missing_table_is_created_witness :
  let r := afsql_dd_validate_table (build := sample_build) (dbi := probe_refusing_dbi)
             "messages" sample_driver_indexed in
  fst r = (true, "messages")
  /\ exists (new : list event) (before between : list string),
       trace (snd r) = new ++ trace sample_driver_indexed
       /\ rev (statements_sent new)
          = before ++ ["SELECT * FROM messages WHERE 0=1"] ++ between
              ++ ["CREATE TABLE messages (msg text)";
                  "CREATE INDEX messages_msg_idx ON messages (msg)"]
       /\ Forall2
            (is_index_statement (build := sample_build) (host := sample_host)
               "mysql" "messages")
            ["msg"] ["CREATE INDEX messages_msg_idx ON messages (msg)"].
Proof.
  destruct (missing_table_is_created (build := sample_build) (dbi := probe_refusing_dbi)
              sample_driver_indexed "messages" probe_refusing_dbi_refuses eq_refl
              (fun Hin => not_elem_of_empty (C := gset string) _ Hin))
    as (Hok & _ & new & before & between & index_statements & Htr & _ & _ & Hsent
        & Hindexes & Hshape).
  specialize (Hshape eq_refl). rewrite Hindexes in Hsent, Hshape.
  cbv zeta. split; [exact Hok|]. exists new, before, between.
  split; [exact Htr|]. split; [rewrite Hsent; reflexivity | exact Hshape].
Defined.




(** Why the scenario of a row error lets the counter of the batch count
    messages of the backlog.  With explicit commits, no flush threshold and
    table creation the counter is -1; the COMMIT that the validation of the
    table sends acknowledges that many entries of the backlog as an unsigned
    number, so all of them, the message in flight too.  After one round with
    the INSERT of [hello] refused, [hello] waits nowhere and was not dropped,
    and the second round inserts [world]. *)
Example unbatched_commit_acknowledges_the_row :
  let after :=
    snd (database_thread_rounds (build := sample_build) (dbi := refusing_indexed_dbi)
           1 sample_driver_unbatched) in
  flush_lines_queued sample_driver_unbatched = -1
  /\ queue sample_driver_unbatched
     = @Build_LogQueue sample_host ["hello"; "world"] [] true
  /\ query_attempts sample_insert_indexed (trace after) = 1%nat
  /\ queue after = @Build_LogQueue sample_host ["world"] [] true
  /\ drops (trace after) = 0%nat
  /\ acknowledged (trace after) = [].
Proof. vm_compute. repeat split. Qed.
